(** * Asset registry: identifier sequencer, registry store, bulk creation
      and spreadsheet reconciliation

    A shallow embedding of [helpers/utils.py], [helpers/db.py],
    [helpers/automation.py], the column headers of [helpers/exporter.py]
    and the dialogs of [app.py].

    Python [str] is modelled by [string]; a character is a code point
    below 256, and on these the decimal digits that [\d] and [int] read are
    the ten ASCII digits.  Python [int] is [Z]; between text and number,
    [int] and [str] refuse more than 4300 digits, as CPython 3.11 does.
    The database engine is modelled as storing a bound value as it is; the
    statements on stored rows are made for values of the declared types of
    their columns, on which the engine does the same. *)

From Stdlib Require Import ZArith NArith String Ascii List Bool Lia.
From Stdlib Require Import Floats.SpecFloat.
From stdpp Require Import gmap strings list fin_maps.

Local Open Scope string_scope.
Local Open Scope Z_scope.

(** ** Text: the [str] methods the sources call *)

Module Text.

Definition code (c : ascii) : N := N_of_ascii c.

(** [\d] and [str.isdigit] on code points below 256: the ten ASCII digits. *)
Definition is_digit (c : ascii) : bool :=
  ((48 <=? code c) && (code c <=? 57))%N.

(** [str.isspace] on code points below 256. *)
Definition is_space (c : ascii) : bool :=
  (((9 <=? code c) && (code c <=? 13)) || ((28 <=? code c) && (code c <=? 32))
   || (code c =? 133) || (code c =? 160))%N.

Definition digit_val (c : ascii) : Z := Z.of_N (code c) - 48.

Definition digit_char (d : Z) : ascii := ascii_of_N (Z.to_N (48 + d)).

Fixpoint all_digits (s : string) : bool :=
  match s with
  | EmptyString => true
  | String c s' => is_digit c && all_digits s'
  end.

Fixpoint has_digit (s : string) : bool :=
  match s with
  | EmptyString => false
  | String c s' => is_digit c || has_digit s'
  end.

(** The last character of [s] is a digit. *)
Fixpoint ends_with_digit (s : string) : bool :=
  match s with
  | EmptyString => false
  | String c EmptyString => is_digit c
  | String _ s' => ends_with_digit s'
  end.

(** Value of a run of decimal digits, most significant first. *)
Fixpoint digits_value_acc (acc : Z) (s : string) : Z :=
  match s with
  | EmptyString => acc
  | String c s' => digits_value_acc (10 * acc + digit_val c) s'
  end.

Definition digits_value (s : string) : Z := digits_value_acc 0 s.


(** Decimal digits of a natural number, by repeated division. *)
Fixpoint render_go (fuel : nat) (n : Z) (acc : string) : string :=
  match fuel with
  | O => acc
  | S fuel' =>
      let acc' := String (digit_char (n mod 10)) acc in
      if n / 10 =? 0 then acc' else render_go fuel' (n / 10) acc'
  end.

Definition render_nat (n : Z) : string :=
  render_go (S (Z.to_nat (Z.log2 n))) n "".

(** [str(z)] for an [int]. *)
Definition str_of_Z (z : Z) : string :=
  if z <? 0 then String "-" (render_nat (- z)) else render_nat z.

Fixpoint zeros (n : nat) : string :=
  match n with
  | O => ""
  | S n' => String "0" (zeros n')
  end.

(** [str.zfill(width)]: pad on the left with zeros, after a leading sign. *)
Definition zfill (width : nat) (s : string) : string :=
  let pad := zeros (width - String.length s) in
  match s with
  | String c s' =>
      if (Ascii.eqb c "+" || Ascii.eqb c "-")%bool
      then String c (pad ++ s')
      else pad ++ s
  | EmptyString => pad
  end.

(** [s[start:stop]] for [0 <= start <= stop]. *)
Definition slice (start stop : nat) (s : string) : string :=
  substring start (stop - start) s.

Fixpoint lstrip (s : string) : string :=
  match s with
  | String c s' => if is_space c then lstrip s' else s
  | EmptyString => ""
  end.

Fixpoint rstrip (s : string) : string :=
  match s with
  | String c s' =>
      match rstrip s' with
      | EmptyString => if is_space c then "" else String c ""
      | r => String c r
      end
  | EmptyString => ""
  end.

(** [str.strip()]. *)
Definition strip (s : string) : string := rstrip (lstrip s).

(** [str.lower()] on code points below 256. *)
Definition lower_char (c : ascii) : ascii :=
  let n := code c in
  if (((65 <=? n) && (n <=? 90))
      || ((192 <=? n) && (n <=? 222) && negb (n =? 215)))%N
  then ascii_of_N (n + 32) else c.

Fixpoint lower (s : string) : string :=
  match s with
  | EmptyString => ""
  | String c s' => String (lower_char c) (lower s')
  end.


(** [ds] is a rendering of [n]: a non-empty run of digits of value [n]. *)
Definition renders (ds : string) (n : Z) : Prop :=
  all_digits ds = true /\ ds <> "" /\ digits_value ds = n.

End Text.

(** ** helpers/utils.py *)

Module Utils.
Import Text.

(** [re.finditer(r'\d+', s)]: the spans of the maximal digit runs, left to
    right.  [pos] is the index of the next character and [cur] the start
    of the run being read, when there is one. *)
Definition close_run (cur : option nat) (pos : nat) : list (nat * nat) :=
  match cur with
  | Some start => [(start, pos)]
  | None => []
  end.

Fixpoint finditer_digits_from (pos : nat) (cur : option nat) (s : string)
  : list (nat * nat) :=
  match s with
  | EmptyString => close_run cur pos
  | String c s' =>
      if is_digit c
      then finditer_digits_from (S pos) (Some (default pos cur)) s'
      else close_run cur pos ++ finditer_digits_from (S pos) None s'
  end.

Definition finditer_digits (s : string) : list (nat * nat) :=
  finditer_digits_from 0%nat None s.

(** [sys.get_int_max_str_digits()], as CPython 3.11 sets it: [int] of a
    text with more digits, and [str] of an [int] with more digits, raise
    [ValueError]. *)
Definition int_max_str_digits : nat := 4300.

(** [int(number_str)] for a run matched by [\d+]; every character of the
    run counts, zeros in front too. *)
Definition int_of_digits (number_str : string) : option Z :=
  if (String.length number_str <=? int_max_str_digits)%nat
  then Some (digits_value number_str)
  else None.

(** [str(z)]; the sign does not count. *)
Definition str_of_int (z : Z) : option string :=
  if (String.length (render_nat (Z.abs z)) <=? int_max_str_digits)%nat
  then Some (str_of_Z z)
  else None.

(** [increment_string(s, steps)].  [None] of [int_of_digits] and of
    [str_of_int] is the [ValueError] that the [except] branch turns into
    [return s]. *)
Definition increment_string (s : string) (steps : Z) : string :=
  if String.eqb s "" then s else
  match last (finditer_digits s) with
  | None => s
  | Some (start, stop) =>
      let prefix := slice 0 start s in
      let number_str := slice start stop s in
      let suffix := slice stop (String.length s) s in
      match int_of_digits number_str with
      | None => s
      | Some current_val =>
          let new_val := current_val + steps in
          match str_of_int new_val with
          | None => s
          | Some new_text =>
              let new_number_str := zfill (String.length number_str) new_text in
              prefix ++ new_number_str ++ suffix
          end
      end
  end.

(** The default [steps=1]. *)
Definition increment_string1 (s : string) : string := increment_string s 1.

(** [r] is the last maximal run of digits of [s], between [p] and [x]:
    [r] is a non-empty run of digits, no digit follows it and none
    stands right before it. *)
Definition last_digit_run (s p r x : string) : Prop :=
  s = p ++ r ++ x /\ r <> "" /\ all_digits r = true
  /\ has_digit x = false /\ ends_with_digit p = false.

(** The run [r] and the number it becomes after [steps] are both within
    the digit limit, so that neither [int] nor [str] raises. *)
Definition within_limit (r : string) (steps : Z) : bool :=
  if (String.length r <=? int_max_str_digits)%nat
  then (String.length (render_nat (Z.abs (digits_value r + steps)))
        <=? int_max_str_digits)%nat
  else false.

(** Steps up to this size keep the number of a text shorter than the
    limit within the limit: ten to the power 4299. *)
Definition step_bound : Z := 10 ^ Z.of_nat (pred int_max_str_digits).

End Utils.

(** ** Python values and the built-ins [float], [int], [str], [repr] *)

Module Py.
Import Text.

(** Binary64, the format of a Python [float]. *)
Definition prec64 : Z := 53.
Definition emax64 : Z := 1024.

(** The values that cross the database and spreadsheet interfaces:
    [None], [int], [float] and [str]. *)
Inductive val :=
| VNone
| VInt (z : Z)
| VFloat (f : spec_float)
| VStr (s : string).

Inductive exn :=
| ValueError
| TypeError
| OverflowError
| KeyError (key : string)
| IndexError (msg : string)
| IntegrityError (msg : string)
| OperationalError (msg : string).

(** [str(e)].  The exceptions of the database driver and [KeyError] carry
    their message.  [ValueError], [TypeError] and [OverflowError] are kept
    without one: their class name stands where the message would be, and
    no statement below reads it. *)
Definition str_of_exn (e : exn) : string :=
  match e with
  | ValueError => "ValueError"
  | TypeError => "TypeError"
  | OverflowError => "OverflowError"
  | KeyError k => "'" ++ k ++ "'"
  | IndexError msg => msg
  | IntegrityError msg => msg
  | OperationalError msg => msg
  end.

(** *** Decimal text to binary64, correctly rounded *)

(** [(-1)^sign * n / d] rounded to nearest, ties to even ([0 < d]). *)
Definition float_of_ratio (sign : bool) (n d : Z) : spec_float :=
  if n =? 0 then S754_zero sign
  else
    let '(mz, ez, lz) := SFdiv_core_binary prec64 emax64 n 0 d 0 in
    binary_round_aux prec64 emax64 sign mz ez lz.

(** [(-1)^sign * m * 10^e10]. *)
Definition float_of_decimal (sign : bool) (m e10 : Z) : spec_float :=
  if 0 <=? e10
  then float_of_ratio sign (m * 10 ^ e10) 1
  else float_of_ratio sign m (10 ^ (- e10)).


(** The longest prefix of digits and the remainder. *)
Fixpoint span_digits (s : string) : string * string :=
  match s with
  | String c s' =>
      if is_digit c
      then let '(ds, r) := span_digits s' in (String c ds, r)
      else ("", s)
  | EmptyString => ("", "")
  end.

(** Underscores are accepted between two digits only, and dropped. *)
Fixpoint drop_underscores (prev : option ascii) (s : string) : option string :=
  match s with
  | EmptyString =>
      match prev with
      | Some "_"%char => None
      | _ => Some ""
      end
  | String c s' =>
      if Ascii.eqb c "_"
      then match prev with
           | Some p => if is_digit p then drop_underscores (Some c) s' else None
           | None => None
           end
      else
        match prev with
        | Some "_"%char =>
            if is_digit c then String c <$> drop_underscores (Some c) s' else None
        | _ => String c <$> drop_underscores (Some c) s'
        end
  end.

Definition split_sign (s : string) : bool * string :=
  match s with
  | String "-" s' => (true, s')
  | String "+" s' => (false, s')
  | _ => (false, s)
  end.

(** The exponent part: empty, or [e] or [E], a sign and digits. *)
Definition parse_exponent (s : string) : option Z :=
  match s with
  | EmptyString => Some 0
  | String c s' =>
      if (Ascii.eqb c "e" || Ascii.eqb c "E")%bool
      then
        let '(neg, ds) := split_sign s' in
        if (negb (String.eqb ds "") && all_digits ds)%bool
        then Some (if neg then - digits_value ds else digits_value ds)
        else None
      else None
  end.

(** A decimal literal [digits[.digits][e[+-]digits]] with a digit before
    or after the point: its mantissa and power of ten. *)
Definition parse_decimal (s : string) : option (Z * Z) :=
  let '(ip, r1) := span_digits s in
  let '(fp, r2) :=
    match r1 with
    | String "." r => span_digits r
    | _ => ("", r1)
    end in
  if (String.eqb ip "" && String.eqb fp "")%bool then None
  else
    e ← parse_exponent r2;
    Some (digits_value (ip ++ fp), e - Z.of_nat (String.length fp)).

(** [float(s)] of a [str]; [None] stands for [ValueError]. *)
Definition float_of_string (s : string) : option spec_float :=
  t ← drop_underscores None (strip s);
  let '(neg, body) := split_sign t in
  let l := lower body in
  if (String.eqb l "inf" || String.eqb l "infinity")%bool
  then Some (S754_infinity neg)
  else if String.eqb l "nan" then Some S754_nan
  else
    '(m, e10) ← parse_decimal body;
    Some (float_of_decimal neg m e10).


(** [x == y] on floats. *)
Definition float_eqb (x y : spec_float) : bool := SFeqb x y.

Definition is_nan (f : spec_float) : bool :=
  match f with
  | S754_nan => true
  | _ => false
  end.

(** *** [repr] of a float: the shortest decimal that reads back *)

(** The value of a finite float as a fraction [n / d]. *)
Definition ratio_of_finite (m : positive) (e : Z) : Z * Z :=
  if 0 <=? e then (Z.pos m * 2 ^ e, 1) else (Z.pos m, 2 ^ (- e)).

(** The largest [k] from [lo] upwards with [10^k <= n/d], looking at
    [fuel] candidates. *)
Fixpoint decimal_exponent (fuel : nat) (k : Z) (n d : Z) : Z :=
  match fuel with
  | O => k
  | S fuel' =>
      let k' := k + 1 in
      let fits :=
        if 0 <=? k' then d * 10 ^ k' <=? n else d <=? n * 10 ^ (- k') in
      if fits then decimal_exponent fuel' k' n d else k
  end.

(** [n / d] over [10^x], as a fraction. *)
Definition scale10 (n d x : Z) : Z * Z :=
  if 0 <=? x then (n, d * 10 ^ x) else (n * 10 ^ (- x), d).

(** With [p] significant digits: the neighbours of [n/d] below and above,
    kept when they read back as [f]; the nearer one wins. *)
Definition digits_at (f : spec_float) (n d : Z) (k : Z) (p : Z)
  : option (Z * Z) :=
  let x := k - p + 1 in
  let '(a, b) := scale10 n d x in
  let lo := a / b in
  let hi := lo + 1 in
  let ok (D : Z) := float_eqb (float_of_decimal false D x) f in
  let lo_ok := ((0 <? lo) && ok lo)%bool in
  let hi_ok := ok hi in
  (* distance of lo and hi from a/b, in units of 1/b *)
  let dlo := a - lo * b in
  let dhi := hi * b - a in
  if (lo_ok && hi_ok)%bool then
    if dlo <? dhi then Some (lo, x)
    else if dhi <? dlo then Some (hi, x)
    else Some (if Z.even lo then lo else hi, x)
  else if lo_ok then Some (lo, x)
  else if hi_ok then Some (hi, x)
  else None.

Fixpoint shortest_digits (fuel : nat) (f : spec_float) (n d k p : Z)
  : Z * Z :=
  match fuel with
  | O => (0, 0)
  | S fuel' =>
      match digits_at f n d k p with
      | Some r => r
      | None => shortest_digits fuel' f n d k (p + 1)
      end
  end.

(** Drop the trailing zeros of [D * 10^x]. *)
Fixpoint trim_zeros (fuel : nat) (D x : Z) : Z * Z :=
  match fuel with
  | O => (D, x)
  | S fuel' =>
      if ((D mod 10 =? 0) && negb (D =? 0))%bool
      then trim_zeros fuel' (D / 10) (x + 1)
      else (D, x)
  end.

(** Lay out the digits [ds] of [0.ds * 10^decpt] the way [repr] does:
    positional for [-4 < decpt <= 16], otherwise with an exponent. *)
Definition layout (ds : string) (decpt : Z) : string :=
  let nd := Z.of_nat (String.length ds) in
  if ((-4 <? decpt) && (decpt <=? 16))%bool then
    if decpt <=? 0 then "0." ++ zeros (Z.to_nat (- decpt)) ++ ds
    else if nd <=? decpt then ds ++ zeros (Z.to_nat (decpt - nd)) ++ ".0"
    else substring 0 (Z.to_nat decpt) ds ++ "."
         ++ substring (Z.to_nat decpt) (Z.to_nat (nd - decpt)) ds
  else
    let e := decpt - 1 in
    let mant :=
      match ds with
      | String c EmptyString => ds
      | String c rest => String c ("." ++ rest)
      | EmptyString => ds
      end in
    let es := render_nat (Z.abs e) in
    mant ++ "e" ++ (if e <? 0 then "-" else "+")
         ++ (if Nat.ltb (String.length es) 2 then "0" ++ es else es).

(** [repr(f)], which is also [str(f)]. *)
Definition repr_float (f : spec_float) : string :=
  match f with
  | S754_nan => "nan"
  | S754_infinity s => if s then "-inf" else "inf"
  | S754_zero s => if s then "-0.0" else "0.0"
  | S754_finite s m e =>
      let '(n, d) := ratio_of_finite m e in
      let k := decimal_exponent 700 (-330) n d in
      let '(D, x) := shortest_digits 17 (S754_finite false m e) n d k 1 in
      let '(D', x') := trim_zeros 17 D x in
      let ds := render_nat D' in
      (if s then "-" else "")
        ++ layout ds (x' + Z.of_nat (String.length ds))
  end.

(** *** Conversions of values *)

(** [str(v)]. *)
Definition str (v : val) : string :=
  match v with
  | VNone => "None"
  | VInt z => str_of_Z z
  | VFloat f => repr_float f
  | VStr s => s
  end.

(** [pd.isna(v)] for a scalar: [None] and the float NaN. *)
Definition isna (v : val) : bool :=
  match v with
  | VNone => true
  | VFloat f => is_nan f
  | _ => false
  end.

Definition notna (v : val) : bool := negb (isna v).



(** Truthiness of a [str]. *)
Definition nonempty (s : string) : bool := negb (String.eqb s "").

End Py.

(** ** Code that threads a state and may raise *)

Module Monad.
Import Py.

(** A computation on a state [S] that returns an [A] or raises. *)
Definition SE (S A : Type) : Type := S → (exn + A) * S.

Section Ops.
Context {S : Type}.

Definition ret {A} (a : A) : SE S A := λ s, (inr a, s).
Definition bindM {A B} (m : SE S A) (k : A → SE S B) : SE S B :=
  λ s, match m s with
       | (inl e, s') => (inl e, s')
       | (inr a, s') => k a s'
       end.
(** [try: m except Exception as e: h e]. *)
Definition try_except {A} (m : SE S A) (h : exn → SE S A) : SE S A :=
  λ s, match m s with
       | (inl e, s') => h e s'
       | r => r
       end.
Definition lift {A} (r : exn + A) : SE S A := λ s, (r, s).

(** [for x in l: s = f s x], stopping at the first exception. *)
Fixpoint foldM {A T} (f : T → A → SE S T) (t : T) (l : list A) : SE S T :=
  match l with
  | [] => ret t
  | x :: l' => bindM (f t x) (λ t', foldM f t' l')
  end.
End Ops.

#[global] Instance SE_ret {S} : MRet (SE S) := @ret S.
#[global] Instance SE_bind {S} : MBind (SE S) := λ A B k m, bindM m k.

End Monad.

(** ** The database engine, as far as helpers/db.py uses it *)

Module Sql.
Import Text Py Monad.

(** A row as [dict(row)] shows it: column name to value. *)
Abbreviation row := (gmap string val).

(** A table: its declared columns, its NOT NULL columns, its primary key
    and its rows in rowid order.  A value is stored as it is bound: the
    writers of this repository bind [str] to TEXT columns, [int] to
    INTEGER columns and [float] to REAL columns, on which the column
    affinity changes nothing. *)
Record table := {
  t_name : string;
  t_cols : list string;
  t_notnull : list string;
  t_pk : string;
  t_rows : list row;
}.

Definition with_rows (t : table) (rs : list row) : table :=
  {| t_name := t_name t; t_cols := t_cols t; t_notnull := t_notnull t;
     t_pk := t_pk t; t_rows := rs |}.

Record database := {
  dim_assets : table;
  fact_inventory : table;
}.

Inductive tname := DimAssets | FactInventory.

Definition get_table (n : tname) (db : database) : table :=
  match n with
  | DimAssets => dim_assets db
  | FactInventory => fact_inventory db
  end.

Definition set_table (n : tname) (t : table) (db : database) : database :=
  match n with
  | DimAssets => {| dim_assets := t; fact_inventory := fact_inventory db |}
  | FactInventory => {| dim_assets := dim_assets db; fact_inventory := t |}
  end.

(** [f ? z] for a float and an integer, exactly. *)
Definition float_compare_Z (f : spec_float) (z : Z) : comparison :=
  match f with
  | S754_nan => Lt
  | S754_infinity s => if s then Lt else Gt
  | S754_zero _ => 0 ?= z
  | S754_finite s m e =>
      let M := if s then Z.neg m else Z.pos m in
      if 0 <=? e then M * 2 ^ e ?= z else M ?= z * 2 ^ (- e)
  end.

(** The engine's order of values: NULL, then numbers by value, then text
    by code points. *)
Definition sql_compare (a b : val) : comparison :=
  match a, b with
  | VNone, VNone => Eq
  | VNone, _ => Lt
  | _, VNone => Gt
  | VStr x, VStr y => String.compare x y
  | VStr _, _ => Gt
  | _, VStr _ => Lt
  | VInt x, VInt y => x ?= y
  | VInt x, VFloat f => CompOpp (float_compare_Z f x)
  | VFloat f, VInt y => float_compare_Z f y
  | VFloat f, VFloat g => default Eq (SFcompare f g)
  end.

Definition is_null (v : val) : bool :=
  match v with
  | VNone => true
  | _ => false
  end.

(** [a = b] in a WHERE clause or a uniqueness check: never true on NULL. *)
Definition sql_eq (a b : val) : bool :=
  negb (is_null a) && negb (is_null b)
  && match sql_compare a b with Eq => true | _ => false end.

(** A bound parameter: a NaN is stored as NULL, an [int] must fit 64 bits. *)
Definition bind (v : val) : exn + val :=
  match v with
  | VFloat S754_nan => inr VNone
  | VInt z =>
      if ((- 2 ^ 63 <=? z) && (z <? 2 ^ 63))%bool then inr v
      else inl OverflowError
  | _ => inr v
  end.

(** The value a parameter is stored as, when it can be bound. *)
Definition bound (v : val) : val :=
  match bind v with
  | inr v' => v'
  | inl _ => v
  end.

(** What a column can hold: no NaN, and integers of 64 bits. *)
Definition stored_ok (v : val) : bool :=
  match v with
  | VFloat S754_nan => false
  | VInt z => (- 2 ^ 63 <=? z) && (z <? 2 ^ 63)
  | _ => true
  end.

Fixpoint bind_all (vs : list val) : exn + list val :=
  match vs with
  | [] => inr []
  | v :: vs' =>
      match bind v with
      | inl e => inl e
      | inr v' =>
          match bind_all vs' with
          | inl e => inl e
          | inr r => inr (v' :: r)
          end
      end
  end.

Definition has_col (t : table) (c : string) : bool :=
  bool_decide (c ∈ t_cols t).

(** The value of column [c] of a row ([NULL] for an unset column). *)
Definition col (r : row) (c : string) : val := default VNone (r !! c).

Definition assoc (c : string) (l : list (string * val)) : option val :=
  snd <$> find (λ p, String.eqb (fst p) c) l.

(** The row an INSERT makes: the named columns, NULL elsewhere. *)
Definition make_row (t : table) (named : list (string * val)) : row :=
  list_to_map (map (λ c, (c, default VNone (assoc c named))) (t_cols t)).

Definition key_taken (t : table) (r : row) : bool :=
  existsb (λ r', sql_eq (col r' (t_pk t)) (col r (t_pk t))) (t_rows t).

(** A row has every column of the table, and storable values. *)
Definition row_ok (cols : list string) (r : row) : Prop :=
  Forall (λ c, is_Some (r !! c)) cols
  ∧ map_Forall (λ _ v, stored_ok v = true) r.

Definition rows_ok (t : table) : Prop := Forall (row_ok (t_cols t)) (t_rows t).

Inductive conflict := Abort | Ignore.

(** [INSERT [OR IGNORE] INTO t (cols) VALUES (vals)]: the new table and
    the row count.  NOT NULL is checked before uniqueness. *)
Definition insert_into (on : conflict) (t : table) (cols : list string)
    (vals : list val) : exn + (table * nat) :=
  match find (λ c, negb (has_col t c)) cols with
  | Some c =>
      inl (OperationalError
             ("table " ++ t_name t ++ " has no column named " ++ c))
  | None =>
      match bind_all vals with
      | inl e => inl e
      | inr vals' =>
          let r := make_row t (zip cols vals') in
          match find (λ c, is_null (col r c)) (t_notnull t) with
          | Some c =>
              match on with
              | Abort =>
                  inl (IntegrityError
                         ("NOT NULL constraint failed: " ++ t_name t ++ "." ++ c))
              | Ignore => inr (t, 0%nat)
              end
          | None =>
              if key_taken t r then
                match on with
                | Abort =>
                    inl (IntegrityError
                           ("UNIQUE constraint failed: " ++ t_name t ++ "."
                              ++ t_pk t))
                | Ignore => inr (t, 0%nat)
                end
              else inr (with_rows t (t_rows t ++ [r]), 1%nat)
          end
      end
  end.

Definition no_such_column (c : string) : exn :=
  OperationalError ("no such column: " ++ c).

(** [SELECT * FROM t WHERE p], where the condition names the columns
    [used]. *)
Definition select_where (t : table) (used : list string) (p : row → bool)
  : exn + list row :=
  match find (λ c, negb (has_col t c)) used with
  | Some c => inl (no_such_column c)
  | None => inr (filter (λ r, p r = true) (t_rows t))
  end.

(** [SELECT * FROM t WHERE c = ?]. *)
Definition select_eq (t : table) (c : string) (v : val) : exn + list row :=
  if has_col t c
  then match bind v with
       | inl e => inl e
       | inr v' => inr (filter (λ r, sql_eq (col r c) v' = true) (t_rows t))
       end
  else inl (no_such_column c).

(** Insertion of a row into a list kept in descending order of column
    [c]; a row goes after those it ties with. *)
Fixpoint insert_desc (c : string) (r : row) (rs : list row) : list row :=
  match rs with
  | [] => [r]
  | r' :: rs' =>
      match sql_compare (col r c) (col r' c) with
      | Gt => r :: rs
      | _ => r' :: insert_desc c r rs'
      end
  end.

(** The first row after [ORDER BY c DESC], read as a running maximum. *)
Definition max_step (c : string) (o : option row) (r : row) : option row :=
  Some match o with
       | None => r
       | Some h => match sql_compare (col r c) (col h c) with
                   | Gt => r
                   | _ => h
                   end
       end.

(** [o] is a row of [seen] whose text key in column [c] is above the
    text keys of all rows of [seen]; none when [seen] is empty. *)
Definition is_max (c : string) (seen : list row) (o : option row) : Prop :=
  match o with
  | None => seen = []
  | Some h =>
      h ∈ seen
      ∧ ∀ r k k', r ∈ seen -> col r c = VStr k' -> col h c = VStr k ->
                  String.leb k' k = true
  end.

(** [ORDER BY c DESC]. *)
Definition order_by_desc (t : table) (c : string) (rs : list row)
  : exn + list row :=
  if has_col t c
  then inr (foldl (λ acc r, insert_desc c r acc) [] rs)
  else inl (no_such_column c).

(** [ORDER BY c] (ascending): a row goes after those it ties with. *)
Fixpoint insert_asc (c : string) (r : row) (rs : list row) : list row :=
  match rs with
  | [] => [r]
  | r' :: rs' =>
      match sql_compare (col r c) (col r' c) with
      | Lt => r :: rs
      | _ => r' :: insert_asc c r rs'
      end
  end.

Definition order_by_asc (t : table) (c : string) (rs : list row)
  : exn + list row :=
  if has_col t c
  then inr (foldl (λ acc r, insert_asc c r acc) [] rs)
  else inl (no_such_column c).

(** [DELETE FROM t WHERE c = ?]: the new table and the row count. *)
Definition delete_eq (t : table) (c : string) (v : val) : exn + (table * nat) :=
  match select_eq t c v with
  | inl e => inl e
  | inr hit =>
      inr (with_rows t (filter (λ r, sql_eq (col r c) v ≠ true) (t_rows t)),
           length hit)
  end.

(** *** Connections and transactions

    A connection sees its own uncommitted writes in [work]; [file] is the
    committed state, the one other connections and later calls see. *)
Record conn := { file : database; work : database }.

Abbreviation M := (SE conn).

Definition commit : M unit :=
  λ c, (inr tt, {| file := work c; work := work c |}).

(** A statement that reads table [n] of the connection's view. *)
Definition query {A} (n : tname) (q : table → exn + A) : M A :=
  λ c, (q (get_table n (work c)), c).

(** A statement that writes table [n]; a failed statement changes nothing. *)
Definition execute (n : tname) (q : table → exn + (table * nat)) : M nat :=
  λ c, match q (get_table n (work c)) with
       | inl e => (inl e, c)
       | inr (t', count) =>
           (inr count, {| file := file c; work := set_table n t' (work c) |})
       end.

(** [with self.get_connection() as conn: body]: the connection is opened
    on the committed state and closed on the way out, also when [body]
    raises; what was not committed is lost. *)
Definition with_connection {A} (body : M A) (db : database)
  : (exn + A) * database :=
  let '(r, c) := body {| file := db; work := db |} in (r, file c).

End Sql.

(** ** Spreadsheets as pandas reads them *)

Module Pandas.
Import Text Py.

(** What [pd.read_excel(path, header=n)] gives: the column labels and the
    data rows, cell by cell.  An empty cell is the float NaN. *)
Record DataFrame := {
  df_columns : list val;
  df_data : list (list val);
}.

(** A row of [df.iterrows()]: label and cell, in column order. *)
Definition Series : Type := list (string * val).

(** [df.columns = [str(c).strip() for c in df.columns]]. *)
Definition stripped_columns (df : DataFrame) : list string :=
  map (λ c, strip (str c)) (df_columns df).

Definition iterrows (df : DataFrame) : list Series :=
  map (λ cells, zip (stripped_columns df) cells) (df_data df).

(** [row.get(key, dflt)]. *)
Definition row_get (r : Series) (key : string) (dflt : val) : val :=
  default dflt (snd <$> find (λ p, String.eqb (fst p) key) r).

(** [len(df)]. *)
Definition len (df : DataFrame) : nat := length (df_data df).

End Pandas.

(** ** helpers/db.py *)

Module Db.
Import Text Py Monad Sql Pandas.

(** A Python [dict] with [str] keys. *)
Abbreviation dict := (gmap string val).

(** [d.get(k)] and [d.get(k, dflt)]. *)
Definition get (d : dict) (k : string) : val := default VNone (d !! k).
Definition get_or (d : dict) (k : string) (dflt : val) : val :=
  default dflt (d !! k).

Definition dim_assets_columns : list string :=
  ["nama_aset"; "brand"; "sub_klasifikasi"; "jenis_aset"; "spesifikasi";
   "os_default"; "layanan"; "quantity"; "harga_pembelian"; "pemilik_asset";
   "unit"; "client"; "penyedia_aset"; "pemegang_aset"; "pic"; "lokasi_aset";
   "area"; "status"; "sub_status"; "masa_berlaku"; "kerahasiaan";
   "integritas"; "ketersediaan"; "nilai"].

Definition fact_inventory_columns : list string :=
  ["kode"; "serial_number"; "tanggal_po"; "layanan"; "brand"; "nama_aset";
   "sub_klasifikasi"; "jenis_aset"; "spesifikasi"; "os"; "quantity";
   "harga_pembelian"; "pemilik_asset"; "unit"; "client"; "penyedia_aset";
   "pemegang_aset"; "pic"; "user"; "lokasi_aset"; "area"; "status";
   "sub_status"; "masa_berlaku"; "kerahasiaan"; "integritas";
   "ketersediaan"; "nilai"; "keterangan"; "last_so_date"; "timestamp"].

(** The two tables as [create_tables] declares them, empty. *)
Definition new_dim_assets : table :=
  {| t_name := "dim_assets"; t_cols := dim_assets_columns;
     t_notnull := []; t_pk := "nama_aset"; t_rows := [] |}.

Definition new_fact_inventory : table :=
  {| t_name := "fact_inventory"; t_cols := fact_inventory_columns;
     t_notnull := ["nama_aset"]; t_pk := "kode"; t_rows := [] |}.

(** [create_tables]: CREATE TABLE IF NOT EXISTS leaves the tables of an
    existing file as they are. *)
Definition create_tables (f : option database) : database :=
  default {| dim_assets := new_dim_assets;
             fact_inventory := new_fact_inventory |} f.

(** The tables are the ones [create_tables] declares. *)
Definition declared (db : database) : Prop :=
  dim_assets db = with_rows new_dim_assets (t_rows (dim_assets db))
  /\ fact_inventory db
     = with_rows new_fact_inventory (t_rows (fact_inventory db)).

(** A database this module made and filled. *)
Definition opened (db : database) : Prop :=
  declared db /\ rows_ok (dim_assets db) /\ rows_ok (fact_inventory db).

(** A record with code [k] is stored. *)
Definition has_kode (k : string) (db : database) : Prop :=
  ∃ r, r ∈ t_rows (fact_inventory db) ∧ col r "kode" = VStr k.

(** The exception of an insert into the inventory without asset name. *)
Definition not_null_error : exn :=
  IntegrityError "NOT NULL constraint failed: fact_inventory.nama_aset".

(** The check that decides a uniqueness failure on [kode]. *)
Definition kode_taken (k : string) (db : database) : bool :=
  existsb (λ r, sql_eq (col r "kode") (VStr k)) (t_rows (fact_inventory db)).

(** [db] with the rows [rs] added to the declared inventory table. *)
Definition add_rows (db : database) (rs : list row) : database :=
  set_table FactInventory
    (with_rows new_fact_inventory (t_rows (fact_inventory db) ++ rs)) db.

(** [cursor.fetchone()] then [dict(row) if row else None]. *)
Definition fetchone (rs : list row) : option row := head rs.

Definition get_asset_by_name (nama_aset : val) (db : database)
  : (exn + option row) * database :=
  with_connection
    (rs ← query DimAssets (λ t, select_eq t "nama_aset" nama_aset);
     mret (fetchone rs)) db.

Definition get_inventory_template (nama_aset : val) (db : database)
  : (exn + option row) * database :=
  with_connection
    (rs ← query FactInventory (λ t,
             match select_eq t "nama_aset" nama_aset with
             | inl e => inl e
             | inr rs => order_by_desc t "timestamp" rs
             end);
     mret (fetchone rs)) db.

Definition get_latest_item (nama_aset : val) (db : database)
  : (exn + option row) * database :=
  with_connection
    (rs ← query FactInventory (λ t,
             match select_eq t "nama_aset" nama_aset with
             | inl e => inl e
             | inr rs => order_by_desc t "kode" rs
             end);
     mret (fetchone rs)) db.

(** Column and the key of [data] it is filled from. *)
Definition inventory_fields : list (string * string) :=
  [("kode", "Kode"); ("serial_number", "Serial Number");
   ("tanggal_po", "Tanggal PO"); ("layanan", "Layanan"); ("brand", "Brand");
   ("nama_aset", "Nama Aset"); ("sub_klasifikasi", "Sub Klasifikasi");
   ("jenis_aset", "Jenis Aset"); ("spesifikasi", "Spesifikasi"); ("os", "OS");
   ("quantity", "Quantity"); ("harga_pembelian", "Harga Pembelian");
   ("pemilik_asset", "Pemilik Asset"); ("unit", "Unit"); ("client", "Client");
   ("penyedia_aset", "Penyedia Aset"); ("pemegang_aset", "Pemegang Aset");
   ("pic", "PIC"); ("user", "User"); ("lokasi_aset", "Lokasi Aset");
   ("area", "Area"); ("status", "Status"); ("sub_status", "Sub Status");
   ("masa_berlaku", "Masa Berlaku"); ("kerahasiaan", "Kerahasiaan");
   ("integritas", "Integritas"); ("ketersediaan", "Ketersediaan");
   ("nilai", "Nilai"); ("keterangan", "Keterangan");
   ("last_so_date", "Last SO Date")].

(** [insert_asset(data)]. *)
Definition insert_asset (data : dict) (db : database)
  : (exn + unit) * database :=
  with_connection
    (_ ← execute DimAssets (λ t,
           insert_into Abort t dim_assets_columns
             (map (get data) dim_assets_columns));
     commit) db.

(** [insert_inventory(data)]; [now] is what [datetime.now().isoformat()]
    returns during the call. *)
Definition insert_inventory (now : string) (data : dict) (db : database)
  : (exn + unit) * database :=
  with_connection
    (_ ← execute FactInventory (λ t,
           insert_into Abort t
             (map fst inventory_fields ++ ["timestamp"])
             (map (λ p, get data (snd p)) inventory_fields ++ [VStr now]));
     commit) db.

(** The row [insert_inventory] makes from the bound values [vals]. *)
Definition inserted_row (now : string) (vals : list val) : row :=
  make_row new_fact_inventory
    (zip (map fst inventory_fields ++ ["timestamp"]) (vals ++ [VStr now])).

(** Every [int] of [data] fits 64 bits, so that it can be bound. *)
Definition ints_fit (data : dict) : Prop :=
  ∀ key z, data !! key = Some (VInt z) → - 2 ^ 63 <= z < 2 ^ 63.

(** The row [insert_inventory] stores for [data]. *)
Definition row_of_data (now : string) (data : dict) : row :=
  inserted_row now (map (λ p, bound (get data (snd p))) inventory_fields).

Definition delete_inventory (kode : val) (db : database)
  : (exn + bool) * database :=
  with_connection
    (n ← execute FactInventory (λ t, delete_eq t "kode" kode);
     _ ← commit;
     mret (Nat.ltb 0 n)) db.

Definition kode_exists (kode : val) (db : database)
  : (exn + bool) * database :=
  with_connection
    (rs ← query FactInventory (λ t, select_eq t "kode" kode);
     mret (bool_decide (fetchone rs ≠ None))) db.

Definition serial_exists (serial_number : val) (db : database)
  : (exn + bool) * database :=
  with_connection
    (rs ← query FactInventory (λ t, select_eq t "serial_number" serial_number);
     mret (bool_decide (fetchone rs ≠ None))) db.


(** An asset named [name] is in the catalog. *)
Definition asset_known (name : val) (db : database) : bool :=
  existsb (λ r, sql_eq (col r "nama_aset") (bound name))
    (t_rows (dim_assets db)).

(** Truthiness of a value. *)
Definition truthy (v : val) : bool :=
  match v with
  | VNone => false
  | VInt z => negb (z =? 0)
  | VFloat f => match f with S754_zero _ => false | _ => true end
  | VStr s => nonempty s
  end.







(** *** [ingest_from_excel] *)













(** [get_all_assets()]. *)
Definition get_all_assets (db : database) : (exn + list row) * database :=
  with_connection
    (query DimAssets (λ t, order_by_asc t "nama_aset" (t_rows t))) db.

(** *** The declared column types

    Both tables declare [quantity INTEGER], five [REAL] columns and [TEXT]
    for the rest.  The engine changes a value whose type is not the
    column's (a number in a text column becomes text, a numeric text in a
    number column becomes a number) and gives a negative zero back as
    zero; the model stores the bound value as it is.  The two agree on the
    values [storable] accepts, and the statements about stored rows are
    made for those. *)
Inductive affinity := TEXT | INTEGER | REAL.

Definition real_columns : list string :=
  ["harga_pembelian"; "kerahasiaan"; "integritas"; "ketersediaan"; "nilai"].

Definition column_type (c : string) : affinity :=
  if String.eqb c "quantity" then INTEGER
  else if bool_decide (c ∈ real_columns) then REAL
  else TEXT.

Definition is_neg_zero (f : spec_float) : bool :=
  match f with
  | S754_zero true => true
  | _ => false
  end.

(** A value that a column of type [a] stores as it is bound: [None], text
    in a text column, an integer of 64 bits in the integer column, a float
    other than negative zero in a real column (a NaN is bound as NULL). *)
Definition storable (a : affinity) (v : val) : bool :=
  match v, a with
  | VNone, _ => true
  | VStr _, TEXT => true
  | VInt z, INTEGER => (- 2 ^ 63 <=? z) && (z <? 2 ^ 63)
  | VFloat f, REAL => negb (is_neg_zero f)
  | _, _ => false
  end.

(** The values [insert_inventory] reads from [data] have the types of
    their columns. *)
Definition typed_record (data : dict) : bool :=
  forallb (λ p, storable (column_type (fst p)) (get data (snd p)))
    inventory_fields.

(** The same for the values [insert_asset] reads. *)
Definition typed_asset (data : dict) : bool :=
  forallb (λ c, storable (column_type c) (get data c)) dim_assets_columns.

(** A stored row holds, under each column, a value of the column's type. *)
Definition typed_row (cols : list string) (r : row) : bool :=
  forallb (λ c, storable (column_type c) (col r c)) cols.

Definition typed_db (db : database) : Prop :=
  Forall (λ r, typed_row dim_assets_columns r = true) (t_rows (dim_assets db))
  ∧ Forall (λ r, typed_row fact_inventory_columns r = true)
      (t_rows (fact_inventory db)).

(** *** Sheet rows, as [ingest_from_excel] reads them *)





End Db.

(** ** app.py: the Save button of the "Add Inventory Item" dialog *)

Module App.
Import Text Utils Py Monad Sql Db.

(** The widgets of the dialog, as read when Save is pressed. *)
Record form := {
  selected_asset_name : string;
  kode : string;
  serial_number : string;
  tanggal_po : string;            (* str(tanggal_po) of the date picked *)
  layanan : string;
  quantity : nat;                 (* number_input with min_value=1 *)
  harga_pembelian : spec_float;
  status : string;
  sub_status : string;
  user : string;
  lokasi_aset : string;
  area : string;
  pemegang_aset : string;
  client : string;
  pemilik_asset : string;
  unit_ : string;
  pic : string;
  penyedia_aset : string;
  kerahasiaan : spec_float;
  integritas : spec_float;
  ketersediaan : spec_float;
  nilai : spec_float;
  masa_berlaku : string;
  keterangan : string;
}.

(** What the handler shows; the pictograph that starts a message is left
    out of the text. *)
Inductive ui :=
| StWarning (msg : string)
| StError (msg : string)
| StSuccess (msg : string)
| StWrite (items : list string)
| StRerun.

(** Truthiness of [dict(row) if row else None]. *)
Definition dict_truthy (d : option row) : bool :=
  match d with
  | Some r => negb (Nat.eqb (size r) 0)
  | None => false
  end.

(** [d and key in d and pd.notna(d[key])], with the value. *)
Definition lookup_notna (d : option row) (key : string) : option val :=
  match d with
  | Some r =>
      if dict_truthy d
      then match r !! key with
           | Some v => if notna v then Some v else None
           | None => None
           end
      else None
  | None => None
  end.

(** [get_default(key)]: the template, then the master asset, then [""]. *)
Definition get_default (template master_asset : option row) (key : string)
  : val :=
  match lookup_notna template key with
  | Some v => v
  | None => default (VStr "") (lookup_notna master_asset key)
  end.

(** [master_asset[mkey] if master_asset else get_default(key)]. *)
Definition from_master (template master_asset : option row)
    (mkey key : string) : exn + val :=
  if dict_truthy master_asset
  then match master_asset with
       | Some m =>
           match m !! mkey with
           | Some v => inr v
           | None => inl (KeyError mkey)
           end
       | None => inl (KeyError mkey)
       end
  else inr (get_default template master_asset key).

(** The [inventory_data] of one turn of the loop. *)
Definition inventory_data (template master_asset : option row) (f : form)
    (current_kode current_serial : string) : exn + dict :=
  match from_master template master_asset "brand" "brand",
        from_master template master_asset "sub_klasifikasi" "sub_klasifikasi",
        from_master template master_asset "jenis_aset" "jenis_aset",
        from_master template master_asset "spesifikasi" "spesifikasi",
        from_master template master_asset "os_default" "os" with
  | inr brand, inr sub_klasifikasi, inr jenis_aset, inr spesifikasi, inr os =>
      inr (list_to_map
        [("Kode", VStr current_kode);
         ("Serial Number", VStr current_serial);
         ("Nama Aset", VStr (selected_asset_name f));
         ("Tanggal PO", VStr (tanggal_po f));
         ("Layanan", VStr (layanan f));
         ("Brand", brand);
         ("Sub Klasifikasi", sub_klasifikasi);
         ("Jenis Aset", jenis_aset);
         ("Spesifikasi", spesifikasi);
         ("OS", os);
         ("Quantity", VInt 1);
         ("Harga Pembelian", VFloat (harga_pembelian f));
         ("Pemilik Asset", VStr (pemilik_asset f));
         ("Unit", VStr (unit_ f));
         ("Client", VStr (client f));
         ("Penyedia Aset", VStr (penyedia_aset f));
         ("Pemegang Aset", VStr (pemegang_aset f));
         ("PIC", VStr (pic f));
         ("User", VStr (user f));
         ("Lokasi Aset", VStr (lokasi_aset f));
         ("Area", VStr (area f));
         ("Status", VStr (status f));
         ("Sub Status", VStr (sub_status f));
         ("Masa Berlaku", VStr (masa_berlaku f));
         ("Kerahasiaan", VFloat (kerahasiaan f));
         ("Integritas", VFloat (integritas f));
         ("Ketersediaan", VFloat (ketersediaan f));
         ("Nilai", VFloat (nilai f));
         ("Keterangan", VStr (keterangan f));
         ("Last SO Date", VNone)])
  | inl e, _, _, _, _ => inl e
  | _, inl e, _, _, _ => inl e
  | _, _, inl e, _, _ => inl e
  | _, _, _, inl e, _ => inl e
  | _, _, _, _, inl e => inl e
  end.

(** The code and the serial of turn [i]: the base, run [i] times through
    the sequencer. *)
Definition nth_kode (f : form) (i : nat) : string :=
  Nat.iter i increment_string1 (kode f).
Definition nth_serial (f : form) (i : nat) : string :=
  Nat.iter i increment_string1 (serial_number f).

(** The row turn [i] stores. *)
Definition data_of (template master_asset : option row) (f : form)
    (k s : string) : dict :=
  match inventory_data template master_asset f k s with
  | inr d => d
  | inl _ => ∅
  end.

Definition bulk_row (now : nat → string) (template master_asset : option row)
    (f : form) (i : nat) : row :=
  row_of_data (now i)
    (data_of template master_asset f (nth_kode f i) (nth_serial f i)).

(** [template] and [master_asset], as the dialog reads them. *)
Definition template_of (f : form) (db : database) : option row :=
  match fst (get_inventory_template (VStr (selected_asset_name f)) db) with
  | inr o => o
  | inl _ => None
  end.

Definition master_of (f : form) (db : database) : option row :=
  match fst (get_asset_by_name (VStr (selected_asset_name f)) db) with
  | inr o => o
  | inl _ => None
  end.

(** The variables of the bulk loop. *)
Record loop_state := {
  current_kode : string;
  current_serial : string;
  created_kodes : list string;
}.

(** The loop variables before turn [i]: the values of turn [i-1]. *)
Definition before (f : form) (i : nat) (st : loop_state) : Prop :=
  current_kode st = nth_kode f (pred i)
  ∧ current_serial st = nth_serial f (pred i).

(** The exception of an insert whose code is taken. *)
Definition unique_error : exn :=
  IntegrityError "UNIQUE constraint failed: fact_inventory.kode".

(** A row read from a table with columns [cols], or none. *)
Definition source_ok (cols : list string) (o : option row) : Prop :=
  match o with
  | Some r => row_ok cols r
  | None => True
  end.

(** One turn of [for i in range(quantity)]; [now i] is the clock reading
    during the insert of turn [i]. *)
Definition bulk_step (now : nat → string) (template master_asset : option row)
    (f : form) (st : loop_state) (i : nat) : SE database loop_state :=
  let kode' :=
    if Nat.ltb 0 i then increment_string1 (current_kode st)
    else current_kode st in
  let serial' :=
    if (Nat.ltb 0 i && nonempty (current_serial st))%bool
    then increment_string1 (current_serial st)
    else current_serial st in
  data ← lift (inventory_data template master_asset f kode' serial');
  _ ← insert_inventory (now i) data;
  mret {| current_kode := kode'; current_serial := serial';
          created_kodes := app (created_kodes st) [kode'] |}.

Definition bulk_loop (now : nat → string) (template master_asset : option row)
    (f : form) : SE database loop_state :=
  foldM (bulk_step now template master_asset f)
    {| current_kode := kode f; current_serial := serial_number f;
       created_kodes := [] |}
    (seq 0 (quantity f)).

(** The validation before the loop: every violation is listed. *)
Definition validate (f : form) : SE database (list string) :=
  let errors := if nonempty (kode f) then []
                else ["Kode base value is required"] in
  if nonempty (kode f)
  then
    taken ← kode_exists (VStr (kode f));
    mret (if taken : bool
          then app errors
                 ["Base Kode '" ++ kode f ++ "' already exists. Please choose a starting value that doesn't exist."]
          else errors)
  else mret errors.

(** The handler of the Save button: what is shown, and the database
    afterwards.  An exception outside the [try] ends the script. *)
Definition save_items (now : nat → string) (f : form)
  : SE database (list ui) :=
  template ← get_inventory_template (VStr (selected_asset_name f));
  master_asset ← get_asset_by_name (VStr (selected_asset_name f));
  errors ← validate f;
  match errors with
  | _ :: _ => mret (map StError errors)
  | [] =>
      try_except
        (st ← bulk_loop now template master_asset f;
         mret [StSuccess ("Successfully created "
                            ++ str_of_Z (Z.of_nat (quantity f)) ++ " items!");
               StWrite (created_kodes st);
               StRerun])
        (λ e, mret [StError ("Error: " ++ str_of_exn e)])
  end.

(** The floats of the form are not negative zero. *)
Definition form_typed (f : form) : bool :=
  negb (is_neg_zero (harga_pembelian f)) && negb (is_neg_zero (kerahasiaan f))
  && negb (is_neg_zero (integritas f)) && negb (is_neg_zero (ketersediaan f))
  && negb (is_neg_zero (nilai f)).

(** [asset_names], the options of the selectbox. *)
Definition asset_names (all_assets : list row) : list val :=
  map (λ a, col a "nama_aset") all_assets.

(** The asset of the form is one of the options. *)
Definition selectable (f : form) (db : database) : Prop :=
  ∃ a, a ∈ t_rows (dim_assets db)
       ∧ col a "nama_aset" = VStr (selected_asset_name f).

(** [add_inventory_dialog()] in a run in which Save is pressed with the
    widgets reading [f].  With an empty catalog the dialog warns and
    returns before any widget is made.  Otherwise the selectbox gives one
    of [asset_names]: a form is read from the widgets only when it is
    [selectable]. *)
Definition add_inventory_dialog (now : nat → string) (f : form)
  : SE database (list ui) :=
  all_assets ← get_all_assets;
  match asset_names all_assets with
  | [] => mret [StWarning "No assets in master data. Import data first."]
  | _ :: _ => save_items now f
  end.

End App.

(** ** helpers/automation.py: the directory scan *)

Module Automation.
Import Text Py Monad Sql Pandas Db.

(** A spreadsheet file that [glob] lists: its path, its base name and
    what [pd.read_excel(f, header=5)] gives ([None]: the read raises). *)
Record file := {
  path : string;
  filename : string;
  content : option DataFrame;
}.

(** The file system: for a directory, [None] when it does not exist, else
    its [*.xlsx] files in the order [glob] lists them. *)
Definition filesystem : Type := string → option (list file).

(** An entry of [detected_issues].  [message] is kept without its
    pictographs. *)
Record file_report := {
  r_file : string;
  r_filename : string;
  r_directory : string;
  total_rows : nat;
  new_rows : list (list (string * string));
  changed_rows : list (list (string * string));
  missing_rows : list (list (string * val));
  message : string;
}.

(** The module-level dict [SCAN_RESULTS]. *)
Record scan_results := {
  detected_files : list file_report;
  last_scan : option string;
  status : string;
}.

Definition SCAN_RESULTS_initial : scan_results :=
  {| detected_files := []; last_scan := None; status := "ok" |}.

(** A dict keyed by values, in insertion order. *)
Definition key_eqb (a b : val) : bool :=
  match a, b with
  | VNone, VNone => true
  | _, _ => sql_eq a b
  end.

(** [d[k] = v]. *)
Fixpoint dict_set (d : list (val * row)) (k : val) (v : row)
  : list (val * row) :=
  match d with
  | [] => [(k, v)]
  | (k', v') :: d' =>
      if key_eqb k' k then (k', v) :: d' else (k', v') :: dict_set d' k v
  end.

(** [d[k]], when [k in d]. *)
Definition dict_get (d : list (val * row)) (k : val) : option row :=
  snd <$> find (λ p, key_eqb (fst p) k) d.

(** The rows the scan loads: those not marked deleted. *)
Definition not_deleted (r : row) : bool :=
  sql_eq (col r "is_deleted") (VInt 0) || is_null (col r "is_deleted").

(** [row['kode']] on a fetched row. *)
Definition row_kode (t : table) (r : row) : exn + val :=
  if has_col t "kode" then inr (col r "kode")
  else inl (IndexError "No item with that key").

(** [db_inventory[row['kode']] = dict(row)]. *)
Definition keyed (d : list (val * row)) (r : row) : list (val * row) :=
  dict_set d (col r "kode") r.

(** The first block of [scan_directory]: [db_inventory]. *)
Definition load_inventory : M (list (val * row)) :=
  rows ← query FactInventory (λ t, select_where t ["is_deleted"] not_deleted);
  foldM (λ d r, k ← query FactInventory (λ t, row_kode t r);
                mret (dict_set d k r)) [] rows.

Definition compare_fields : list (string * string) :=
  [("Tanggal PO", "tanggal_po"); ("Layanan", "layanan"); ("Brand", "brand");
   ("Sub Klasifikasi", "sub_klasifikasi"); ("Jenis Aset", "jenis_aset");
   ("Spesifikasi", "spesifikasi"); ("OS", "os"); ("Quantity", "quantity");
   ("Harga Pembelian", "harga_pembelian"); ("Pemilik Asset", "pemilik_asset");
   ("Unit", "unit"); ("Client", "client"); ("Penyedia Aset", "penyedia_aset");
   ("Pemegang Aset", "pemegang_aset"); ("PIC", "pic"); ("User", "user");
   ("Lokasi Aset", "lokasi_aset"); ("Area", "area"); ("Status", "status");
   ("Sub Status", "sub_status"); ("Masa Berlaku", "masa_berlaku");
   ("Kerahasiaan", "kerahasiaan"); ("Integritas", "integritas");
   ("Ketersediaan", "ketersediaan"); ("Nilai", "nilai");
   ("Keterangan", "keterangan")].

(** [if v.lower() == 'nan': v = '']. *)
Definition drop_nan_text (v : string) : string :=
  if String.eqb (lower v) "nan" then "" else v.

(** [excel_val] and [db_val] of a compared pair. *)
Definition excel_val (raw_excel : val) : string :=
  drop_nan_text (if isna raw_excel then "" else strip (str raw_excel)).

Definition db_val (raw_db : val) : string :=
  drop_nan_text (match raw_db with
                 | VNone => ""
                 | _ => strip (str raw_db)
                 end).

(** The [try] block: both texts are non-empty, both are read by [float]
    and the two floats are equal. *)
Definition same_number (e d : string) : bool :=
  if (nonempty e && nonempty d)%bool
  then match float_of_string e with
       | Some excel_num =>
           match float_of_string d with
           | Some db_num => float_eqb excel_num db_num
           | None => false
           end
       | None => false
       end
  else false.

(** Whether a pair is recorded as a change. *)
Definition field_changed (e d : string) : bool :=
  if same_number e d then false else negb (String.eqb e d).

(** The entries a pair adds to [change_record]. *)
Definition compare_field (r : Series) (db_row : row) (p : string * string)
  : list (string * string) :=
  let '(excel_col, db_col) := p in
  let e := excel_val (row_get r excel_col (VStr "")) in
  let d := db_val (Db.get_or db_row db_col (VStr "")) in
  if field_changed e d
  then [(excel_col ++ " (Excel)", e); (excel_col ++ " (DB)", d)]
  else [].

(** The captured row of a new code. *)
Definition row_dict (r : Series) : list (string * string) :=
  map (λ p, (fst p, if notna (snd p) then str (snd p) else "")) r.

(** The variables of the row loop. *)
Record row_state := {
  s_new : list (list (string * string));
  s_changed : list (list (string * string));
  s_kodes : list string;
}.

Definition classify_row (db_inventory : list (val * row)) (st : row_state)
    (r : Series) : row_state :=
  let kode := strip (str (row_get r "Kode" (VStr ""))) in
  if negb (nonempty kode) then st
  else
    let kodes := app (s_kodes st) [kode] in
    match dict_get db_inventory (VStr kode) with
    | None =>
        {| s_new := app (s_new st) [row_dict r];
           s_changed := s_changed st; s_kodes := kodes |}
    | Some db_row =>
        let changes := concat (map (compare_field r db_row) compare_fields) in
        match changes with
        | [] => {| s_new := s_new st; s_changed := s_changed st;
                   s_kodes := kodes |}
        | _ :: _ =>
            {| s_new := s_new st;
               s_changed := app (s_changed st) [("Kode", kode) :: changes];
               s_kodes := kodes |}
        end
    end.

(** [kode not in excel_kodes], for a key of [db_inventory]. *)
Definition seen_in_excel (excel_kodes : list string) (k : val) : bool :=
  match k with
  | VStr s => bool_decide (s ∈ excel_kodes)
  | _ => false
  end.

Definition missing_of (excel_kodes : list string)
    (db_inventory : list (val * row)) : list (list (string * val)) :=
  map (λ p, [("Kode", fst p);
             ("Nama Aset", Db.get_or (snd p) "nama_aset" (VStr ""));
             ("Serial Number", Db.get_or (snd p) "serial_number" (VStr ""));
             ("User", Db.get_or (snd p) "user" (VStr ""));
             ("Lokasi Aset", Db.get_or (snd p) "lokasi_aset" (VStr ""))])
    (filter (λ p, seen_in_excel excel_kodes (fst p) = false) db_inventory).

Definition possible_cols : list string := ["Kode"; "Nama Aset"; "Serial Number"].

Definition count_str (n : nat) : string := str_of_Z (Z.of_nat n).

(** The body of the per-file [try]: the report, when the file is an asset
    file that differs from the database. *)
Definition scan_file (db_inventory : list (val * row)) (directory : string)
    (f : file) (df : DataFrame) : option file_report :=
  let cols := stripped_columns df in
  let matches :=
    length (filter (λ c, bool_decide (c ∈ cols) = true) possible_cols) in
  if Nat.ltb matches 2 then None
  else
    let st := foldl (classify_row db_inventory)
                {| s_new := []; s_changed := []; s_kodes := [] |}
                (iterrows df) in
    let missing := missing_of (s_kodes st) db_inventory in
    match s_new st, s_changed st, missing with
    | [], [], [] => None
    | _, _, _ =>
        Some {| r_file := path f; r_filename := filename f;
                r_directory := directory; total_rows := len df;
                new_rows := s_new st; changed_rows := s_changed st;
                missing_rows := missing;
                message :=
                  count_str (length (s_new st)) ++ " new, "
                  ++ count_str (length (s_changed st)) ++ " changed, "
                  ++ count_str (length missing) ++ " missing in '"
                  ++ filename f ++ "'" |}
    end.

(** One file of a directory: lock files are skipped, a file that cannot
    be read is skipped by the [except]. *)
Definition scan_entry (db_inventory : list (val * row)) (directory : string)
    (f : file) : list file_report :=
  if String.prefix "~$" (filename f) then []
  else match content f with
       | None => []
       | Some df =>
           match scan_file db_inventory directory f df with
           | Some r => [r]
           | None => []
           end
       end.

(** [detected_issues] after the two loops. *)
Definition detect (fs : filesystem) (db_inventory : list (val * row))
    (directories : list string) : list file_report :=
  concat (map (λ directory,
                 match fs directory with
                 | None => []
                 | Some files =>
                     concat (map (scan_entry db_inventory directory) files)
                 end) directories).

(** The three assignments that end a scan, in program order. *)
Inductive write :=
| SetLastScan (t : string)
| SetDetectedFiles (l : list file_report)
| SetStatus (s : string).

Definition apply_write (r : scan_results) (w : write) : scan_results :=
  match w with
  | SetLastScan t =>
      {| detected_files := detected_files r; last_scan := Some t;
         status := status r |}
  | SetDetectedFiles l =>
      {| detected_files := l; last_scan := last_scan r; status := status r |}
  | SetStatus s =>
      {| detected_files := detected_files r; last_scan := last_scan r;
         status := s |}
  end.

Definition publish (now : string) (detected_issues : list file_report)
  : list write :=
  [SetLastScan now;
   SetDetectedFiles detected_issues;
   SetStatus (match detected_issues with [] => "ok" | _ :: _ => "warning" end)].

(** The process: the database file, the file system and [SCAN_RESULTS]. *)
Record world := {
  w_db : database;
  w_fs : filesystem;
  w_results : scan_results;
}.

Definition default_directories : list string := ["."; "data"].

(** [scan_directory(directories)], up to the list of issues; the
    constructor of [AssetDatabase] runs [create_tables] first. *)
Definition scan_issues (directories : option (list string)) (fs : filesystem)
  : SE database (list file_report) :=
  λ db,
    let db := create_tables (Some db) in
    match with_connection load_inventory db with
    | (inl e, db') => (inl e, db')
    | (inr db_inventory, db') =>
        (inr (detect fs db_inventory (default default_directories directories)),
         db')
    end.

(** [scan_directory(directories)]; [now] is the clock reading at the end.
    An exception leaves [SCAN_RESULTS] as it was. *)
Definition scan_directory (now : string) (directories : option (list string))
    (w : world) : (exn + unit) * world :=
  match scan_issues directories (w_fs w) (w_db w) with
  | (inl e, db') =>
      (inl e, {| w_db := db'; w_fs := w_fs w; w_results := w_results w |})
  | (inr issues, db') =>
      (inr tt,
       {| w_db := db'; w_fs := w_fs w;
          w_results := foldl apply_write (w_results w) (publish now issues) |})
  end.

(** [get_latest_scan_results()]. *)
Definition get_latest_scan_results (w : world) : scan_results := w_results w.

End Automation.

(** ** Concrete inputs *)

Module Examples.
Import Text Utils Py Monad Sql Pandas Db App.

(** A database file just created. *)
Definition fresh_db : database := create_tables None.

(** A clock: the reading during turn [i]. *)
Definition clock (i : nat) : string :=
  "2024-01-02T10:00:0" ++ str_of_Z (Z.of_nat i).

(** The dialog filled in for asset "Laptop". *)
Definition laptop_form (k sn : string) (q : nat) : form :=
  {| selected_asset_name := "Laptop"; kode := k; serial_number := sn;
     tanggal_po := "2024-01-02"; layanan := "Operation"; quantity := q;
     harga_pembelian := S754_zero false; App.status := "Existing";
     sub_status := "Active"; user := ""; lokasi_aset := ""; area := "";
     pemegang_aset := ""; client := ""; pemilik_asset := ""; unit_ := "";
     pic := ""; penyedia_aset := "";
     kerahasiaan := S754_finite false 6755399441055744 (-51); integritas := S754_finite false 6755399441055744 (-51);
     ketersediaan := S754_finite false 6755399441055744 (-51); nilai := S754_finite false 6755399441055744 (-51);
     masa_berlaku := ""; keterangan := "" |}.

(** A record with a code, a serial and an asset name. *)
Definition record (k sn name : string) : dict :=
  list_to_map [("Kode", VStr k); ("Serial Number", VStr sn);
               ("Nama Aset", VStr name)].

Definition yesterday : string := "2024-01-01T09:00:00".

(** A database that holds one record. *)
Definition db_with (k sn name : string) : database :=
  add_rows fresh_db [row_of_data yesterday (record k sn name)].


(** A database that holds two records of one asset. *)
Definition db_with2 (k1 k2 name : string) : database :=
  add_rows fresh_db [row_of_data yesterday (record k1 "" name);
                     row_of_data yesterday (record k2 "" name)].



End Examples.

(** ** app.py: the other handlers of the Asset Manager page *)

Module Dialogs.
Import Text Utils Py Monad Sql Db App.

(** [next_kode] and [next_serial] of the "Add Inventory Item" dialog, from
    [latest_item].  [increment_string] on a value that is not a [str]
    raises in [re.finditer]. *)
Definition next_id (v : val) : exn + string :=
  match v with
  | VStr s => inr (if nonempty s then increment_string1 s else "")
  | _ => if truthy v then inl TypeError else inr ""
  end.

Definition next_ids (latest_item : option row) : exn + (string * string) :=
  if dict_truthy latest_item
  then match latest_item with
       | Some item =>
           match next_id (get item "kode") with
           | inl e => inl e
           | inr next_kode =>
               match next_id (get item "serial_number") with
               | inl e => inl e
               | inr next_serial => inr (next_kode, next_serial)
               end
           end
       | None => inr ("", "")
       end
  else inr ("", "").

(** The two identifiers the dialog proposes for an asset. *)
Definition proposed_ids (selected_asset_name : string)
  : SE database (string * string) :=
  latest_item ← get_latest_item (VStr selected_asset_name);
  lift (next_ids latest_item).

(** The widgets of the "Add Master Asset" dialog, as read when Save is
    pressed. *)
Record asset_form := {
  a_nama_aset : string;
  a_brand : string;
  a_sub_klasifikasi : string;
  a_jenis_aset : string;
  a_spesifikasi : string;
  a_os_default : string;
  a_layanan : string;
  a_harga_pembelian : spec_float;
  a_pemilik_asset : string;
  a_unit : string;
  a_client : string;
  a_penyedia_aset : string;
  a_pemegang_aset : string;
  a_pic : string;
  a_lokasi_aset : string;
  a_area : string;
  a_status : string;
  a_sub_status : string;
  a_kerahasiaan : spec_float;
  a_integritas : spec_float;
  a_ketersediaan : spec_float;
  a_nilai : spec_float;
  a_masa_berlaku : string;
  a_quantity : Z;                 (* number_input with min_value=1 *)
}.

Definition asset_data (f : asset_form) : dict :=
  list_to_map
    [("nama_aset", VStr (a_nama_aset f));
     ("brand", VStr (a_brand f));
     ("sub_klasifikasi", VStr (a_sub_klasifikasi f));
     ("jenis_aset", VStr (a_jenis_aset f));
     ("spesifikasi", VStr (a_spesifikasi f));
     ("os_default", VStr (a_os_default f));
     ("layanan", VStr (a_layanan f));
     ("quantity", VInt (a_quantity f));
     ("harga_pembelian", VFloat (a_harga_pembelian f));
     ("pemilik_asset", VStr (a_pemilik_asset f));
     ("unit", VStr (a_unit f));
     ("client", VStr (a_client f));
     ("penyedia_aset", VStr (a_penyedia_aset f));
     ("pemegang_aset", VStr (a_pemegang_aset f));
     ("pic", VStr (a_pic f));
     ("lokasi_aset", VStr (a_lokasi_aset f));
     ("area", VStr (a_area f));
     ("status", VStr (a_status f));
     ("sub_status", VStr (a_sub_status f));
     ("masa_berlaku", VStr (a_masa_berlaku f));
     ("kerahasiaan", VFloat (a_kerahasiaan f));
     ("integritas", VFloat (a_integritas f));
     ("ketersediaan", VFloat (a_ketersediaan f));
     ("nilai", VFloat (a_nilai f))].

(** The handler of the Save button of "Add Master Asset". *)
Definition save_master_asset (f : asset_form) : SE database (list ui) :=
  if negb (nonempty (a_nama_aset f))
  then mret [StError "Nama Aset is required"]
  else
    existing ← get_asset_by_name (VStr (a_nama_aset f));
    if dict_truthy existing
    then mret [StError ("Asset '" ++ a_nama_aset f ++ "' already exists")]
    else
      try_except
        (_ ← insert_asset (asset_data f);
         mret [StSuccess "Asset added to master data!"; StRerun])
        (λ e, mret [StError ("Error: " ++ str_of_exn e)]).

(** The "Yes, Delete" button of the "Delete Inventory Item" dialog. *)
Definition confirm_delete (kode : string) : SE database (list ui) :=
  deleted ← delete_inventory (VStr kode);
  mret (if deleted : bool
        then [StSuccess "Deleted!"; StRerun]
        else [StError "Failed to delete"]).

(** The columns of the registry view, in the order shown: [available_cols]
    for a frame with the columns [columns]. *)
Definition priority_cols : list string :=
  ["kode"; "nama_aset"; "brand"; "serial_number"; "user"; "client"; "area";
   "lokasi_aset"; "status"].

Definition available_cols (columns : list string) : list string :=
  let other_cols :=
    filter (λ c, (c ∉ priority_cols) ∧ (c ≠ "timestamp")) columns in
  let display_cols := (priority_cols ++ other_cols)%list in
  filter (λ c, c ∈ columns) display_cols.

End Dialogs.

(** ** helpers/exporter.py: the column headers of an export *)

Module Exporter.
Import Text Py Sql Db.

Definition col_map : list (string * string) :=
  [("kode", "Kode"); ("serial_number", "Serial Number");
   ("tanggal_po", "Tanggal PO"); ("layanan", "Layanan"); ("brand", "Brand");
   ("nama_aset", "Nama Aset"); ("sub_klasifikasi", "Sub Klasifikasi");
   ("jenis_aset", "Jenis Aset"); ("spesifikasi", "Spesifikasi"); ("os", "OS");
   ("quantity", "Quantity"); ("harga_pembelian", "Harga Pembelian");
   ("pemilik_asset", "Pemilik Asset"); ("unit", "Unit"); ("client", "Client");
   ("penyedia_aset", "Penyedia Aset"); ("pemegang_aset", "Pemegang Aset");
   ("pic", "PIC"); ("user", "User"); ("lokasi_aset", "Lokasi Aset");
   ("area", "Area"); ("status", "Status"); ("sub_status", "Sub Status");
   ("masa_berlaku", "Masa Berlaku"); ("kerahasiaan", "Kerahasiaan");
   ("integritas", "Integritas"); ("ketersediaan", "Ketersediaan");
   ("nilai", "Nilai"); ("keterangan", "Keterangan");
   ("last_so_date", "Last SO Date")].

(** The label of a column after [df_inv.rename(columns=col_map)]. *)
Definition renamed (c : string) : string :=
  default c (snd <$> find (λ p, String.eqb (fst p) c) col_map).

(** [df_inv.columns] after the renaming: the header row of the export. *)
Definition export_headers (columns : list string) : list string :=
  map renamed columns.

(** The row of the worksheet that holds the headers, and the width given
    to a column with header [header] and cell texts [cells]. *)
Definition start_row (template_found : bool) : nat :=
  if template_found then 5%nat else 0%nat.

Definition column_width (header : string) (cells : list string) : nat :=
  let header_len := String.length header in
  let max_data_len := foldr Nat.max 0%nat (map String.length cells) in
  Nat.min (Nat.max header_len max_data_len + 2) 50.

End Exporter.

(** ** Further concrete inputs *)

Module MoreExamples.
Import Text Utils Py Monad Sql Pandas Db App Dialogs Examples.

(** The master dialog filled in for a printer. *)
Definition printer_form : asset_form :=
  {| a_nama_aset := "Printer"; a_brand := "HP"; a_sub_klasifikasi := "";
     a_jenis_aset := ""; a_spesifikasi := ""; a_os_default := "";
     a_layanan := "Operation"; a_harga_pembelian := S754_zero false;
     a_pemilik_asset := ""; a_unit := ""; a_client := "";
     a_penyedia_aset := ""; a_pemegang_aset := ""; a_pic := "";
     a_lokasi_aset := ""; a_area := ""; a_status := "Existing";
     a_sub_status := "Active";
     a_kerahasiaan := S754_finite false 6755399441055744 (-51);
     a_integritas := S754_finite false 6755399441055744 (-51);
     a_ketersediaan := S754_finite false 6755399441055744 (-51);
     a_nilai := S754_finite false 6755399441055744 (-51);
     a_masa_berlaku := ""; a_quantity := 1 |}.

(** The master dialog filled in for the laptop. *)
Definition laptop_master : asset_form :=
  {| a_nama_aset := "Laptop"; a_brand := "Lenovo"; a_sub_klasifikasi := "";
     a_jenis_aset := ""; a_spesifikasi := ""; a_os_default := "Linux";
     a_layanan := "Operation"; a_harga_pembelian := S754_zero false;
     a_pemilik_asset := ""; a_unit := ""; a_client := "";
     a_penyedia_aset := ""; a_pemegang_aset := ""; a_pic := "";
     a_lokasi_aset := ""; a_area := ""; a_status := "Existing";
     a_sub_status := "Active";
     a_kerahasiaan := S754_finite false 6755399441055744 (-51);
     a_integritas := S754_finite false 6755399441055744 (-51);
     a_ketersediaan := S754_finite false 6755399441055744 (-51);
     a_nilai := S754_finite false 6755399441055744 (-51);
     a_masa_berlaku := ""; a_quantity := 1 |}.

(** The catalog after the laptop was added to an empty database. *)
Definition catalog_db : database :=
  snd (insert_asset (asset_data laptop_master) fresh_db).

(** The database after the inventory dialog has stored, yesterday, one
    laptop under each of the codes in turn. *)
Definition stocked (kodes : list string) : database :=
  foldl (λ db k, snd (add_inventory_dialog (λ _, yesterday)
                        (laptop_form k "" 1) db))
    catalog_db kodes.

(** A sheet with two rows of one asset and a row without a code. *)
Definition sheet3 : DataFrame :=
  {| df_columns := [VStr "Kode"; VStr "Nama Aset"; VStr "Quantity"];
     df_data := [[VStr "X-01"; VStr "Laptop"; VInt 1];
                 [VStr "X-02"; VStr "Laptop"; VStr "two"];
                 [VFloat S754_nan; VStr "Laptop"; VInt 1]] |}.

End MoreExamples.

(** * Properties *)

Module TextFacts.
Import Text.
#[local] Arguments String.append !s1 s2 : simpl nomatch.

Lemma length_app (a b : string) :
  String.length (a ++ b) = (String.length a + String.length b)%nat.
Proof. induction a as [|c a IH]; simpl; [reflexivity | now rewrite IH]. Qed.

Lemma app_assoc (a b c : string) : (a ++ b) ++ c = a ++ (b ++ c).
Proof. induction a as [|x a IH]; simpl; [reflexivity | now rewrite IH]. Qed.

Lemma app_empty_r (a : string) : a ++ "" = a.
Proof. induction a as [|x a IH]; simpl; [reflexivity | now rewrite IH]. Qed.

Lemma substring_all (s : string) : substring 0 (String.length s) s = s.
Proof. induction s as [|c s IH]; simpl; [reflexivity | now rewrite IH]. Qed.

Lemma substring_prefix (p q : string) :
  substring 0 (String.length p) (p ++ q) = p.
Proof.
  induction p as [|c p IH]; simpl.
  - destruct q; reflexivity.
  - now rewrite IH.
Qed.

Lemma substring_skip (p q : string) (n : nat) :
  substring (String.length p) n (p ++ q) = substring 0 n q.
Proof. induction p as [|c p IH]; simpl; [reflexivity | exact IH]. Qed.

Lemma slice_prefix (p q : string) : slice 0 (String.length p) (p ++ q) = p.
Proof. unfold slice. rewrite Nat.sub_0_r. apply substring_prefix. Qed.

Lemma slice_middle (p r x : string) :
  slice (String.length p) (String.length p + String.length r) (p ++ r ++ x) = r.
Proof.
  unfold slice. rewrite substring_skip.
  replace (String.length p + String.length r - String.length p)%nat
    with (String.length r) by lia.
  apply substring_prefix.
Qed.

Lemma slice_suffix (p r x : string) :
  slice (String.length p + String.length r) (String.length (p ++ r ++ x))
    (p ++ r ++ x) = x.
Proof.
  unfold slice. rewrite <- app_assoc, <- length_app, substring_skip.
  rewrite !length_app.
  replace (String.length p + String.length r + String.length x
           - (String.length p + String.length r))%nat
    with (String.length x) by lia.
  apply substring_all.
Qed.

(** *** Digits *)

Lemma digits_value_acc_app (a : Z) (s t : string) :
  digits_value_acc a (s ++ t) = digits_value_acc (digits_value_acc a s) t.
Proof. revert a. induction s as [|c s IH]; intros a; simpl; [reflexivity | apply IH]. Qed.

Lemma digits_value_acc_zeros (a : Z) (k : nat) (s : string) :
  a = 0 -> digits_value_acc a (zeros k ++ s) = digits_value_acc 0 s.
Proof.
  intros ->. induction k as [|k IH]; simpl; [reflexivity | exact IH].
Qed.

Lemma digits_value_zeros (k : nat) (s : string) :
  digits_value (zeros k ++ s) = digits_value s.
Proof. now apply digits_value_acc_zeros. Qed.

Lemma length_zeros (k : nat) : String.length (zeros k) = k.
Proof. induction k; simpl; congruence. Qed.

Lemma digit_char_val (d : Z) : 0 <= d < 10 -> digit_val (digit_char d) = d.
Proof.
  intros H.
  assert (d = 0 \/ d = 1 \/ d = 2 \/ d = 3 \/ d = 4 \/ d = 5 \/ d = 6 \/ d = 7
          \/ d = 8 \/ d = 9) as Hd by lia.
  repeat (destruct Hd as [-> | Hd]; [reflexivity |]). subst; reflexivity.
Qed.

Lemma digit_char_is_digit (d : Z) : 0 <= d < 10 -> is_digit (digit_char d) = true.
Proof.
  intros H.
  assert (d = 0 \/ d = 1 \/ d = 2 \/ d = 3 \/ d = 4 \/ d = 5 \/ d = 6 \/ d = 7
          \/ d = 8 \/ d = 9) as Hd by lia.
  repeat (destruct Hd as [-> | Hd]; [reflexivity |]). subst; reflexivity.
Qed.

Lemma all_digits_app (s t : string) :
  all_digits (s ++ t) = all_digits s && all_digits t.
Proof.
  induction s as [|c s IH]; simpl; [reflexivity |].
  now rewrite IH, andb_assoc.
Qed.

Lemma render_go_spec (fuel : nat) : forall (n : Z) (acc : string),
  0 <= n < 2 ^ Z.of_nat fuel -> (0 < fuel)%nat ->
  exists ds, render_go fuel n acc = ds ++ acc /\ renders ds n.
Proof.
  induction fuel as [|fuel IH]; intros n acc Hn Hf.
  - lia.
  - cbn [render_go].
    assert (Hm : 0 <= n mod 10 < 10) by (apply Z.mod_pos_bound; lia).
    destruct (n / 10 =? 0) eqn:Hq.
    + apply Z.eqb_eq in Hq.
      exists (String (digit_char (n mod 10)) ""). split; [reflexivity |].
      repeat split.
      * simpl. now rewrite digit_char_is_digit.
      * discriminate.
      * unfold digits_value. simpl. rewrite digit_char_val by assumption.
        pose proof (Z.div_mod n 10). lia.
    + apply Z.eqb_neq in Hq.
      destruct (IH (n / 10) (String (digit_char (n mod 10)) acc))
        as (ds & Hds & Hall & Hne & Hval).
      { split; [apply Z.div_pos; lia |].
        rewrite Nat2Z.inj_succ, Z.pow_succ_r in Hn by lia.
        apply Z.div_lt_upper_bound; lia. }
      { destruct fuel; [| lia].
        assert (n / 10 < 1) by (apply Z.div_lt_upper_bound; simpl in Hn; lia).
        assert (0 <= n / 10) by (apply Z.div_pos; lia). lia. }
      exists (ds ++ String (digit_char (n mod 10)) ""). split.
      * rewrite Hds, app_assoc. reflexivity.
      * repeat split.
        -- rewrite all_digits_app, Hall. simpl. now rewrite digit_char_is_digit.
        -- destruct ds; discriminate.
        -- unfold digits_value in *. rewrite digits_value_acc_app, Hval. simpl.
           rewrite digit_char_val by assumption.
           pose proof (Z.div_mod n 10). lia.
Qed.

Lemma render_nat_spec (n : Z) : 0 <= n -> renders (render_nat n) n.
Proof.
  intros Hn. unfold render_nat.
  destruct (render_go_spec (S (Z.to_nat (Z.log2 n))) n "") as (ds & Hds & H).
  - split; [assumption |].
    rewrite Nat2Z.inj_succ, Z2Nat.id by apply Z.log2_nonneg.
    destruct (Z.eq_dec n 0) as [-> | Hz]; [reflexivity |].
    apply Z.log2_spec. lia.
  - lia.
  - rewrite Hds, app_empty_r. exact H.
Qed.

Lemma is_digit_not_sign (c : ascii) :
  is_digit c = true -> (Ascii.eqb c "+" || Ascii.eqb c "-")%bool = false.
Proof.
  intros H.
  destruct (Ascii.eqb_spec c "+") as [-> | _]; [discriminate H |].
  destruct (Ascii.eqb_spec c "-") as [-> | _]; [discriminate H |].
  reflexivity.
Qed.

Lemma zfill_digits (w : nat) (ds : string) :
  all_digits ds = true ->
  zfill w ds = zeros (w - String.length ds) ++ ds.
Proof.
  intros H. unfold zfill. destruct ds as [|c ds]; simpl in *.
  - now rewrite app_empty_r.
  - apply andb_true_iff in H as [Hc _]. now rewrite (is_digit_not_sign c Hc).
Qed.


Lemma length_zfill (w : nat) (s : string) :
  String.length (zfill w s) = Nat.max w (String.length s).
Proof.
  unfold zfill. destruct s as [|c s].
  - simpl. rewrite length_zeros. lia.
  - destruct (Ascii.eqb c "+" || Ascii.eqb c "-")%bool; simpl;
      rewrite length_app, length_zeros; simpl; lia.
Qed.





End TextFacts.

Module UtilsFacts.
Import Text Utils TextFacts.
#[local] Arguments String.append !s1 s2 : simpl nomatch.

Lemma finditer_no_digit (x : string) : forall pos cur,
  has_digit x = false -> finditer_digits_from pos cur x = close_run cur pos.
Proof.
  induction x as [|c x IH]; intros pos cur H; simpl in *; [reflexivity |].
  apply orb_false_iff in H as [Hc Hx]. rewrite Hc, (IH _ _ Hx). simpl.
  apply app_nil_r.
Qed.

Lemma finditer_run (r : string) : forall pos cur t,
  all_digits r = true ->
  finditer_digits_from pos cur (r ++ t)
  = finditer_digits_from (pos + String.length r)
      (match r with "" => cur | _ => Some (default pos cur) end) t.
Proof.
  induction r as [|c r IH]; intros pos cur t H; simpl in *.
  - now rewrite Nat.add_0_r.
  - apply andb_true_iff in H as [Hc Hr]. rewrite Hc, (IH _ _ _ Hr).
    replace (S pos + String.length r)%nat with (pos + S (String.length r))%nat by lia.
    destruct r; reflexivity.
Qed.

Lemma finditer_prefix (p : string) : forall pos cur t,
  ends_with_digit p = false ->
  exists L, finditer_digits_from pos cur (p ++ t)
            = (L ++ finditer_digits_from (pos + String.length p)
                      (match p with "" => cur | _ => None end) t)%list.
Proof.
  induction p as [|c p IH]; intros pos cur t H.
  - exists []. simpl. now rewrite Nat.add_0_r.
  - assert (Hlen : forall q, (S pos + String.length q = pos + String.length (String c q))%nat)
      by (intros; simpl; lia).
    destruct p as [|c' p].
    + simpl in H. simpl. rewrite H. exists (close_run cur pos).
      now rewrite Nat.add_1_r.
    + change (ends_with_digit (String c (String c' p)))
        with (ends_with_digit (String c' p)) in H.
      change (String c (String c' p) ++ t) with (String c (String c' p ++ t)).
      cbn [finditer_digits_from].
      destruct (is_digit c).
      * destruct (IH (S pos) (Some (default pos cur)) t H) as [L HL].
        exists L. rewrite HL. now rewrite Hlen.
      * destruct (IH (S pos) None t H) as [L HL].
        exists (close_run cur pos ++ L)%list. rewrite HL, <- List.app_assoc.
        now rewrite Hlen.
Qed.

Lemma finditer_last (p r x : string) :
  r <> "" -> all_digits r = true -> has_digit x = false ->
  ends_with_digit p = false ->
  last (finditer_digits (p ++ r ++ x))
  = Some (String.length p, (String.length p + String.length r)%nat).
Proof.
  intros Hr Hall Hx Hp. unfold finditer_digits.
  destruct (finditer_prefix p 0 None (r ++ x) Hp) as [L ->].
  replace (match p with "" => None | _ => None end) with (@None nat)
    by (destruct p; reflexivity).
  rewrite finditer_run by assumption.
  rewrite finditer_no_digit by assumption.
  destruct r as [|c r]; [congruence |]. simpl close_run.
  apply last_snoc.
Qed.

Lemma last_digit_run_exists (s : string) :
  has_digit s = true -> exists p r x, last_digit_run s p r x.
Proof.
  unfold last_digit_run.
  induction s as [|c s IH]; simpl; [discriminate |]. intros H.
  destruct (has_digit s) eqn:Hs.
  - destruct (IH eq_refl) as (p & r & x & -> & Hr & Hall & Hx & Hp).
    destruct p as [|c' p].
    + destruct (is_digit c) eqn:Hc.
      * exists "", (String c r), x. simpl. rewrite Hc, Hall. repeat split; congruence.
      * exists (String c ""), r, x. simpl. repeat split; assumption.
    + exists (String c (String c' p)), r, x. repeat split; assumption.
  - rewrite orb_false_r in H.
    exists "", (String c ""), s. simpl. rewrite H. repeat split; congruence.
Qed.

Lemma increment_no_digit (s : string) (steps : Z) :
  has_digit s = false -> increment_string s steps = s.
Proof.
  intros H. unfold increment_string.
  destruct (String.eqb s ""); [reflexivity |].
  unfold finditer_digits. now rewrite finditer_no_digit.
Qed.

(** The two outcomes on a text with a digit run. *)
Lemma increment_last_run_cases (s p r x : string) (steps : Z) :
  last_digit_run s p r x ->
  increment_string s steps
  = if within_limit r steps
    then p ++ zfill (String.length r) (str_of_Z (digits_value r + steps)) ++ x
    else s.
Proof.
  intros (-> & Hr & Hall & Hx & Hp). unfold increment_string.
  destruct (String.eqb_spec (p ++ r ++ x) "") as [He | _].
  - apply (f_equal String.length) in He. rewrite !length_app in He.
    destruct r; [congruence | simpl in He; lia].
  - rewrite finditer_last by assumption.
    rewrite slice_prefix, slice_middle, slice_suffix.
    unfold within_limit, int_of_digits, str_of_int.
    destruct (String.length r <=? int_max_str_digits)%nat; [| reflexivity].
    now destruct (String.length _ <=? int_max_str_digits)%nat.
Qed.

Lemma increment_last_run (s p r x : string) (steps : Z) :
  last_digit_run s p r x -> within_limit r steps = true ->
  increment_string s steps
  = p ++ zfill (String.length r) (str_of_Z (digits_value r + steps)) ++ x.
Proof.
  intros H Hl. now rewrite (increment_last_run_cases s p r x steps H), Hl.
Qed.


End UtilsFacts.

Module SqlFacts.
Import Text Py Monad Sql.

Lemma string_compare_refl (s : string) : String.compare s s = Eq.
Proof.
  induction s as [|c s IH]; simpl; [reflexivity |].
  unfold Ascii.compare. now rewrite N.compare_refl.
Qed.

Lemma string_compare_eq (a b : string) : String.compare a b = Eq <-> a = b.
Proof.
  split; [apply String.compare_eq_iff | intros ->; apply string_compare_refl].
Qed.

(** Equality with a text key is equality of values. *)
Lemma sql_eq_text (v : val) (k : string) :
  sql_eq v (VStr k) = true <-> v = VStr k.
Proof.
  destruct v as [| z | f | s]; simpl; split; try discriminate; try congruence.
  - unfold sql_eq. simpl. destruct (String.compare s k) eqn:E; try discriminate.
    apply string_compare_eq in E. congruence.
  - intros [= ->]. unfold sql_eq. simpl. now rewrite string_compare_refl.
Qed.

Lemma existsb_sql_eq_text (rows : list row) (c k : string) :
  existsb (λ r, sql_eq (col r c) (VStr k)) rows = true
  <-> ∃ r, r ∈ rows ∧ col r c = VStr k.
Proof.
  rewrite existsb_exists. split.
  - intros (r & Hin & H). exists r. split; [now apply list_elem_of_In |].
    now apply sql_eq_text.
  - intros (r & Hin & H). exists r. split; [now apply list_elem_of_In |].
    now apply sql_eq_text.
Qed.

Lemma lookup_make_row (t : table) (named : list (string * val)) (c : string) :
  c ∈ t_cols t ->
  make_row t named !! c = Some (default VNone (assoc c named)).
Proof.
  unfold make_row. induction (t_cols t) as [|c0 cols IH]; intros Hin.
  - inversion Hin.
  - simpl. destruct (decide (c0 = c)) as [-> | Hne].
    + apply lookup_insert_eq.
    + rewrite lookup_insert_ne by assumption. apply IH.
      inversion Hin; subst; [congruence | assumption].
Qed.

Lemma lookup_make_row_None (t : table) (named : list (string * val)) (c : string) :
  c ∉ t_cols t -> make_row t named !! c = None.
Proof.
  unfold make_row. induction (t_cols t) as [|c0 cols IH]; intros Hin.
  - apply lookup_empty.
  - simpl. rewrite lookup_insert_ne.
    + apply IH. intros H. apply Hin. now right.
    + intros ->. apply Hin. now left.
Qed.

Lemma make_row_with_rows (t : table) (rs : list row)
    (named : list (string * val)) :
  make_row (with_rows t rs) named = make_row t named.
Proof. reflexivity. Qed.

Lemma col_make_row (t : table) (named : list (string * val)) (c : string) :
  c ∈ t_cols t -> col (make_row t named) c = default VNone (assoc c named).
Proof. intros H. unfold col. now rewrite lookup_make_row. Qed.

Lemma bind_bound (v : val) : stored_ok v = true -> bind v = inr v.
Proof.
  destruct v as [| z | f | s]; simpl; try reflexivity.
  - now intros ->.
  - destruct f; try reflexivity; discriminate.
Qed.

Lemma bind_all_ok (vs : list val) :
  Forall (λ v, bind v = inr (bound v)) vs -> bind_all vs = inr (map bound vs).
Proof.
  induction 1 as [|v vs Hv _ IH]; simpl; [reflexivity |].
  now rewrite Hv, IH.
Qed.

Lemma bind_all_inv (vs vs' : list val) :
  bind_all vs = inr vs' -> vs' = map bound vs.
Proof.
  revert vs'. induction vs as [|v vs IH]; simpl; intros vs' H.
  - now injection H as <-.
  - unfold bound at 1. destruct (bind v) as [e | v1]; [discriminate |].
    destruct (bind_all vs) as [e | r]; [discriminate |].
    injection H as <-. now rewrite (IH r).
Qed.

Lemma stored_ok_bound (v : val) :
  bind v = inr (bound v) -> stored_ok (bound v) = true.
Proof.
  unfold bound. destruct v as [| z | f | s]; simpl; try reflexivity.
  - destruct ((- 2 ^ 63 <=? z) && (z <? 2 ^ 63))%bool eqn:E; [| discriminate].
    intros _. simpl. exact E.
  - destruct f; reflexivity.
Qed.

(** *** Statements on a connection *)

Lemma with_connection_query {A} (n : tname) (q : table → exn + A)
    (db : database) :
  with_connection (query n q) db = (q (get_table n db), db).
Proof. reflexivity. Qed.

Lemma with_connection_query_ret {A B} (n : tname) (q : table → exn + A)
    (g : A → B) (db : database) :
  with_connection (x ← query n q; mret (g x)) db
  = (match q (get_table n db) with inl e => inl e | inr a => inr (g a) end, db).
Proof.
  unfold with_connection, mbind, SE_bind, bindM, query. simpl.
  destruct (q (get_table n db)); reflexivity.
Qed.

(** One write, then [commit]: the write is kept, or nothing changes. *)
Lemma with_connection_execute_commit (n : tname)
    (q : table → exn + (table * nat)) (db : database) :
  with_connection (_ ← execute n q; commit) db
  = match q (get_table n db) with
    | inl e => (inl e, db)
    | inr (t', _) => (inr tt, set_table n t' db)
    end.
Proof.
  unfold with_connection, mbind, SE_bind, bindM, execute, commit. simpl.
  destruct (q (get_table n db)) as [e | [t' c]]; reflexivity.
Qed.


End SqlFacts.

Module DbFacts.
Import Text Py Monad Sql Db SqlFacts.

Lemma insert_inventory_unfold (now : string) (data : dict) (db : database) :
  insert_inventory now data db
  = match insert_into Abort (fact_inventory db)
            (map fst inventory_fields ++ ["timestamp"])
            (map (λ p, get data (snd p)) inventory_fields ++ [VStr now]) with
    | inl e => (inl e, db)
    | inr (t', _) => (inr tt, set_table FactInventory t' db)
    end.
Proof. unfold insert_inventory. apply with_connection_execute_commit. Qed.

Lemma ints_fit_bind (data : dict) (key : string) :
  ints_fit data -> bind (get data key) = inr (bound (get data key)).
Proof.
  intros H. unfold bound, get. destruct (data !! key) as [v |] eqn:E; simpl.
  - destruct v as [| z | f | s]; try reflexivity.
    + simpl. specialize (H key z E).
      assert (((- 2 ^ 63 <=? z) && (z <? 2 ^ 63))%bool = true) as ->; [| reflexivity].
      apply andb_true_iff. split; [apply Z.leb_le | apply Z.ltb_lt]; lia.
    + destruct f; reflexivity.
  - reflexivity.
Qed.

Lemma fact_cols_in (c : string) :
  bool_decide (c ∈ fact_inventory_columns) = true -> c ∈ t_cols new_fact_inventory.
Proof. intros H. now apply bool_decide_eq_true in H. Qed.

(** The columns of the stored row that the statements below speak of. *)
Lemma row_of_data_cols (now : string) (data : dict) :
  let r := row_of_data now data in
  col r "kode" = bound (get data "Kode")
  ∧ col r "serial_number" = bound (get data "Serial Number")
  ∧ col r "nama_aset" = bound (get data "Nama Aset")
  ∧ col r "quantity" = bound (get data "Quantity")
  ∧ col r "timestamp" = VStr now.
Proof.
  unfold row_of_data, inserted_row.
  generalize (λ k, bound (get data k)). intros g.
  repeat split; (rewrite col_make_row by (apply fact_cols_in; reflexivity));
    reflexivity.
Qed.

(** [insert_inventory] on the declared table, for a record with a text
    code and an asset name. *)
Lemma insert_inventory_spec (now : string) (data : dict) (db : database)
    (k n : string) :
  fact_inventory db = with_rows new_fact_inventory (t_rows (fact_inventory db)) ->
  ints_fit data ->
  data !! "Kode" = Some (VStr k) -> data !! "Nama Aset" = Some (VStr n) ->
  insert_inventory now data db
  = if existsb (λ r, sql_eq (col r "kode") (VStr k)) (t_rows (fact_inventory db))
    then (inl (IntegrityError "UNIQUE constraint failed: fact_inventory.kode"), db)
    else (inr tt,
          set_table FactInventory
            (with_rows new_fact_inventory
               (t_rows (fact_inventory db) ++ [row_of_data now data])) db).
Proof.
  intros Hdecl Hfit Hk Hn. rewrite insert_inventory_unfold, Hdecl.
  set (rows := t_rows (fact_inventory db)).
  unfold insert_into.
  assert (find (λ c, negb (has_col (with_rows new_fact_inventory rows) c))
            (map fst inventory_fields ++ ["timestamp"]) = None) as -> by reflexivity.
  assert (bind_all (map (λ p, get data (snd p)) inventory_fields ++ [VStr now])
          = inr (map (λ p, bound (get data (snd p))) inventory_fields ++ [VStr now])%list)
    as ->.
  { rewrite bind_all_ok.
    - now rewrite map_app, map_map.
    - apply Forall_app. split.
      + apply Forall_map, Forall_forall. intros p _. now apply ints_fit_bind.
      + repeat constructor. }
  rewrite !make_row_with_rows.
  fold (inserted_row now (map (λ p, bound (get data (snd p))) inventory_fields)).
  fold (row_of_data now data).
  destruct (row_of_data_cols now data) as (Hc1 & _ & Hc3 & _).
  unfold get in Hc1, Hc3. rewrite Hk in Hc1. rewrite Hn in Hc3.
  cbn [default] in Hc1, Hc3. change (bound (VStr n)) with (VStr n) in Hc3.
  assert (find (λ c, is_null (col (row_of_data now data) c))
            (t_notnull (with_rows new_fact_inventory rows)) = None) as ->.
  { change (t_notnull (with_rows new_fact_inventory rows)) with ["nama_aset"].
    cbn [find]. now rewrite Hc3. }
  unfold key_taken.
  change (t_pk (with_rows new_fact_inventory rows)) with "kode".
  change (t_rows (with_rows new_fact_inventory rows)) with rows.
  change (t_name (with_rows new_fact_inventory rows)) with "fact_inventory".
  rewrite Hc1. change (bound (VStr k)) with (VStr k).
  destruct (existsb _ rows); reflexivity.
Qed.

(** *** Values of the columns' types *)

Lemma storable_bind (a : affinity) (v : val) :
  storable a v = true -> bind v = inr (bound v).
Proof.
  unfold bound.
  destruct v as [| z | f | s], a; simpl; try discriminate; try reflexivity.
  - now intros ->.
  - destruct f; reflexivity.
Qed.



Lemma typed_record_field (data : dict) (c key : string) :
  typed_record data = true -> (c, key) ∈ inventory_fields ->
  storable (column_type c) (get data key) = true.
Proof.
  unfold typed_record. rewrite forallb_forall. intros H Hin.
  apply (H (c, key)). now apply list_elem_of_In.
Qed.

Lemma typed_record_binds (data : dict) :
  typed_record data = true ->
  Forall (λ p, bind (get data (snd p)) = inr (bound (get data (snd p))))
    inventory_fields.
Proof.
  intros H. apply Forall_forall. intros [c key] Hin.
  apply (storable_bind (column_type c)). now apply typed_record_field.
Qed.

Lemma typed_asset_field (data : dict) (c : string) :
  typed_asset data = true -> c ∈ dim_assets_columns ->
  storable (column_type c) (get data c) = true.
Proof.
  unfold typed_asset. rewrite forallb_forall. intros H Hin.
  apply (H c). now apply list_elem_of_In.
Qed.

(** [insert_inventory] on the declared table, for values that can be
    bound: the NOT NULL check on the asset name comes first, then the
    uniqueness of the code. *)
Lemma insert_inventory_run (now : string) (data : dict) (db : database) :
  fact_inventory db = with_rows new_fact_inventory (t_rows (fact_inventory db)) ->
  Forall (λ p, bind (get data (snd p)) = inr (bound (get data (snd p))))
    inventory_fields ->
  insert_inventory now data db
  = if is_null (bound (get data "Nama Aset")) then (inl not_null_error, db)
    else if existsb (λ r, sql_eq (col r "kode") (bound (get data "Kode")))
              (t_rows (fact_inventory db))
    then (inl (IntegrityError "UNIQUE constraint failed: fact_inventory.kode"), db)
    else (inr tt,
          set_table FactInventory
            (with_rows new_fact_inventory
               (t_rows (fact_inventory db) ++ [row_of_data now data])) db).
Proof.
  intros Hdecl Hbind. rewrite insert_inventory_unfold, Hdecl.
  set (rows := t_rows (fact_inventory db)).
  unfold insert_into.
  assert (find (λ c, negb (has_col (with_rows new_fact_inventory rows) c))
            (map fst inventory_fields ++ ["timestamp"]) = None) as -> by reflexivity.
  assert (bind_all (map (λ p, get data (snd p)) inventory_fields ++ [VStr now])
          = inr (map (λ p, bound (get data (snd p))) inventory_fields ++ [VStr now])%list)
    as ->.
  { rewrite bind_all_ok.
    - now rewrite map_app, map_map.
    - apply Forall_app. split.
      + apply Forall_map. exact Hbind.
      + repeat constructor. }
  rewrite !make_row_with_rows.
  fold (inserted_row now (map (λ p, bound (get data (snd p))) inventory_fields)).
  fold (row_of_data now data).
  destruct (row_of_data_cols now data) as (Hc1 & _ & Hc3 & _).
  change (t_notnull (with_rows new_fact_inventory rows)) with ["nama_aset"].
  cbn [find]. rewrite Hc3.
  destruct (is_null (bound (get data "Nama Aset"))); [reflexivity |].
  unfold key_taken.
  change (t_pk (with_rows new_fact_inventory rows)) with "kode".
  change (t_rows (with_rows new_fact_inventory rows)) with rows.
  change (t_name (with_rows new_fact_inventory rows)) with "fact_inventory".
  rewrite Hc1.
  destruct (existsb _ rows); reflexivity.
Qed.

End DbFacts.

Module AppFacts.
Import Text Utils Py Monad Sql Db App SqlFacts DbFacts.

Lemma lookup_notna_ok (cols : list string) (o : option row) (key : string) (v : val) :
  source_ok cols o -> lookup_notna o key = Some v -> stored_ok v = true.
Proof.
  destruct o as [r |]; simpl; [| discriminate]. intros [_ Hv].
  destruct (negb _); [| discriminate].
  destruct (r !! key) as [w |] eqn:E; [| discriminate].
  destruct (notna w); [| discriminate]. intros [= <-]. exact (Hv _ _ E).
Qed.

Lemma get_default_ok (template master_asset : option row) (key : string) :
  source_ok fact_inventory_columns template ->
  source_ok dim_assets_columns master_asset ->
  stored_ok (get_default template master_asset key) = true.
Proof.
  intros Ht Hm. unfold get_default.
  destruct (lookup_notna template key) as [v |] eqn:E1.
  - exact (lookup_notna_ok _ _ _ _ Ht E1).
  - destruct (lookup_notna master_asset key) as [w |] eqn:E2; [| reflexivity].
    exact (lookup_notna_ok _ _ _ _ Hm E2).
Qed.

Lemma from_master_ok (template master_asset : option row) (mkey key : string) :
  source_ok fact_inventory_columns template ->
  source_ok dim_assets_columns master_asset ->
  mkey ∈ dim_assets_columns ->
  ∃ v, from_master template master_asset mkey key = inr v ∧ stored_ok v = true.
Proof.
  intros Ht Hm Hin. unfold from_master.
  destruct (dict_truthy master_asset) eqn:Htr.
  - destruct master_asset as [m |]; [| discriminate Htr].
    destruct Hm as [Hc Hv]. rewrite Forall_forall in Hc.
    destruct (Hc mkey Hin) as [v E]. rewrite E. eauto.
  - eexists. split; [reflexivity |]. now apply get_default_ok.
Qed.

Lemma stored_ok_int (v : val) (z : Z) :
  stored_ok v = true -> v = VInt z -> - 2 ^ 63 <= z < 2 ^ 63.
Proof.
  intros H ->. simpl in H. apply andb_true_iff in H as [H1 H2].
  apply Z.leb_le in H1. apply Z.ltb_lt in H2. lia.
Qed.

(** The record of a turn: it has the code and serial of the turn, the
    asset picked, quantity 1, and it can be bound. *)
Lemma inventory_data_ok (template master_asset : option row) (f : form)
    (k s : string) :
  source_ok fact_inventory_columns template ->
  source_ok dim_assets_columns master_asset ->
  ∃ d, inventory_data template master_asset f k s = inr d
       ∧ d !! "Kode" = Some (VStr k)
       ∧ d !! "Serial Number" = Some (VStr s)
       ∧ d !! "Nama Aset" = Some (VStr (selected_asset_name f))
       ∧ d !! "Quantity" = Some (VInt 1)
       ∧ ints_fit d.
Proof.
  intros Ht Hm. unfold inventory_data.
  destruct (from_master_ok template master_asset "brand" "brand" Ht Hm)
    as (v1 & -> & H1); [compute_done |].
  destruct (from_master_ok template master_asset "sub_klasifikasi"
              "sub_klasifikasi" Ht Hm) as (v2 & -> & H2); [compute_done |].
  destruct (from_master_ok template master_asset "jenis_aset" "jenis_aset" Ht Hm)
    as (v3 & -> & H3); [compute_done |].
  destruct (from_master_ok template master_asset "spesifikasi" "spesifikasi" Ht Hm)
    as (v4 & -> & H4); [compute_done |].
  destruct (from_master_ok template master_asset "os_default" "os" Ht Hm)
    as (v5 & -> & H5); [compute_done |].
  eexists. split; [reflexivity |].
  generalize (selected_asset_name f) (tanggal_po f) (layanan f)
    (harga_pembelian f) (pemilik_asset f) (unit_ f) (client f)
    (penyedia_aset f) (pemegang_aset f) (pic f) (user f) (lokasi_aset f)
    (area f) (App.status f) (sub_status f) (masa_berlaku f) (kerahasiaan f)
    (integritas f) (ketersediaan f) (nilai f) (keterangan f).
  intros.
  do 4 (split; [vm_compute; reflexivity |]).
  intros key z Hz. apply elem_of_list_to_map_2 in Hz.
  repeat (apply elem_of_cons in Hz as [Hz | Hz];
          [simplify_eq;
           first [ solve [eauto using stored_ok_int]
                 | split; [apply Z.leb_le | apply Z.ltb_lt]; reflexivity ] |]).
  inversion Hz.
Qed.

End AppFacts.

Module StoreFacts.
Import Text Py Monad Sql Db SqlFacts DbFacts.

Lemma kode_taken_has (k : string) (db : database) :
  kode_taken k db = true <-> has_kode k db.
Proof. apply existsb_sql_eq_text. Qed.

Lemma kode_taken_not (k : string) (db : database) :
  kode_taken k db = false <-> ¬ has_kode k db.
Proof.
  rewrite <- kode_taken_has. destruct (kode_taken k db); split; congruence.
Qed.

Lemma add_rows_declared (db : database) (rs : list row) :
  fact_inventory (add_rows db rs)
  = with_rows new_fact_inventory (t_rows (fact_inventory (add_rows db rs))).
Proof. reflexivity. Qed.

Lemma add_rows_rows (db : database) (rs : list row) :
  t_rows (fact_inventory (add_rows db rs))
  = (t_rows (fact_inventory db) ++ rs)%list.
Proof. reflexivity. Qed.

Lemma add_rows_dim (db : database) (rs : list row) :
  dim_assets (add_rows db rs) = dim_assets db.
Proof. reflexivity. Qed.

Lemma add_rows_add_rows (db : database) (l1 l2 : list row) :
  add_rows (add_rows db l1) l2 = add_rows db (l1 ++ l2).
Proof. unfold add_rows. simpl. now rewrite <- List.app_assoc. Qed.

Lemma add_rows_nil (db : database) :
  fact_inventory db = with_rows new_fact_inventory (t_rows (fact_inventory db)) ->
  add_rows db [] = db.
Proof.
  intros H. unfold add_rows. rewrite app_nil_r, <- H. now destruct db.
Qed.

Lemma kode_taken_add (k : string) (db : database) (r : row) :
  kode_taken k (add_rows db [r])
  = (kode_taken k db || sql_eq (col r "kode") (VStr k))%bool.
Proof.
  unfold kode_taken. rewrite add_rows_rows, existsb_app. simpl.
  now rewrite orb_false_r.
Qed.

(** [insert_inventory] on the declared table: a taken code fails and
    changes nothing, a free code adds the row. *)
Lemma insert_inventory_cases (now : string) (data : dict) (db : database)
    (k n : string) :
  fact_inventory db = with_rows new_fact_inventory (t_rows (fact_inventory db)) ->
  ints_fit data ->
  data !! "Kode" = Some (VStr k) -> data !! "Nama Aset" = Some (VStr n) ->
  insert_inventory now data db
  = if kode_taken k db
    then (inl (IntegrityError "UNIQUE constraint failed: fact_inventory.kode"), db)
    else (inr tt, add_rows db [row_of_data now data]).
Proof. apply insert_inventory_spec. Qed.

(** The same for a record whose values have the types of their columns. *)
Lemma insert_inventory_typed (now : string) (data : dict) (db : database)
    (k n : string) :
  fact_inventory db = with_rows new_fact_inventory (t_rows (fact_inventory db)) ->
  typed_record data = true ->
  data !! "Kode" = Some (VStr k) -> data !! "Nama Aset" = Some (VStr n) ->
  insert_inventory now data db
  = if kode_taken k db
    then (inl (IntegrityError "UNIQUE constraint failed: fact_inventory.kode"), db)
    else (inr tt, add_rows db [row_of_data now data]).
Proof.
  intros Hd Ht Hk Hn.
  rewrite (insert_inventory_run now data db Hd (typed_record_binds data Ht)).
  unfold get. rewrite Hk, Hn. reflexivity.
Qed.



End StoreFacts.

Module LoopFacts.
Import Text Utils Py Monad Sql Db App SqlFacts DbFacts AppFacts StoreFacts.

Lemma foldM_app {S A T} (f : T → A → SE S T) (t : T) (l1 l2 : list A) (s : S) :
  foldM f t (l1 ++ l2) s
  = match foldM f t l1 s with
    | (inl e, s') => (inl e, s')
    | (inr t', s') => foldM f t' l2 s'
    end.
Proof.
  revert t s. induction l1 as [|x l1 IH]; intros t s; simpl; [reflexivity |].
  unfold bindM. destruct (f t x s) as [[e | t'] s']; [reflexivity | apply IH].
Qed.

Section Loop.
Variables (now : nat → string) (template master_asset : option row) (f : form).
Hypothesis Ht : source_ok fact_inventory_columns template.
Hypothesis Hm : source_ok dim_assets_columns master_asset.

#[local] Abbreviation step := (bulk_step now template master_asset f).
#[local] Abbreviation row_at := (bulk_row now template master_asset f).

Lemma data_of_ok (k s : string) :
  let d := data_of template master_asset f k s in
  inventory_data template master_asset f k s = inr d
  ∧ d !! "Kode" = Some (VStr k)
  ∧ d !! "Serial Number" = Some (VStr s)
  ∧ d !! "Nama Aset" = Some (VStr (selected_asset_name f))
  ∧ d !! "Quantity" = Some (VInt 1)
  ∧ ints_fit d.
Proof.
  destruct (inventory_data_ok template master_asset f k s Ht Hm)
    as (d & Hd & H). unfold data_of. rewrite Hd. auto.
Qed.

(** What a turn stores. *)
Lemma row_at_cols (i : nat) :
  col (row_at i) "kode" = VStr (nth_kode f i)
  ∧ col (row_at i) "serial_number" = VStr (nth_serial f i)
  ∧ col (row_at i) "nama_aset" = VStr (selected_asset_name f)
  ∧ col (row_at i) "quantity" = VInt 1
  ∧ col (row_at i) "timestamp" = VStr (now i).
Proof.
  unfold bulk_row.
  destruct (data_of_ok (nth_kode f i) (nth_serial f i))
    as (_ & H1 & H2 & H3 & H4 & _).
  destruct (row_of_data_cols (now i)
              (data_of template master_asset f (nth_kode f i) (nth_serial f i)))
    as (C1 & C2 & C3 & C4 & C5).
  unfold get in *. rewrite H1 in C1. rewrite H2 in C2. rewrite H3 in C3.
  rewrite H4 in C4. auto.
Qed.

Lemma step_kode (i : nat) (st : loop_state) :
  before f i st ->
  (if Nat.ltb 0 i then increment_string1 (current_kode st)
   else current_kode st) = nth_kode f i.
Proof.
  intros [-> _]. destruct i; [reflexivity |]. reflexivity.
Qed.

Lemma step_serial (i : nat) (st : loop_state) :
  before f i st ->
  (if (Nat.ltb 0 i && nonempty (current_serial st))%bool
   then increment_string1 (current_serial st)
   else current_serial st) = nth_serial f i.
Proof.
  intros [_ ->]. destruct i; [reflexivity |]. simpl pred.
  change (nth_serial f (S i)) with (increment_string1 (nth_serial f i)).
  change (Nat.ltb 0 (S i)) with true. simpl andb.
  unfold nonempty. destruct (String.eqb_spec (nth_serial f i) "") as [-> | _];
    reflexivity.
Qed.

(** One turn: a taken code raises and stores nothing; a free code stores
    the row of the turn. *)
Lemma bulk_step_spec (i : nat) (st : loop_state) (db : database) :
  fact_inventory db = with_rows new_fact_inventory (t_rows (fact_inventory db)) ->
  before f i st ->
  step st i db
  = if kode_taken (nth_kode f i) db
    then (inl unique_error, db)
    else (inr {| current_kode := nth_kode f i;
                 current_serial := nth_serial f i;
                 created_kodes := app (created_kodes st) [nth_kode f i] |},
          add_rows db [row_at i]).
Proof.
  intros Hd Hb. unfold bulk_step.
  rewrite (step_kode i st Hb), (step_serial i st Hb).
  destruct (data_of_ok (nth_kode f i) (nth_serial f i))
    as (Hdata & H1 & _ & H3 & _ & Hfit).
  unfold mbind, SE_bind, bindM, lift. rewrite Hdata.
  rewrite (insert_inventory_cases _ _ _ _ _ Hd Hfit H1 H3).
  destruct (kode_taken (nth_kode f i) db); reflexivity.
Qed.

Lemma kode_taken_after (k : string) (db : database) (i : nat) :
  kode_taken k (add_rows db [row_at i])
  = (kode_taken k db || bool_decide (nth_kode f i = k))%bool.
Proof.
  rewrite kode_taken_add. f_equal.
  destruct (row_at_cols i) as [-> _].
  apply eq_true_iff_eq. rewrite sql_eq_text, bool_decide_eq_true.
  split; congruence.
Qed.

(** All the codes are free and distinct: every turn stores its row. *)
Lemma loop_ok (n : nat) : ∀ (a : nat) (st : loop_state) (db : database),
  fact_inventory db = with_rows new_fact_inventory (t_rows (fact_inventory db)) ->
  before f a st ->
  (∀ i, (a <= i < a + n)%nat -> kode_taken (nth_kode f i) db = false) ->
  NoDup (map (nth_kode f) (seq a n)) ->
  ∃ st', foldM step st (seq a n) db
         = (inr st', add_rows db (map row_at (seq a n)))
         ∧ created_kodes st'
           = (created_kodes st ++ map (nth_kode f) (seq a n))%list
         ∧ before f (a + n) st'.
Proof.
  induction n as [|n IH]; intros a st db Hd Hb Hfree Hnd.
  - exists st. simpl. rewrite add_rows_nil by assumption.
    rewrite app_nil_r, Nat.add_0_r. auto.
  - simpl seq. simpl foldM. unfold bindM.
    rewrite (bulk_step_spec a st db Hd Hb).
    rewrite Hfree by lia.
    simpl map in Hnd. apply NoDup_cons in Hnd as [Hnotin Hnd].
    set (st1 := {| current_kode := nth_kode f a;
                   current_serial := nth_serial f a;
                   created_kodes := app (created_kodes st) [nth_kode f a] |}).
    destruct (IH (S a) st1 (add_rows db [row_at a])) as (st' & Hrun & Hcr & Hb').
    + apply add_rows_declared.
    + split; reflexivity.
    + intros i Hi. rewrite kode_taken_after, Hfree by lia. simpl.
      apply bool_decide_eq_false. intros He. apply Hnotin.
      rewrite He. apply list_elem_of_fmap_2. apply list_elem_of_In, in_seq. lia.
    + exact Hnd.
    + exists st'. rewrite Hrun, add_rows_add_rows. split; [reflexivity |].
      split.
      * rewrite Hcr. subst st1. simpl. now rewrite <- List.app_assoc.
      * now rewrite Nat.add_succ_r.
Qed.

(** The first [m] codes are free and distinct and the next one is taken,
    in the table or by an earlier turn: [m] rows are stored, then the
    loop raises. *)
Lemma loop_fail (m : nat) : ∀ (n a : nat) (st : loop_state) (db : database),
  fact_inventory db = with_rows new_fact_inventory (t_rows (fact_inventory db)) ->
  before f a st ->
  (m < n)%nat ->
  (∀ i, (a <= i < a + m)%nat -> kode_taken (nth_kode f i) db = false) ->
  NoDup (map (nth_kode f) (seq a m)) ->
  kode_taken (nth_kode f (a + m)) db = true
  ∨ nth_kode f (a + m) ∈ map (nth_kode f) (seq a m) ->
  foldM step st (seq a n) db
  = (inl unique_error, add_rows db (map row_at (seq a m))).
Proof.
  induction m as [|m IH]; intros n a st db Hd Hb Hlt Hfree Hnd Htaken.
  - destruct n as [|n]; [lia |]. simpl seq. simpl foldM. unfold bindM.
    rewrite (bulk_step_spec a st db Hd Hb).
    rewrite Nat.add_0_r in Htaken.
    destruct Htaken as [-> | Hin]; [| inversion Hin].
    simpl. now rewrite add_rows_nil.
  - destruct n as [|n]; [lia |]. simpl seq. simpl foldM. unfold bindM.
    rewrite (bulk_step_spec a st db Hd Hb).
    rewrite Hfree by lia.
    simpl map in Hnd. apply NoDup_cons in Hnd as [Hnotin Hnd].
    set (st1 := {| current_kode := nth_kode f a;
                   current_serial := nth_serial f a;
                   created_kodes := app (created_kodes st) [nth_kode f a] |}).
    rewrite (IH n (S a) st1 (add_rows db [row_at a])).
    + now rewrite add_rows_add_rows.
    + apply add_rows_declared.
    + split; reflexivity.
    + lia.
    + intros i Hi. rewrite kode_taken_after, Hfree by lia. simpl.
      apply bool_decide_eq_false. intros He. apply Hnotin.
      rewrite He. apply list_elem_of_fmap_2. apply list_elem_of_In, in_seq. lia.
    + exact Hnd.
    + replace (S a + m)%nat with (a + S m)%nat by lia.
      rewrite kode_taken_after.
      destruct Htaken as [-> | Hin]; [now left |].
      simpl in Hin. apply elem_of_cons in Hin as [He | Hin]; [| now right].
      left. rewrite (bool_decide_eq_true_2 _ (eq_sym He)). apply orb_true_r.
Qed.


End Loop.
End LoopFacts.

Module QueryFacts.
Import Text Py Monad Sql Db SqlFacts DbFacts StoreFacts.

Lemma select_eq_text (t : table) (c n : string) :
  has_col t c = true ->
  select_eq t c (VStr n)
  = inr (filter (λ r, sql_eq (col r c) (VStr n) = true) (t_rows t)).
Proof. intros H. unfold select_eq. now rewrite H. Qed.

Lemma elem_of_insert_desc (c : string) (r x : row) (l : list row) :
  x ∈ insert_desc c r l <-> x = r ∨ x ∈ l.
Proof.
  induction l as [|h l IH]; simpl.
  - rewrite list_elem_of_singleton. split; [now left | intros [H | H]; [done | inversion H]].
  - destruct (sql_compare (col r c) (col h c));
      rewrite ?elem_of_cons, ?IH, ?elem_of_cons; tauto.
Qed.

Lemma elem_of_sorted (c : string) (rs : list row) (x : row) : ∀ acc,
  x ∈ foldl (λ acc r, insert_desc c r acc) acc rs <-> x ∈ acc ∨ x ∈ rs.
Proof.
  induction rs as [|r rs IH]; intros acc; simpl.
  - split; [now left | intros [H | H]; [done | inversion H]].
  - rewrite IH, elem_of_insert_desc, elem_of_cons. tauto.
Qed.

Lemma head_insert_desc (c : string) (r : row) (l : list row) :
  head (insert_desc c r l) = max_step c (head l) r.
Proof.
  unfold max_step. destruct l as [|h l]; simpl; [reflexivity |].
  destruct (sql_compare (col r c) (col h c)); reflexivity.
Qed.

Lemma head_sorted (c : string) (rs : list row) : ∀ acc,
  head (foldl (λ acc r, insert_desc c r acc) acc rs)
  = foldl (max_step c) (head acc) rs.
Proof.
  induction rs as [|r rs IH]; intros acc; simpl; [reflexivity |].
  now rewrite IH, head_insert_desc.
Qed.

Lemma string_leb_refl (a : string) : String.leb a a = true.
Proof. unfold String.leb. now rewrite string_compare_refl. Qed.

Lemma string_leb_trans (a b c : string) :
  String.leb a b = true -> String.leb b c = true -> String.leb a c = true.
Proof.
  intros H1 H2. apply Is_true_true.
  apply Is_true_true in H1, H2.
  exact (transitivity (R := String.le) H1 H2).
Qed.

Lemma string_compare_gt_leb (a b : string) :
  String.compare a b = Gt -> String.leb b a = true.
Proof.
  intros H. unfold String.leb. rewrite String.compare_antisym, H. reflexivity.
Qed.

Lemma max_step_is_max (c : string) (seen : list row) (o : option row) (r : row) :
  Forall (λ x, ∃ k, col x c = VStr k) (seen ++ [r]) ->
  is_max c seen o -> is_max c (seen ++ [r]) (max_step c o r).
Proof.
  intros Htext Hmax. apply Forall_app in Htext as [Hseen Hr].
  apply Forall_singleton in Hr as [kr Hkr].
  destruct o as [h |]; simpl in *.
  - destruct Hmax as [Hin Hle].
    rewrite Forall_forall in Hseen. destruct (Hseen h Hin) as [kh Hkh].
    rewrite Hkr, Hkh. simpl.
    destruct (String.compare kr kh) eqn:Hc.
    + split; [apply elem_of_app; now left |]. intros x k k' Hx Hk' Hk.
      apply elem_of_app in Hx as [Hx | Hx]; [eauto |].
      apply list_elem_of_singleton in Hx as ->.
      assert (k' = kr) as -> by congruence. assert (k = kh) as -> by congruence.
      unfold String.leb. now rewrite Hc.
    + split; [apply elem_of_app; now left |]. intros x k k' Hx Hk' Hk.
      apply elem_of_app in Hx as [Hx | Hx]; [eauto |].
      apply list_elem_of_singleton in Hx as ->.
      assert (k' = kr) as -> by congruence. assert (k = kh) as -> by congruence.
      unfold String.leb. now rewrite Hc.
    + split; [apply elem_of_app; right; now apply list_elem_of_singleton |].
      intros x k k' Hx Hk' Hk.
      assert (k = kr) as -> by congruence.
      apply elem_of_app in Hx as [Hx | Hx].
      * destruct (Hseen x Hx) as [kx Hkx].
        assert (k' = kx) as -> by congruence.
        apply (string_leb_trans kx kh kr); [eauto |].
        now apply string_compare_gt_leb.
      * apply list_elem_of_singleton in Hx as ->.
        assert (k' = kr) as -> by congruence. apply string_leb_refl.
  - subst seen. simpl. split; [now apply list_elem_of_singleton |].
    intros x k k' Hx Hk' Hk. apply list_elem_of_singleton in Hx as ->.
    assert (k' = k) as -> by congruence. apply string_leb_refl.
Qed.

Lemma foldl_max_is_max (c : string) (rs : list row) : ∀ seen o,
  Forall (λ x, ∃ k, col x c = VStr k) (seen ++ rs) ->
  is_max c seen o -> is_max c (seen ++ rs) (foldl (max_step c) o rs).
Proof.
  induction rs as [|r rs IH]; intros seen o Htext Hmax; simpl.
  - now rewrite app_nil_r.
  - replace (seen ++ r :: rs)%list with ((seen ++ [r]) ++ rs)%list in *
      by now rewrite <- List.app_assoc.
    apply IH; [assumption |]. apply max_step_is_max; [| assumption].
    apply Forall_app in Htext. tauto.
Qed.

(** [ORDER BY c DESC LIMIT 1] on rows with text keys: the maximum. *)
Lemma head_sorted_is_max (c : string) (rs : list row) :
  Forall (λ x, ∃ k, col x c = VStr k) rs ->
  is_max c rs (head (foldl (λ acc r, insert_desc c r acc) [] rs)).
Proof.
  intros H. rewrite head_sorted. now apply (foldl_max_is_max c rs [] None).
Qed.

Lemma head_sorted_elem (c : string) (rs : list row) (r : row) :
  head (foldl (λ acc r, insert_desc c r acc) [] rs) = Some r -> r ∈ rs.
Proof.
  intros H. apply head_Some_elem_of in H. apply elem_of_sorted in H.
  destruct H as [H | H]; [inversion H | exact H].
Qed.

Lemma head_filter_exists {A} (P : A → bool) (l : list A) :
  bool_decide (head (filter (λ x, P x = true) l) ≠ None) = existsb P l.
Proof.
  induction l as [|x l IH]; simpl; [reflexivity |].
  rewrite filter_cons. destruct (decide (P x = true)) as [E | E].
  - now rewrite E.
  - apply not_true_is_false in E. now rewrite E.
Qed.

Section Declared.
Variable db : database.
Hypothesis Hd : declared db.

Lemma fact_has_col (c : string) :
  bool_decide (c ∈ fact_inventory_columns) = true ->
  has_col (fact_inventory db) c = true.
Proof. intros H. destruct Hd as [_ ->]. exact H. Qed.

Lemma dim_has_col (c : string) :
  bool_decide (c ∈ dim_assets_columns) = true ->
  has_col (dim_assets db) c = true.
Proof. intros H. destruct Hd as [-> _]. exact H. Qed.

Lemma kode_exists_spec (k : string) :
  kode_exists (VStr k) db = (inr (kode_taken k db), db).
Proof.
  unfold kode_exists. rewrite with_connection_query_ret. simpl get_table.
  rewrite select_eq_text by (apply fact_has_col; reflexivity).
  unfold fetchone. now rewrite head_filter_exists.
Qed.

Lemma get_asset_by_name_spec (n : string) :
  get_asset_by_name (VStr n) db
  = (inr (head (filter (λ r, sql_eq (col r "nama_aset") (VStr n) = true)
                  (t_rows (dim_assets db)))), db).
Proof.
  unfold get_asset_by_name. rewrite with_connection_query_ret. simpl get_table.
  now rewrite select_eq_text by (apply dim_has_col; reflexivity).
Qed.

Lemma get_inventory_template_spec (n : string) :
  get_inventory_template (VStr n) db
  = (inr (head (foldl (λ acc r, insert_desc "timestamp" r acc) []
                  (filter (λ r, sql_eq (col r "nama_aset") (VStr n) = true)
                     (t_rows (fact_inventory db))))), db).
Proof.
  unfold get_inventory_template. rewrite with_connection_query_ret.
  simpl get_table.
  rewrite select_eq_text by (apply fact_has_col; reflexivity).
  unfold order_by_desc. now rewrite fact_has_col by reflexivity.
Qed.

Lemma get_latest_item_spec (n : string) :
  get_latest_item (VStr n) db
  = (inr (head (foldl (λ acc r, insert_desc "kode" r acc) []
                  (filter (λ r, sql_eq (col r "nama_aset") (VStr n) = true)
                     (t_rows (fact_inventory db))))), db).
Proof.
  unfold get_latest_item. rewrite with_connection_query_ret.
  simpl get_table.
  rewrite select_eq_text by (apply fact_has_col; reflexivity).
  unfold order_by_desc. now rewrite fact_has_col by reflexivity.
Qed.
End Declared.

End QueryFacts.

Module OpenedFacts.
Import Text Utils Py Monad Sql Db App SqlFacts DbFacts AppFacts StoreFacts
  LoopFacts QueryFacts.

Lemma assoc_elem (c : string) (named : list (string * val)) (v : val) :
  assoc c named = Some v -> v ∈ map snd named.
Proof.
  unfold assoc. destruct (find _ named) as [p |] eqn:E; [| discriminate].
  intros [= <-]. apply find_some in E as [Hin _].
  apply list_elem_of_fmap_2. now apply list_elem_of_In.
Qed.

(** A row made by an INSERT of storable values is a good row. *)
Lemma row_ok_make_row (t : table) (named : list (string * val)) :
  Forall (λ v, stored_ok v = true) (map snd named) ->
  row_ok (t_cols t) (make_row t named).
Proof.
  intros Hv. split.
  - apply Forall_forall. intros c Hc. rewrite lookup_make_row by assumption. eauto.
  - intros c v Hl.
    destruct (decide (c ∈ t_cols t)) as [Hc | Hc].
    + rewrite lookup_make_row in Hl by assumption. injection Hl as <-.
      destruct (assoc c named) as [w |] eqn:E; [| reflexivity]. simpl.
      rewrite Forall_forall in Hv. apply Hv. now apply assoc_elem in E.
    + now rewrite lookup_make_row_None in Hl.
Qed.

Lemma row_ok_row_of_data (now : string) (data : dict) :
  ints_fit data -> row_ok fact_inventory_columns (row_of_data now data).
Proof.
  intros Hfit. unfold row_of_data, inserted_row.
  apply (row_ok_make_row new_fact_inventory).
  rewrite snd_zip.
  - apply Forall_app. split; [| repeat constructor].
    apply Forall_map, Forall_forall. intros p _.
    apply stored_ok_bound. now apply ints_fit_bind.
  - rewrite !length_app, !length_map. reflexivity.
Qed.

Lemma opened_fresh : opened (create_tables None).
Proof. repeat split; constructor. Qed.

Lemma opened_add_rows (db : database) (rs : list row) :
  opened db -> Forall (row_ok fact_inventory_columns) rs ->
  opened (add_rows db rs).
Proof.
  intros ((Hd1 & Hd2) & Ha & Hi) Hrs. split; [split |]; [exact Hd1 | reflexivity |].
  split; [exact Ha |]. unfold rows_ok. rewrite add_rows_rows.
  change (t_cols (fact_inventory (add_rows db rs))) with fact_inventory_columns.
  apply Forall_app. split; [| exact Hrs].
  unfold rows_ok in Hi. rewrite Hd2 in Hi. exact Hi.
Qed.

Section Opened.
Variables (now : nat → string) (f : form) (db : database).
Hypothesis Hop : opened db.

Lemma template_ok : source_ok fact_inventory_columns (template_of f db).
Proof.
  destruct Hop as (Hd & _ & Hi).
  unfold template_of. rewrite get_inventory_template_spec by assumption. simpl.
  destruct (head _) as [r |] eqn:E; [| exact I]. simpl.
  apply head_sorted_elem, list_elem_of_filter in E as [_ Hin].
  unfold rows_ok in Hi. rewrite Forall_forall in Hi.
  destruct Hd as [_ Hd2]. rewrite Hd2 in Hi. now apply Hi.
Qed.

Lemma master_ok : source_ok dim_assets_columns (master_of f db).
Proof.
  destruct Hop as (Hd & Ha & _).
  unfold master_of. rewrite get_asset_by_name_spec by assumption. simpl.
  destruct (head _) as [r |] eqn:E; [| exact I]. simpl.
  apply head_Some_elem_of, list_elem_of_filter in E as [_ Hin].
  unfold rows_ok in Ha. rewrite Forall_forall in Ha.
  destruct Hd as [Hd1 _]. rewrite Hd1 in Ha. now apply Ha.
Qed.

(** The handler, once the validation has passed: the loop decides. *)
Lemma save_items_loop :
  nonempty (kode f) = true -> kode_taken (kode f) db = false ->
  save_items now f db
  = match bulk_loop now (template_of f db) (master_of f db) f db with
    | (inr st, db') =>
        (inr [StSuccess ("Successfully created "
                           ++ str_of_Z (Z.of_nat (quantity f)) ++ " items!");
              StWrite (created_kodes st); StRerun], db')
    | (inl e, db') => (inr [StError ("Error: " ++ str_of_exn e)], db')
    end.
Proof.
  intros Hne Hfree. destruct Hop as (Hd & _).
  unfold save_items, template_of, master_of, mbind, SE_bind, bindM.
  rewrite get_inventory_template_spec, get_asset_by_name_spec by assumption.
  simpl fst. cbv beta iota.
  unfold validate. rewrite Hne. unfold mbind, SE_bind, bindM.
  rewrite kode_exists_spec by assumption. rewrite Hfree.
  unfold mret, SE_ret, ret, try_except, mbind, SE_bind, bindM.
  destruct (bulk_loop _ _ _ _ db) as [[e | st] db']; reflexivity.
Qed.



Lemma before_start :
  before f 0 {| current_kode := kode f; current_serial := serial_number f;
                created_kodes := [] |}.
Proof. split; reflexivity. Qed.

End Opened.

End OpenedFacts.

Module TransactionFacts.
Import Text Py Monad Sql Pandas Db SqlFacts DbFacts StoreFacts.


(** INSERT OR IGNORE: the table is left as it is, or gets the row. *)
Lemma insert_ignore_inv (t t' : table) (cols : list string) (vals : list val)
    (n : nat) :
  insert_into Ignore t cols vals = inr (t', n) ->
  t' = t
  ∨ t' = with_rows t (t_rows t ++ [make_row t (zip cols (map bound vals))]).
Proof.
  unfold insert_into.
  destruct (find _ cols); [discriminate |].
  destruct (bind_all vals) as [e | vals'] eqn:Hb; [discriminate |].
  apply bind_all_inv in Hb. subst vals'.
  destruct (find _ (t_notnull t)); [intros [= <- _]; now left |].
  destruct (key_taken t _); intros [= <- _]; [now left | now right].
Qed.


Lemma set_table_same (n : tname) (db : database) :
  set_table n (get_table n db) db = db.
Proof. destruct n, db; reflexivity. Qed.

End TransactionFacts.

Module IngestFacts.
Import Text Py Monad Sql Pandas Db SqlFacts DbFacts StoreFacts TransactionFacts.












End IngestFacts.

Module ScanFacts.
Import Text Py Monad Sql Pandas Db Automation SqlFacts.

Lemma key_eqb_text (v : val) (k : string) :
  key_eqb v (VStr k) = true <-> v = VStr k.
Proof.
  destruct v as [| z | f | s]; exact (sql_eq_text _ k).
Qed.

Lemma key_eqb_text_l (v : val) (k : string) :
  key_eqb (VStr k) v = true <-> v = VStr k.
Proof.
  destruct v as [| z | f | s]; simpl; split; try discriminate; try congruence.
  - intros H. apply (sql_eq_text (VStr k) s) in H. congruence.
  - intros [= ->]. now apply (sql_eq_text (VStr k) k).
Qed.

(** Reading a text key after an assignment. *)
Lemma dict_get_set (d : list (val * row)) (kk : val) (v : row) (k : string) :
  dict_get (dict_set d kk v) (VStr k)
  = if key_eqb kk (VStr k) then Some v else dict_get d (VStr k).
Proof.
  unfold dict_get.
  induction d as [|[k' v'] d IH]; simpl.
  - now destruct (key_eqb kk (VStr k)).
  - destruct (key_eqb k' kk) eqn:E1; simpl;
      destruct (key_eqb k' (VStr k)) eqn:E2; simpl.
    + apply key_eqb_text in E2. subst k'.
      apply key_eqb_text_l in E1. subst kk.
      now rewrite (proj2 (key_eqb_text _ k)).
    + destruct (key_eqb kk (VStr k)) eqn:E3; [| reflexivity].
      apply key_eqb_text in E3. subst kk. congruence.
    + apply key_eqb_text in E2. subst k'.
      destruct (key_eqb kk (VStr k)) eqn:E3; [| reflexivity].
      apply key_eqb_text in E3. subst kk.
      now rewrite (proj2 (key_eqb_text_l _ k)) in E1.
    + exact IH.
Qed.

Lemma keyed_loaded (rows : list row) (d : list (val * row)) (l : list row) :
  (∀ k r, dict_get d (VStr k) = Some r -> r ∈ l ∧ col r "kode" = VStr k) ->
  (∀ r k, r ∈ l -> col r "kode" = VStr k -> is_Some (dict_get d (VStr k))) ->
  (∀ k r, dict_get (foldl keyed d rows) (VStr k) = Some r ->
          r ∈ (l ++ rows)%list ∧ col r "kode" = VStr k)
  ∧ (∀ r k, r ∈ (l ++ rows)%list -> col r "kode" = VStr k ->
            is_Some (dict_get (foldl keyed d rows) (VStr k))).
Proof.
  revert d l. induction rows as [|x rows IH]; intros d l H1 H2.
  - rewrite app_nil_r. now split.
  - simpl. replace (l ++ x :: rows)%list with ((l ++ [x]) ++ rows)%list
      by now rewrite <- app_assoc.
    apply IH.
    + intros k r. unfold keyed. rewrite dict_get_set.
      destruct (key_eqb (col x "kode") (VStr k)) eqn:E.
      * apply key_eqb_text in E. intros [= <-]. split; [| exact E].
        apply elem_of_app. right. now apply list_elem_of_singleton.
      * intros H. destruct (H1 k r H) as [Hin Hk]. split; [| exact Hk].
        apply elem_of_app. now left.
    + intros r k Hin Hk. unfold keyed. rewrite dict_get_set.
      destruct (key_eqb (col x "kode") (VStr k)) eqn:E; [now eexists |].
      apply elem_of_app in Hin as [Hin | Hin]; [now apply (H2 r) |].
      apply list_elem_of_singleton in Hin. subst r.
      now rewrite (proj2 (key_eqb_text _ k)) in E.
Qed.

(** The loop over the fetched rows, on a connection. *)
Lemma load_loop (c : conn) (rows : list row) (d : list (val * row)) :
  foldM (λ d r, k ← query FactInventory (λ t, row_kode t r);
                mret (dict_set d k r)) d rows c
  = (if has_col (fact_inventory (work c)) "kode"
     then inr (foldl keyed d rows)
     else match rows with
          | [] => inr d
          | _ :: _ => inl (IndexError "No item with that key")
          end, c).
Proof.
  revert d. induction rows as [|r rows IH]; intros d.
  - simpl. unfold ret. now destruct (has_col _ _).
  - simpl. unfold bindM at 1. unfold mbind, SE_bind, bindM, query, row_kode.
    cbn [get_table].
    destruct (has_col (fact_inventory (work c)) "kode") eqn:E;
      [| reflexivity].
    exact (IH (keyed d r)).
Qed.

(** What the first block of the scan returns: the error of the query, or
    the map of the rows not marked deleted; the database is not written. *)
Lemma load_inventory_spec (db : database) :
  with_connection load_inventory db
  = (match select_where (fact_inventory db) ["is_deleted"] not_deleted with
     | inl e => inl e
     | inr rows =>
         if has_col (fact_inventory db) "kode"
         then inr (foldl keyed [] rows)
         else match rows with
              | [] => inr []
              | _ :: _ => inl (IndexError "No item with that key")
              end
     end, db).
Proof.
  unfold with_connection, load_inventory, mbind, SE_bind, bindM.
  unfold query at 1. cbn [get_table work].
  destruct (select_where (fact_inventory db) ["is_deleted"] not_deleted)
    as [e | rows]; [reflexivity |].
  rewrite load_loop. reflexivity.
Qed.

Lemma scan_issues_spec (directories : option (list string)) (fs : filesystem)
    (db : database) :
  scan_issues directories fs db
  = (match fst (with_connection load_inventory db) with
     | inl e => inl e
     | inr inv => inr (detect fs inv (default default_directories directories))
     end, db).
Proof.
  unfold scan_issues, create_tables.
  change (default _ (Some db)) with db.
  rewrite load_inventory_spec. cbn [fst].
  set (loaded_map := match select_where _ _ _ with inl e => _ | inr rows => _ end).
  now destruct loaded_map.
Qed.

(** A scan either raises and leaves everything, or makes its three
    assignments. *)
Lemma scan_directory_spec (now : string) (directories : option (list string))
    (w : world) :
  scan_directory now directories w
  = match fst (with_connection load_inventory (w_db w)) with
    | inl e => (inl e, w)
    | inr inv =>
        let issues :=
          detect (w_fs w) inv (default default_directories directories) in
        (inr tt,
         {| w_db := w_db w; w_fs := w_fs w;
            w_results :=
              {| detected_files := issues; last_scan := Some now;
                 status := match issues with
                           | [] => "ok"
                           | _ :: _ => "warning"
                           end |} |})
    end.
Proof.
  unfold scan_directory. rewrite scan_issues_spec.
  destruct (fst (with_connection load_inventory (w_db w))) as [e | inv].
  - now destruct w.
  - reflexivity.
Qed.

Lemma concat_nil {A} (ls : list (list A)) :
  concat ls = [] <-> ∀ l, l ∈ ls -> l = [].
Proof.
  induction ls as [|x ls IH]; simpl.
  - split; [| reflexivity]. intros _ l Hl. now apply elem_of_nil in Hl.
  - split.
    + intros H. apply app_eq_nil in H as [-> H]. intros l Hl.
      apply elem_of_cons in Hl as [-> | Hl]; [reflexivity |].
      now apply IH.
    + intros H. rewrite (H x) by apply list_elem_of_here. simpl.
      apply IH. intros l Hl. apply H. now apply list_elem_of_further.
Qed.

(** No report: no listed file of an existing directory gives one. *)
Lemma detect_nil (fs : filesystem) (inv : list (val * row))
    (directories : list string) :
  detect fs inv directories = []
  <-> ∀ directory files f,
        directory ∈ directories -> fs directory = Some files -> f ∈ files ->
        scan_entry inv directory f = [].
Proof.
  unfold detect. rewrite concat_nil. split.
  - intros H directory files f Hd Hfs Hf.
    specialize (H (concat (map (scan_entry inv directory) files))).
    assert (Hc : concat (map (scan_entry inv directory) files) = []).
    { apply H. apply list_elem_of_fmap. exists directory.
      split; [| exact Hd]. now rewrite Hfs. }
    apply (proj1 (concat_nil _) Hc). apply list_elem_of_fmap. now exists f.
  - intros H l Hl. apply list_elem_of_fmap in Hl as [directory [-> Hd]].
    destruct (fs directory) as [files |] eqn:Hfs; [| reflexivity].
    apply concat_nil. intros l Hl.
    apply list_elem_of_fmap in Hl as [f [-> Hf]]. now apply (H directory files).
Qed.

End ScanFacts.

(** ** The example registries *)

Module ExamplesFacts.
  Import Text Utils Py Monad Sql Db App Examples.
  Import SqlFacts DbFacts AppFacts StoreFacts OpenedFacts.

Lemma ints_fit_record (k sn name : string) : ints_fit (record k sn name).
Proof.
  intros key z H. apply elem_of_list_to_map_2 in H.
  repeat (apply elem_of_cons in H as [H | H]; [discriminate H |]). inversion H.
Qed.

Lemma opened_db_with (k sn name : string) : opened (db_with k sn name).
Proof.
  apply opened_add_rows; [apply opened_fresh |].
  constructor; [| constructor].
  apply row_ok_row_of_data, ints_fit_record.
Qed.

Lemma opened_db_with2 (k1 k2 name : string) : opened (db_with2 k1 k2 name).
Proof.
  apply opened_add_rows; [apply opened_fresh |].
  constructor; [apply row_ok_row_of_data, ints_fit_record |].
  constructor; [| constructor].
  apply row_ok_row_of_data, ints_fit_record.
Qed.

Lemma with_rows_nil (t : table) : with_rows t (t_rows t ++ []) = t.
Proof. destruct t. unfold with_rows. simpl. now rewrite app_nil_r. Qed.

End ExamplesFacts.

(** ** The comparison of a field pair and the three assignments *)

Module CompareFacts.
  Import Text Py Monad Sql Pandas Db Automation.

Lemma nonempty_spec (s : string) : nonempty s = true <-> s ≠ "".
Proof.
  unfold nonempty. destruct (String.eqb_spec s ""); simpl; split; congruence.
Qed.

Lemma same_number_spec (e d : string) :
  same_number e d = true
  <-> e ≠ "" ∧ d ≠ ""
      ∧ ∃ x y, float_of_string e = Some x ∧ float_of_string d = Some y
               ∧ float_eqb x y = true.
Proof.
  unfold same_number. split.
  - destruct (nonempty e) eqn:He; [| discriminate].
    destruct (nonempty d) eqn:Hd; [| discriminate]. simpl.
    destruct (float_of_string e) as [x |]; [| discriminate].
    destruct (float_of_string d) as [y |]; [| discriminate].
    intros H. apply nonempty_spec in He, Hd. repeat split; trivial.
    now exists x, y.
  - intros (He & Hd & x & y & -> & -> & H).
    apply nonempty_spec in He, Hd. now rewrite He, Hd.
Qed.

Lemma compare_field_nil (r : Series) (db_row : row) (excel_col db_col : string) :
  compare_field r db_row (excel_col, db_col) = []
  <-> field_changed (excel_val (row_get r excel_col (VStr "")))
        (db_val (get_or db_row db_col (VStr ""))) = false.
Proof.
  unfold compare_field. destruct (field_changed _ _); split; congruence.
Qed.

(** The registry after the three assignments. *)
Lemma publish_final (old : scan_results) (now : string)
    (issues : list file_report) :
  foldl apply_write old (publish now issues)
  = {| detected_files := issues; last_scan := Some now;
       status := match issues with [] => "ok" | _ :: _ => "warning" end |}.
Proof. reflexivity. Qed.

End CompareFacts.

(** ** Decimal renderings: bounds, uniqueness and the shortest one *)

Module SequencerFacts.
Import Text Utils TextFacts UtilsFacts.
#[local] Arguments String.append !s1 s2 : simpl nomatch.

Lemma is_digit_val (c : ascii) : is_digit c = true -> 0 <= digit_val c < 10.
Proof.
  unfold is_digit, digit_val. intros H.
  apply andb_true_iff in H as [H1 H2].
  apply N.leb_le in H1, H2. lia.
Qed.

Lemma digit_val_inj (c d : ascii) : digit_val c = digit_val d -> c = d.
Proof.
  unfold digit_val, code. intros H.
  assert (E : N_of_ascii c = N_of_ascii d) by lia.
  rewrite <- (ascii_N_embedding c), <- (ascii_N_embedding d). now rewrite E.
Qed.

(** A run read after [a]: [a] shifted by the run's length, plus the run. *)
Lemma digits_value_acc_shift (s : string) : forall a,
  digits_value_acc a s
  = a * 10 ^ Z.of_nat (String.length s) + digits_value s.
Proof.
  unfold digits_value.
  induction s as [|c s IH]; intros a.
  - simpl. lia.
  - cbn [digits_value_acc String.length].
    rewrite IH, (IH (10 * 0 + digit_val c)).
    rewrite Nat2Z.inj_succ, Z.pow_succ_r by lia. ring.
Qed.

Lemma digits_value_cons (c : ascii) (s : string) :
  digits_value (String c s)
  = digit_val c * 10 ^ Z.of_nat (String.length s) + digits_value s.
Proof.
  unfold digits_value at 1. cbn [digits_value_acc].
  rewrite digits_value_acc_shift. ring.
Qed.

Lemma digits_value_bound (s : string) :
  all_digits s = true -> 0 <= digits_value s < 10 ^ Z.of_nat (String.length s).
Proof.
  induction s as [|c s IH]; intros H.
  - unfold digits_value. simpl. lia.
  - cbn [all_digits] in H. apply andb_true_iff in H as [Hc Hs].
    specialize (IH Hs). apply is_digit_val in Hc.
    rewrite digits_value_cons. cbn [String.length].
    rewrite Nat2Z.inj_succ, Z.pow_succ_r by lia.
    assert (0 < 10 ^ Z.of_nat (String.length s)) by (apply Z.pow_pos_nonneg; lia).
    nia.
Qed.

(** Two runs of the same length and the same value are the same run. *)
Lemma digits_value_inj (a : string) : forall b,
  all_digits a = true -> all_digits b = true ->
  String.length a = String.length b -> digits_value a = digits_value b ->
  a = b.
Proof.
  induction a as [|c a IH]; intros [|d b] Ha Hb Hl Hv; try discriminate.
  - reflexivity.
  - cbn [all_digits] in Ha, Hb.
    apply andb_true_iff in Ha as [Hc Ha]. apply andb_true_iff in Hb as [Hd Hb].
    injection Hl as Hl.
    rewrite !digits_value_cons, <- Hl in Hv.
    pose proof (digits_value_bound a Ha) as Ba.
    pose proof (digits_value_bound b Hb) as Bb. rewrite <- Hl in Bb.
    apply is_digit_val in Hc, Hd.
    assert (E : digit_val c = digit_val d) by nia.
    assert (Ev : digits_value a = digits_value b) by nia.
    f_equal; [now apply digit_val_inj | now apply IH].
Qed.

(** The rendering of a positive number has no zero in front. *)
Lemma render_go_low (fuel : nat) : forall (n : Z) (acc : string),
  0 < n < 2 ^ Z.of_nat fuel ->
  exists ds, render_go fuel n acc = ds ++ acc
             /\ 10 ^ (Z.of_nat (String.length ds) - 1) <= n.
Proof.
  induction fuel as [|fuel IH]; intros n acc Hn.
  - simpl in Hn. lia.
  - cbn [render_go].
    destruct (n / 10 =? 0) eqn:Hq.
    + exists (String (digit_char (n mod 10)) ""). split; [reflexivity |].
      simpl. lia.
    + apply Z.eqb_neq in Hq.
      assert (Hd : 0 < n / 10).
      { assert (0 <= n / 10) by (apply Z.div_pos; lia). lia. }
      destruct (IH (n / 10) (String (digit_char (n mod 10)) acc))
        as (ds & Hds & Hlow).
      { split; [exact Hd |].
        rewrite Nat2Z.inj_succ, Z.pow_succ_r in Hn by lia.
        apply Z.div_lt_upper_bound; lia. }
      exists (ds ++ String (digit_char (n mod 10)) ""). split.
      * rewrite Hds, app_assoc. reflexivity.
      * rewrite length_app. cbn [String.length].
        replace (Z.of_nat (String.length ds + 1) - 1)
          with (Z.succ (Z.of_nat (String.length ds) - 1)) by lia.
        destruct ds as [|c ds].
        { simpl. lia. }
        rewrite Z.pow_succ_r by (cbn [String.length]; lia).
        pose proof (Z.mul_div_le n 10). lia.
Qed.

Lemma render_nat_low (n : Z) :
  0 < n -> 10 ^ (Z.of_nat (String.length (render_nat n)) - 1) <= n.
Proof.
  intros Hn. unfold render_nat.
  destruct (render_go_low (S (Z.to_nat (Z.log2 n))) n "") as (ds & Hds & H).
  - split; [assumption |].
    rewrite Nat2Z.inj_succ, Z2Nat.id by apply Z.log2_nonneg.
    apply Z.log2_spec. lia.
  - rewrite Hds, app_empty_r. exact H.
Qed.

(** No run of digits is shorter than the rendering of its value. *)
Lemma render_nat_shortest (r : string) :
  all_digits r = true -> r <> "" ->
  (String.length (render_nat (digits_value r)) <= String.length r)%nat.
Proof.
  intros Hr Hne.
  pose proof (digits_value_bound r Hr) as [H0 Hup].
  destruct (Z.eq_dec (digits_value r) 0) as [E | E].
  - rewrite E. change (render_nat 0) with "0".
    destruct r; [contradiction |]. cbn [String.length]. lia.
  - pose proof (render_nat_low (digits_value r) ltac:(lia)) as Hlow.
    assert (Hlt : 10 ^ (Z.of_nat (String.length (render_nat (digits_value r))) - 1)
                  < 10 ^ Z.of_nat (String.length r)) by lia.
    apply Z.pow_lt_mono_r_iff in Hlt; lia.
Qed.

(** The rendering grows with the number. *)
Lemma render_nat_length_mono (a b : Z) :
  0 <= a <= b ->
  (String.length (render_nat a) <= String.length (render_nat b))%nat.
Proof.
  intros [Ha Hab].
  destruct (render_nat_spec b ltac:(lia)) as (Hall & Hne & Hval).
  destruct (Z.eq_dec a 0) as [-> | E].
  - change (render_nat 0) with "0".
    destruct (render_nat b); [contradiction |]. cbn [String.length]. lia.
  - pose proof (render_nat_low a ltac:(lia)) as Hlow.
    pose proof (digits_value_bound _ Hall) as [_ Hup]. rewrite Hval in Hup.
    assert (Hlt : 10 ^ (Z.of_nat (String.length (render_nat a)) - 1)
                  < 10 ^ Z.of_nat (String.length (render_nat b))) by lia.
    apply Z.pow_lt_mono_r_iff in Hlt; lia.
Qed.

Lemma all_digits_zeros (k : nat) : all_digits (zeros k) = true.
Proof. induction k; [reflexivity | exact IHk]. Qed.

Lemma str_of_Z_nonneg (v : Z) : 0 <= v -> str_of_Z v = render_nat v.
Proof.
  intros H. unfold str_of_Z. destruct (v <? 0) eqn:E; [| reflexivity].
  apply Z.ltb_lt in E. lia.
Qed.

(** The padded rendering of a number that is not negative. *)
Lemma zfill_render (w : nat) (v : Z) :
  0 <= v ->
  let padded := zfill w (str_of_Z v) in
  padded = zeros (w - String.length (render_nat v)) ++ render_nat v
  /\ all_digits padded = true /\ padded <> ""
  /\ digits_value padded = v
  /\ String.length padded = Nat.max w (String.length (render_nat v)).
Proof.
  intros Hv padded. subst padded. rewrite str_of_Z_nonneg by assumption.
  destruct (render_nat_spec v Hv) as (Hall & Hne & Hval).
  rewrite zfill_digits by assumption.
  split; [reflexivity |]. split; [| split; [| split]].
  - now rewrite all_digits_app, all_digits_zeros, Hall.
  - destruct (zeros _); [exact Hne | discriminate].
  - now rewrite digits_value_zeros.
  - rewrite length_app, length_zeros. lia.
Qed.

(** Writing a run's own value at the run's length gives the run back. *)
Lemma zfill_same_value (r : string) :
  all_digits r = true -> r <> "" ->
  zfill (String.length r) (str_of_Z (digits_value r)) = r.
Proof.
  intros Hr Hne.
  pose proof (digits_value_bound r Hr) as [H0 _].
  destruct (zfill_render (String.length r) (digits_value r) H0)
    as (_ & Hall & _ & Hval & Hlen).
  apply digits_value_inj; try assumption.
  rewrite Hlen. pose proof (render_nat_shortest r Hr Hne). lia.
Qed.

Lemma render_nat_length_le (n : Z) (k : nat) :
  0 <= n < 10 ^ Z.of_nat k -> (0 < k)%nat ->
  (String.length (render_nat n) <= k)%nat.
Proof.
  intros [H0 Hup] Hk.
  destruct (Z.eq_dec n 0) as [-> | E].
  - change (render_nat 0) with "0". cbn [String.length]. lia.
  - pose proof (render_nat_low n ltac:(lia)) as Hlow.
    assert (Hlt : 10 ^ (Z.of_nat (String.length (render_nat n)) - 1)
                  < 10 ^ Z.of_nat k) by lia.
    apply Z.pow_lt_mono_r_iff in Hlt; lia.
Qed.

Lemma limit_succ : int_max_str_digits = S (pred int_max_str_digits).
Proof. reflexivity. Qed.

Lemma within_limit_bound (r : string) (a : Z) :
  (String.length r <= int_max_str_digits)%nat ->
  Z.abs (digits_value r + a) < 10 ^ Z.of_nat int_max_str_digits ->
  within_limit r a = true.
Proof.
  intros Hlen Hv. unfold within_limit.
  rewrite (proj2 (Nat.leb_le _ _) Hlen). apply Nat.leb_le.
  apply render_nat_length_le; [lia |].
  rewrite limit_succ. lia.
Qed.

Lemma within_limit_inv (r : string) (a : Z) :
  within_limit r a = true ->
  (String.length r <= int_max_str_digits)%nat
  /\ (String.length (render_nat (Z.abs (digits_value r + a)))
      <= int_max_str_digits)%nat.
Proof.
  unfold within_limit.
  destruct (String.length r <=? int_max_str_digits)%nat eqn:E; [| discriminate].
  intros H. apply Nat.leb_le in E, H. now split.
Qed.

(** A short run and a step within the bound stay below the limit. *)
Lemma small_sum (r : string) (a : Z) :
  all_digits r = true -> (String.length r < int_max_str_digits)%nat ->
  Z.abs a <= step_bound ->
  Z.abs (digits_value r + a) < 10 ^ Z.of_nat int_max_str_digits.
Proof.
  intros Hr Hlen Ha. unfold step_bound in Ha.
  pose proof (digits_value_bound r Hr) as [H0 Hup].
  pose proof limit_succ as E.
  set (k := pred int_max_str_digits) in *. clearbody k.
  rewrite E in Hlen |- *.
  assert (Hle : 10 ^ Z.of_nat (String.length r) <= 10 ^ Z.of_nat k)
    by (apply Z.pow_le_mono_r; lia).
  assert (0 < 10 ^ Z.of_nat k) by (apply Z.pow_pos_nonneg; lia).
  rewrite Nat2Z.inj_succ, Z.pow_succ_r by lia. lia.
Qed.

Lemma within_limit_small (r : string) (a : Z) :
  all_digits r = true -> (String.length r < int_max_str_digits)%nat ->
  Z.abs a <= step_bound -> within_limit r a = true.
Proof.
  intros Hr Hlen Ha. apply within_limit_bound; [lia |].
  now apply small_sum.
Qed.

Lemma run_length_le (s p r x : string) :
  last_digit_run s p r x -> (String.length r <= String.length s)%nat.
Proof. intros (-> & _). rewrite !length_app. lia. Qed.

(** The result of a step that stays at or above zero has the same prefix
    and suffix, around the padded number. *)
Lemma last_digit_run_step (s p r x : string) (a : Z) :
  last_digit_run s p r x -> within_limit r a = true ->
  0 <= digits_value r + a ->
  last_digit_run (increment_string s a) p
    (zfill (String.length r) (str_of_Z (digits_value r + a))) x.
Proof.
  intros H Hl Hv. rewrite (increment_last_run s p r x a H Hl).
  destruct H as (_ & _ & _ & Hx & Hp).
  destruct (zfill_render (String.length r) (digits_value r + a) Hv)
    as (_ & Hall & Hne & _ & _).
  repeat split; assumption.
Qed.

Lemma has_digit_cases (s : string) :
  has_digit s = false \/ exists p r x, last_digit_run s p r x.
Proof.
  destruct (has_digit s) eqn:E; [right | now left].
  now apply last_digit_run_exists.
Qed.

Lemma increment_zero (s : string) : increment_string s 0 = s.
Proof.
  destruct (has_digit_cases s) as [H | (p & r & x & H)].
  - now apply increment_no_digit.
  - rewrite (increment_last_run_cases s p r x 0 H).
    destruct (within_limit r 0); [| reflexivity].
    destruct H as (-> & Hne & Hall & _).
    rewrite Z.add_0_r, zfill_same_value by assumption. reflexivity.
Qed.

Lemma increment_compose (s : string) (a b : Z) :
  0 <= a -> 0 <= b ->
  (String.length s < int_max_str_digits)%nat -> a + b <= step_bound ->
  increment_string (increment_string s a) b = increment_string s (a + b).
Proof.
  intros Ha Hb Hs Hab.
  destruct (has_digit_cases s) as [H | (p & r & x & H)].
  - now rewrite !increment_no_digit by (try rewrite increment_no_digit; assumption).
  - assert (Hr : all_digits r = true) by apply H.
    pose proof (run_length_le s p r x H) as Hrl.
    pose proof (digits_value_bound r Hr) as [H0 _].
    assert (La : within_limit r a = true)
      by (apply within_limit_small; [assumption | lia | lia]).
    assert (Lab : within_limit r (a + b) = true)
      by (apply within_limit_small; [assumption | lia | lia]).
    pose proof (last_digit_run_step s p r x a H La ltac:(lia)) as H1.
    destruct (zfill_render (String.length r) (digits_value r + a) ltac:(lia))
      as (_ & _ & _ & Hval & Hlen).
    assert (L1 : within_limit
                   (zfill (String.length r) (str_of_Z (digits_value r + a))) b
                 = true).
    { apply within_limit_bound.
      - rewrite Hlen. apply within_limit_inv in La as [L1 L2].
        rewrite Z.abs_eq in L2 by lia. lia.
      - rewrite Hval, <- Z.add_assoc. apply small_sum; [assumption | lia | lia]. }
    rewrite (increment_last_run _ _ _ _ b H1 L1),
      (increment_last_run s p r x _ H Lab).
    rewrite Hval, Hlen, Z.add_assoc.
    do 2 f_equal.
    destruct (zfill_render (String.length r) (digits_value r + a + b) ltac:(lia))
      as (-> & _).
    destruct (zfill_render
                (Nat.max (String.length r)
                   (String.length (render_nat (digits_value r + a))))
                (digits_value r + a + b) ltac:(lia)) as (-> & _).
    pose proof (render_nat_length_mono (digits_value r + a)
                  (digits_value r + a + b) ltac:(lia)).
    do 2 f_equal. lia.
Qed.

Lemma increment_undo (s : string) (a : Z) :
  0 <= a <= step_bound ->
  (String.length s < int_max_str_digits)%nat ->
  String.length (increment_string s a) = String.length s ->
  increment_string (increment_string s a) (- a) = s.
Proof.
  intros Ha Hs Hlen.
  destruct (has_digit_cases s) as [H | (p & r & x & H)].
  - now rewrite !increment_no_digit by (try rewrite increment_no_digit; assumption).
  - assert (Hr : all_digits r = true) by apply H.
    assert (Hne : r <> "") by apply H.
    pose proof (run_length_le s p r x H) as Hrl.
    pose proof (digits_value_bound r Hr) as [H0 Hup].
    assert (La : within_limit r a = true)
      by (apply within_limit_small; [assumption | lia | lia]).
    pose proof (last_digit_run_step s p r x a H La ltac:(lia)) as H1.
    rewrite (increment_last_run s p r x a H La) in Hlen.
    destruct (zfill_render (String.length r) (digits_value r + a) ltac:(lia))
      as (_ & _ & _ & Hval & Hl).
    assert (Hsame : String.length
                      (zfill (String.length r) (str_of_Z (digits_value r + a)))
                    = String.length r).
    { destruct H as (-> & _). rewrite !length_app in Hlen. lia. }
    assert (L1 : within_limit
                   (zfill (String.length r) (str_of_Z (digits_value r + a)))
                   (- a) = true).
    { apply within_limit_bound.
      - rewrite Hsame. lia.
      - rewrite Hval.
        replace (digits_value r + a + - a) with (digits_value r + 0) by lia.
        apply small_sum; [assumption | lia |].
        unfold step_bound. rewrite Z.abs_0. apply Z.pow_nonneg. lia. }
    rewrite (increment_last_run _ _ _ _ (- a) H1 L1).
    rewrite Hval, Hsame.
    replace (digits_value r + a + - a) with (digits_value r) by lia.
    rewrite zfill_same_value by assumption. symmetry. apply H.
Qed.

Lemma increment_iter (s : string) (i : nat) :
  (String.length s < int_max_str_digits)%nat -> Z.of_nat i <= step_bound ->
  Nat.iter i increment_string1 s = increment_string s (Z.of_nat i).
Proof.
  intros Hs. induction i as [|i IH]; intros Hi.
  - cbn [Nat.iter nat_rect]. now rewrite increment_zero.
  - change (Nat.iter (S i) increment_string1 s)
      with (increment_string1 (Nat.iter i increment_string1 s)).
    rewrite IH by lia. unfold increment_string1.
    rewrite increment_compose by lia. f_equal. lia.
Qed.

(** A step never makes the text shorter. *)
Lemma increment_length (s : string) (a : Z) :
  (String.length s <= String.length (increment_string s a))%nat.
Proof.
  destruct (has_digit_cases s) as [H | (p & r & x & H)].
  - now rewrite increment_no_digit.
  - rewrite (increment_last_run_cases s p r x a H).
    destruct (within_limit r a); [| lia].
    destruct H as (-> & _).
    rewrite !length_app, length_zfill. lia.
Qed.

Lemma step_bound_large : 1000000 <= step_bound.
Proof. apply Z.leb_le. vm_compute. reflexivity. Qed.

Lemma short_text (s : string) :
  (String.length s <=? 100)%nat = true ->
  (String.length s < int_max_str_digits)%nat.
Proof.
  intros H. apply Nat.leb_le in H.
  assert (100 < int_max_str_digits)%nat by (apply Nat.ltb_lt; reflexivity).
  lia.
Qed.

End SequencerFacts.

(** ** The registry and the catalog: single statements *)

Module RegistryFacts.
Import Text Py Monad Sql Db SqlFacts DbFacts StoreFacts QueryFacts
  TransactionFacts.

Lemma filter_hits {A} (P : A → bool) (l : list A) :
  Nat.ltb 0 (length (filter (λ x, P x = true) l)) = existsb P l.
Proof.
  induction l as [|x l IH]; [reflexivity |].
  rewrite filter_cons. cbn [existsb].
  destruct (decide (P x = true)) as [E | E].
  - now rewrite E.
  - apply not_true_is_false in E. now rewrite E.
Qed.

Lemma filter_none {A} (P : A → bool) (l : list A) :
  existsb P l = false -> filter (λ x, P x ≠ true) l = l.
Proof.
  induction l as [|x l IH]; [reflexivity |]. cbn [existsb].
  intros H. apply orb_false_iff in H as [Hx Hl].
  rewrite filter_cons, decide_True by congruence. now rewrite IH.
Qed.

Lemma filter_no_hit {A} (P : A → bool) (l : list A) :
  existsb P l = false -> filter (λ x, P x = true) l = [].
Proof.
  induction l as [|x l IH]; [reflexivity |]. cbn [existsb].
  intros H. apply orb_false_iff in H as [Hx Hl].
  rewrite filter_cons, decide_False by congruence. now apply IH.
Qed.

Lemma filter_last_hit {A} (P : A → bool) (l : list A) (x : A) :
  existsb P l = false -> P x = true ->
  filter (λ x, P x ≠ true) (l ++ [x])%list = l.
Proof.
  intros Hl Hx. rewrite filter_app, filter_none by assumption.
  rewrite filter_cons, decide_False by congruence.
  rewrite filter_nil. apply app_nil_r.
Qed.

Lemma declared_eta (db : database) :
  declared db ->
  {| dim_assets := dim_assets db;
     fact_inventory :=
       with_rows new_fact_inventory (t_rows (fact_inventory db)) |} = db.
Proof. intros [_ H]. rewrite <- H. now destruct db. Qed.

Lemma with_rows_rows (t : table) (rs : list row) : t_rows (with_rows t rs) = rs.
Proof. reflexivity. Qed.

Lemma with_rows_with_rows (t : table) (l1 l2 : list row) :
  with_rows (with_rows t l1) l2 = with_rows t l2.
Proof. reflexivity. Qed.

(** [delete_inventory] on the declared table. *)
Lemma delete_inventory_unfold (k : string) (db : database) :
  declared db ->
  delete_inventory (VStr k) db
  = (inr (kode_taken k db),
     set_table FactInventory
       (with_rows new_fact_inventory
          (filter (λ r, sql_eq (col r "kode") (VStr k) ≠ true)
             (t_rows (fact_inventory db)))) db).
Proof.
  intros Hd. pose proof (fact_has_col db Hd "kode" eq_refl) as Hcol.
  destruct Hd as [_ Hf].
  unfold delete_inventory, with_connection, mbind, SE_bind, bindM, execute,
    commit, mret, SE_ret, ret, delete_eq.
  cbn [work file get_table].
  rewrite (select_eq_text _ _ _ Hcol).
  cbn [work file]. unfold kode_taken. rewrite filter_hits.
  rewrite Hf at 2. reflexivity.
Qed.

Lemma serial_exists_spec (s : string) (db : database) :
  declared db ->
  serial_exists (VStr s) db
  = (inr (existsb (λ r, sql_eq (col r "serial_number") (VStr s))
            (t_rows (fact_inventory db))), db).
Proof.
  intros Hd. pose proof (fact_has_col db Hd "serial_number" eq_refl) as Hcol.
  unfold serial_exists. rewrite with_connection_query_ret. cbn [get_table].
  rewrite (select_eq_text _ _ _ Hcol). unfold fetchone.
  now rewrite head_filter_exists.
Qed.

(** [insert_asset] on the declared catalog. *)
Lemma insert_asset_unfold (data : dict) (db : database) :
  insert_asset data db
  = match insert_into Abort (dim_assets db) dim_assets_columns
            (map (get data) dim_assets_columns) with
    | inl e => (inl e, db)
    | inr (t', _) => (inr tt, set_table DimAssets t' db)
    end.
Proof. unfold insert_asset. now rewrite with_connection_execute_commit. Qed.

Lemma dim_cols_in (c : string) :
  bool_decide (c ∈ dim_assets_columns) = true -> c ∈ t_cols new_dim_assets.
Proof. intros H. now apply bool_decide_eq_true in H. Qed.

Lemma assoc_zip_map (f : string → val) (cols : list string) (c : string) :
  c ∈ cols -> assoc c (zip cols (map f cols)) = Some (f c).
Proof.
  unfold assoc. induction cols as [|x cols IH]; intros H.
  - now apply elem_of_nil in H.
  - cbn [zip zip_with map find fst]. destruct (String.eqb_spec x c) as [-> | Hne]; [reflexivity |].
    apply elem_of_cons in H as [-> | H]; [contradiction |]. now apply IH.
Qed.

End RegistryFacts.

(** ** The dialogs of the Asset Manager page *)

Module DialogFacts.
Import Text Utils Py Monad Sql Db App Dialogs.
Import SqlFacts DbFacts StoreFacts QueryFacts TransactionFacts RegistryFacts.

Lemma asset_data_name (f : asset_form) :
  asset_data f !! "nama_aset" = Some (VStr (a_nama_aset f)).
Proof. destruct f. vm_compute. reflexivity. Qed.

Lemma ints_fit_asset_data (f : asset_form) :
  - 2 ^ 63 <= a_quantity f < 2 ^ 63 -> ints_fit (asset_data f).
Proof.
  intros Hq key z Hz. apply elem_of_list_to_map_2 in Hz.
  repeat (apply elem_of_cons in Hz as [Hz | Hz];
          [first [discriminate Hz | simplify_eq; exact Hq] |]).
  inversion Hz.
Qed.

(** A fetched row is a non-empty dict when the table has a column. *)
Lemma dict_truthy_row (cols : list string) (r : row) (c : string) :
  row_ok cols r -> c ∈ cols -> dict_truthy (Some r) = true.
Proof.
  intros [Hall _] Hc. unfold dict_truthy.
  rewrite Forall_forall in Hall. destruct (Hall c Hc) as [v Hv].
  destruct (size r) eqn:E; [| reflexivity].
  apply map_size_empty_inv in E. subst r. now rewrite lookup_empty in Hv.
Qed.

End DialogFacts.

(** ** The inventory dialog and the catalog *)

Module CatalogFacts.
Import Text Utils Py Monad Sql Db App Dialogs Examples MoreExamples.
Import SqlFacts DbFacts AppFacts StoreFacts LoopFacts QueryFacts OpenedFacts
  ExamplesFacts RegistryFacts.

Lemma insert_asc_length (c : string) (r : row) (l : list row) :
  length (insert_asc c r l) = S (length l).
Proof.
  induction l as [|x l IH]; simpl; [reflexivity |].
  destruct (sql_compare _ _); simpl; now rewrite ?IH.
Qed.

Lemma sorted_asc_length (c : string) (rs : list row) : ∀ acc,
  length (foldl (λ acc r, insert_asc c r acc) acc rs)
  = (length acc + length rs)%nat.
Proof.
  induction rs as [|r rs IH]; intros acc; simpl; [lia |].
  rewrite IH, insert_asc_length. lia.
Qed.

Lemma get_all_assets_spec (db : database) :
  declared db ->
  get_all_assets db
  = (inr (foldl (λ acc r, insert_asc "nama_aset" r acc) []
            (t_rows (dim_assets db))), db).
Proof.
  intros [Hd _]. unfold get_all_assets. rewrite with_connection_query.
  cbn [get_table]. rewrite Hd. reflexivity.
Qed.


(** With an asset to select the dialog comes to its Save handler. *)
Lemma dialog_selectable (now : nat → string) (f : form) (db : database) :
  declared db -> selectable f db ->
  add_inventory_dialog now f db = save_items now f db.
Proof.
  intros Hd (a & Ha & _). unfold add_inventory_dialog, mbind, SE_bind, bindM.
  rewrite (get_all_assets_spec db Hd).
  destruct (foldl _ _ _) as [|x l] eqn:E; [| reflexivity].
  apply (f_equal length) in E. rewrite sorted_asc_length in E.
  destruct (t_rows (dim_assets db)); [inversion Ha | discriminate E].
Qed.

Lemma asset_known_selectable (f : form) (db : database) :
  asset_known (VStr (selected_asset_name f)) db = true -> selectable f db.
Proof.
  unfold asset_known, selectable. intros H.
  apply existsb_exists in H as (a & Ha & He).
  exists a. split; [now apply list_elem_of_In |]. now apply sql_eq_text in He.
Qed.

(** *** The example databases *)

Lemma rows_ok_closed (t : table) :
  bool_decide (Forall (λ r, Forall (λ c, is_Some (r !! c)) (t_cols t)
                            ∧ map_Forall (λ _ v, stored_ok v = true) r)
                 (t_rows t)) = true ->
  rows_ok t.
Proof. intros H. apply bool_decide_eq_true in H. exact H. Qed.

Ltac closed_opened :=
  split; [split; vm_compute; reflexivity |];
  split; apply rows_ok_closed; vm_compute; reflexivity.

Ltac closed_typed := apply (bool_decide_unpack _); vm_compute; exact I.

Lemma opened_catalog_db : opened catalog_db.
Proof. closed_opened. Qed.

Lemma typed_catalog_db : typed_db catalog_db.
Proof. closed_typed. Qed.

Lemma opened_stocked_A002 : opened (stocked ["A002"]).
Proof. closed_opened. Qed.

Lemma typed_stocked_A002 : typed_db (stocked ["A002"]).
Proof. closed_typed. Qed.

Lemma selectable_laptop (k sn : string) (q : nat) (db : database) :
  asset_known (VStr "Laptop") db = true -> selectable (laptop_form k sn q) db.
Proof. apply (asset_known_selectable (laptop_form k sn q)). Qed.

(** The sequencer leaves an empty serial empty. *)
Lemma nth_serial_empty (f : form) (i : nat) :
  serial_number f = "" -> nth_serial f i = "".
Proof.
  intros H. unfold nth_serial. rewrite H.
  induction i as [|i IH]; [reflexivity |].
  change (Nat.iter (S i) increment_string1 "")
    with (increment_string1 (Nat.iter i increment_string1 "")).
  now rewrite IH.
Qed.

End CatalogFacts.

(** * helpers/utils.py *)

Module UtilsSpec.
  Import Text Utils Examples TextFacts UtilsFacts.



End UtilsSpec.

(** * app.py: the "Add Inventory Item" dialog *)

Module AppSpec.
  Import Text Utils Py Monad Sql Pandas Db App Dialogs Examples MoreExamples.
  Import TextFacts UtilsFacts SqlFacts DbFacts AppFacts StoreFacts LoopFacts
    QueryFacts OpenedFacts TransactionFacts IngestFacts ExamplesFacts
    CatalogFacts.

(** C3.  The dialog on a database of this module whose stored values have
    the types of their columns, with the widgets reading a form whose asset
    is in the catalog and whose floats are not negative zero.  Bulk
    creation with free codes: turn 0 stores the base code and the base
    serial as given, every later turn stores the code and the serial of
    the turn before after one pass through [increment_string] (an empty
    serial stays empty); the codes are shown in that order.  With quantity
    3 and base code A001 on a registry without records the codes are A001,
    A002, A003. *)
Theorem bulk_creation_codes :
  (∀ (now : nat → string) (f : form) (db : database),
     opened db -> typed_db db -> form_typed f = true -> selectable f db ->
     nonempty (kode f) = true -> (1 <= quantity f)%nat ->
     NoDup (map (nth_kode f) (seq 0 (quantity f))) ->
     (∀ i, (i < quantity f)%nat -> ¬ has_kode (nth_kode f i) db) ->
     let row_at := bulk_row now (template_of f db) (master_of f db) f in
     add_inventory_dialog now f db
     = (inr [StSuccess ("Successfully created "
                          ++ str_of_Z (Z.of_nat (quantity f)) ++ " items!");
             StWrite (map (nth_kode f) (seq 0 (quantity f)));
             StRerun],
        add_rows db (map row_at (seq 0 (quantity f))))
     ∧ (∀ i, col (row_at i) "kode" = VStr (nth_kode f i)
             ∧ col (row_at i) "serial_number" = VStr (nth_serial f i))
     ∧ nth_kode f 0 = kode f ∧ nth_serial f 0 = serial_number f
     ∧ (∀ i, nth_kode f (S i) = increment_string1 (nth_kode f i))
     ∧ (∀ i, nth_serial f (S i) = increment_string1 (nth_serial f i))
     ∧ (serial_number f = "" -> ∀ i, nth_serial f i = ""))
  ∧ selectable (laptop_form "A001" "" 3) catalog_db
  ∧ fst (add_inventory_dialog clock (laptop_form "A001" "" 3) catalog_db)
    = inr [StSuccess "Successfully created 3 items!";
           StWrite ["A001"; "A002"; "A003"]; StRerun]
  ∧ map (λ r, col r "kode")
      (t_rows (fact_inventory
                 (snd (add_inventory_dialog clock (laptop_form "A001" "" 3)
                         catalog_db))))
    = [VStr "A001"; VStr "A002"; VStr "A003"].
Proof.
  split; [| split; [apply selectable_laptop; vm_compute; reflexivity |];
            split; vm_compute; reflexivity].
  intros now f db Hop Hty Hform Hsel Hne Hq Hnd Hfree row_at.
  assert (Ht := template_ok f db Hop). assert (Hm := master_ok f db Hop).
  split; [| split; [| repeat split]].
  - rewrite (dialog_selectable now f db (proj1 Hop) Hsel).
    rewrite (save_items_loop now f db Hop Hne).
    + unfold bulk_loop.
      destruct (loop_ok now _ _ f Ht Hm (quantity f) 0
                  {| current_kode := kode f; current_serial := serial_number f;
                     created_kodes := [] |} db) as (st' & Hrun & Hcr & _).
      * apply Hop.
      * apply before_start.
      * intros i Hi. apply kode_taken_not, Hfree. lia.
      * exact Hnd.
      * rewrite Hrun, Hcr. reflexivity.
    + apply kode_taken_not. apply (Hfree 0%nat). lia.
  - intros i. destruct (row_at_cols now _ _ f Ht Hm i) as (H1 & H2 & _). auto.
  - intros H i. now apply nth_serial_empty.
Qed.

(** An instance: quantity 3, base code A001 and base serial SN-9 on the
    catalog that holds the laptop. *)
Lemma bulk_creation_codes_witness :
  add_inventory_dialog clock (laptop_form "A001" "SN-9" 3) catalog_db
  = (inr [StSuccess "Successfully created 3 items!";
          StWrite ["A001"; "A002"; "A003"]; StRerun],
     add_rows catalog_db
       (map (bulk_row clock
               (template_of (laptop_form "A001" "SN-9" 3) catalog_db)
               (master_of (laptop_form "A001" "SN-9" 3) catalog_db)
               (laptop_form "A001" "SN-9" 3)) (seq 0 3))).
Proof.
  apply (proj1 bulk_creation_codes clock (laptop_form "A001" "SN-9" 3)
           catalog_db).
  - apply opened_catalog_db.
  - apply typed_catalog_db.
  - reflexivity.
  - apply selectable_laptop. vm_compute. reflexivity.
  - reflexivity.
  - simpl. lia.
  - apply (bool_decide_unpack (NoDup _)). vm_compute. exact I.
  - intros i Hi. apply kode_taken_not. reflexivity.
Defined.

(** C4.  The same dialog, when the code of turn [m] is taken (in the
    registry, or by an earlier turn of the batch) after [m >= 1] turns with
    free codes: the [m] records of those turns stay stored, no later turn
    runs, and the dialog shows the driver's message alone: the text names
    neither the number of records stored nor the code that failed.  With
    base code A001, quantity 3 and A002 in the registry, one record (A001)
    is stored. *)
Theorem bulk_creation_failure :
  (∀ (now : nat → string) (f : form) (db : database) (m : nat),
     opened db -> typed_db db -> form_typed f = true -> selectable f db ->
     nonempty (kode f) = true -> (0 < m < quantity f)%nat ->
     NoDup (map (nth_kode f) (seq 0 m)) ->
     (∀ i, (i < m)%nat -> ¬ has_kode (nth_kode f i) db) ->
     has_kode (nth_kode f m) db ∨ nth_kode f m ∈ map (nth_kode f) (seq 0 m) ->
     add_inventory_dialog now f db
     = (inr [StError "Error: UNIQUE constraint failed: fact_inventory.kode"],
        add_rows db
          (map (bulk_row now (template_of f db) (master_of f db) f) (seq 0 m))))
  ∧ selectable (laptop_form "A001" "" 3) (stocked ["A002"])
  ∧ map (λ r, col r "kode") (t_rows (fact_inventory (stocked ["A002"])))
    = [VStr "A002"]
  ∧ fst (add_inventory_dialog clock (laptop_form "A001" "" 3) (stocked ["A002"]))
    = inr [StError "Error: UNIQUE constraint failed: fact_inventory.kode"]
  ∧ map (λ r, col r "kode")
      (t_rows (fact_inventory
                 (snd (add_inventory_dialog clock (laptop_form "A001" "" 3)
                         (stocked ["A002"])))))
    = [VStr "A002"; VStr "A001"].
Proof.
  split; [| split; [apply selectable_laptop; vm_compute; reflexivity |];
            repeat split; vm_compute; reflexivity].
  intros now f db m Hop Hty Hform Hsel Hne Hm Hnd Hfree Htaken.
  assert (Ht := template_ok f db Hop). assert (Hs := master_ok f db Hop).
  rewrite (dialog_selectable now f db (proj1 Hop) Hsel).
  rewrite (save_items_loop now f db Hop Hne).
  - unfold bulk_loop.
    rewrite (loop_fail now _ _ f Ht Hs m (quantity f) 0); try reflexivity.
    + apply Hop.
    + apply before_start.
    + lia.
    + intros i Hi. apply kode_taken_not, Hfree. lia.
    + exact Hnd.
    + destruct Htaken as [H | H]; [left; now apply kode_taken_has | now right].
  - apply kode_taken_not. apply (Hfree 0%nat). lia.
Qed.

(** An instance: base code A001, quantity 3, with A002 stored by an
    earlier run of the dialog. *)
Lemma bulk_creation_failure_witness :
  add_inventory_dialog clock (laptop_form "A001" "" 3) (stocked ["A002"])
  = (inr [StError "Error: UNIQUE constraint failed: fact_inventory.kode"],
     add_rows (stocked ["A002"])
       (map (bulk_row clock
               (template_of (laptop_form "A001" "" 3) (stocked ["A002"]))
               (master_of (laptop_form "A001" "" 3) (stocked ["A002"]))
               (laptop_form "A001" "" 3)) (seq 0 1))).
Proof.
  apply (proj1 bulk_creation_failure clock (laptop_form "A001" "" 3)
           (stocked ["A002"]) 1%nat).
  - apply opened_stocked_A002.
  - apply typed_stocked_A002.
  - reflexivity.
  - apply selectable_laptop. vm_compute. reflexivity.
  - reflexivity.
  - simpl. lia.
  - apply (bool_decide_unpack (NoDup _)). vm_compute. exact I.
  - intros i Hi. apply kode_taken_not.
    assert (i = 0%nat) as -> by lia. vm_compute. reflexivity.
  - left. apply kode_taken_has. vm_compute. reflexivity.
Defined.

(** Two runs of the dialog on databases that earlier runs of the dialogs
    made: one batch stops at A002 after 1 record, the other at B003 after 2
    records, and the dialog shows the same thing both times, so what is
    shown gives neither the count nor the code. *)
Lemma bulk_failure_report_is_blind :
  let run1 := add_inventory_dialog clock (laptop_form "A001" "" 3)
                (stocked ["A002"]) in
  let run2 := add_inventory_dialog clock (laptop_form "B001" "" 3)
                (stocked ["B003"]) in
  selectable (laptop_form "A001" "" 3) (stocked ["A002"])
  ∧ selectable (laptop_form "B001" "" 3) (stocked ["B003"])
  ∧ map (λ r, col r "kode") (t_rows (fact_inventory (snd run1)))
    = [VStr "A002"; VStr "A001"]
  ∧ map (λ r, col r "kode") (t_rows (fact_inventory (snd run2)))
    = [VStr "B003"; VStr "B001"; VStr "B002"]
  ∧ fst run1
    = inr [StError "Error: UNIQUE constraint failed: fact_inventory.kode"]
  ∧ fst run2 = fst run1
  ∧ ¬ ∃ read : exn + list ui → nat * string,
        read (fst run1) = (1%nat, "A002") ∧ read (fst run2) = (2%nat, "B003").
Proof.
  intros run1 run2.
  assert (E : fst run2 = fst run1) by (vm_compute; reflexivity).
  split; [apply selectable_laptop; vm_compute; reflexivity |].
  split; [apply selectable_laptop; vm_compute; reflexivity |].
  split; [vm_compute; reflexivity |].
  split; [vm_compute; reflexivity |].
  split; [vm_compute; reflexivity |].
  split; [exact E |].
  intros (read & H1 & H2).
  rewrite E, H1 in H2. discriminate H2.
Qed.




End AppSpec.

(** * helpers/db.py *)

Module DbSpec.
  Import Text Utils Py Monad Sql Pandas Db App Examples.
  Import TextFacts UtilsFacts SqlFacts DbFacts AppFacts StoreFacts LoopFacts
    QueryFacts OpenedFacts TransactionFacts ExamplesFacts.




(** C8.  On the declared table, when the codes stored for the asset are
    text: [get_latest_item] returns no row exactly when the asset has no
    record, and otherwise a record of the asset whose code is above the
    code of every record of the asset in the order of code points.  With
    codes 0124 and 0224 stored for one asset, the record 0224 is returned. *)
Theorem get_latest_item_max :
  (∀ (n : string) (db : database),
     declared db ->
     (∀ r, r ∈ t_rows (fact_inventory db) -> col r "nama_aset" = VStr n ->
           ∃ k, col r "kode" = VStr k) ->
     ∃ res, get_latest_item (VStr n) db = (inr res, db)
       ∧ match res with
         | None =>
             ∀ r, r ∈ t_rows (fact_inventory db) -> col r "nama_aset" ≠ VStr n
         | Some top =>
             top ∈ t_rows (fact_inventory db)
             ∧ col top "nama_aset" = VStr n
             ∧ ∀ r k k', r ∈ t_rows (fact_inventory db) ->
                 col r "nama_aset" = VStr n ->
                 col r "kode" = VStr k' -> col top "kode" = VStr k ->
                 String.leb k' k = true
         end)
  ∧ get_latest_item (VStr "Laptop") (db_with2 "0124" "0224" "Laptop")
    = (inr (Some (row_of_data yesterday (record "0224" "" "Laptop"))),
       db_with2 "0124" "0224" "Laptop").
Proof.
  split; [| vm_compute; reflexivity].
  intros n db Hd Htext.
  rewrite (get_latest_item_spec db Hd n).
  eexists. split; [reflexivity |].
  set (mine := filter (λ r, sql_eq (col r "nama_aset") (VStr n) = true)
                 (t_rows (fact_inventory db))).
  assert (Hmine : ∀ r, r ∈ mine
            <-> col r "nama_aset" = VStr n ∧ r ∈ t_rows (fact_inventory db)).
  { intros r. unfold mine. rewrite list_elem_of_filter, sql_eq_text. tauto. }
  assert (Hkeys : Forall (λ x, ∃ k, col x "kode" = VStr k) mine).
  { apply Forall_forall. intros r Hr. apply Hmine in Hr as [Hn Hr]. eauto. }
  pose proof (head_sorted_is_max "kode" mine Hkeys) as Hmax.
  destruct (head _) as [top |]; simpl in Hmax.
  - destruct Hmax as [Hin Hle]. apply Hmine in Hin as [Hn Hin].
    split; [exact Hin |]. split; [exact Hn |].
    intros r k k' Hr Hrn Hk' Hk. apply (Hle r k k'); [| assumption..].
    apply Hmine. auto.
  - intros r Hr Hn. assert (r ∈ mine) as Hin by (apply Hmine; auto).
    rewrite Hmax in Hin. inversion Hin.
Qed.

(** An instance: the registry with codes 0124 and 0224. *)
Lemma get_latest_item_max_witness :
  ∃ res, get_latest_item (VStr "Laptop") (db_with2 "0124" "0224" "Laptop")
         = (inr res, db_with2 "0124" "0224" "Laptop")
    ∧ match res with
      | None =>
          ∀ r, r ∈ t_rows (fact_inventory (db_with2 "0124" "0224" "Laptop")) ->
               col r "nama_aset" ≠ VStr "Laptop"
      | Some top =>
          top ∈ t_rows (fact_inventory (db_with2 "0124" "0224" "Laptop"))
          ∧ col top "nama_aset" = VStr "Laptop"
          ∧ ∀ r k k',
              r ∈ t_rows (fact_inventory (db_with2 "0124" "0224" "Laptop")) ->
              col r "nama_aset" = VStr "Laptop" ->
              col r "kode" = VStr k' -> col top "kode" = VStr k ->
              String.leb k' k = true
      end.
Proof.
  apply (proj1 get_latest_item_max "Laptop" (db_with2 "0124" "0224" "Laptop")).
  - apply opened_db_with2.
  - intros r Hr _. simpl in Hr.
    apply elem_of_cons in Hr as [-> | Hr]; [eexists; vm_compute; reflexivity |].
    apply elem_of_cons in Hr as [-> | Hr]; [eexists; vm_compute; reflexivity |].
    inversion Hr.
Defined.


End DbSpec.

(** * helpers/automation.py: the directory scan *)

Module AutomationSpec.
  Import Text Py Monad Sql Pandas Db Automation Examples.
  Import SqlFacts ScanFacts CompareFacts.

(** C5.  A compared pair is cleaned on both sides: a missing cell, a NULL
    and a text that reads nan in any case give the empty text, any other text
    is trimmed.  The pair is left out of the change record exactly when the
    two cleaned texts are both non-empty, both read as floats and the floats
    are equal, or else when the two texts are equal.  So a stored 17700000
    and a cell "17700000.0", or the float 17700000.0, are not recorded as a
    change, while a cell "17700001" is. *)
Theorem compare_field_numeric_aware :
  (∀ v, isna v = true -> excel_val v = "")
  ∧ db_val VNone = ""
  ∧ (∀ s, lower (strip s) = "nan" ->
          excel_val (VStr s) = "" ∧ db_val (VStr s) = "")
  ∧ (∀ s, lower (strip s) ≠ "nan" ->
          excel_val (VStr s) = strip s ∧ db_val (VStr s) = strip s)
  ∧ (∀ e d, same_number e d = true
            <-> e ≠ "" ∧ d ≠ ""
                ∧ ∃ x y, float_of_string e = Some x ∧ float_of_string d = Some y
                         ∧ float_eqb x y = true)
  ∧ (∀ (r : Series) (db_row : row) (excel_col db_col e d : string),
       e = excel_val (row_get r excel_col (VStr "")) ->
       d = db_val (get_or db_row db_col (VStr "")) ->
       (compare_field r db_row (excel_col, db_col) = []
        <-> same_number e d = true ∨ e = d)
       ∧ (compare_field r db_row (excel_col, db_col) ≠ [] ->
          compare_field r db_row (excel_col, db_col)
          = [(excel_col ++ " (Excel)", e); (excel_col ++ " (DB)", d)]))
  ∧ (∀ (r : Series) (db_row : row) (excel_col db_col : string) (cell : val),
       row_get r excel_col (VStr "") = cell ->
       get_or db_row db_col (VStr "") = VInt 17700000 ->
       (cell = VStr "17700000.0" ∨ cell = VStr " 1.77e7 " ∨ cell = VInt 17700000
        ∨ cell = VFloat (S754_finite false 4751307571200000 (-28)) ->
        compare_field r db_row (excel_col, db_col) = [])
       ∧ (cell = VStr "17700001" ->
          compare_field r db_row (excel_col, db_col)
          = [(excel_col ++ " (Excel)", "17700001");
             (excel_col ++ " (DB)", "17700000")])).
Proof.
  split; [| split; [| split; [| split; [| split; [| split]]]]].
  - intros v H. unfold excel_val. now rewrite H.
  - reflexivity.
  - intros s H. unfold excel_val, db_val, drop_nan_text. simpl isna. cbv iota.
    change (str (VStr s)) with s. now rewrite H.
  - intros s H. unfold excel_val, db_val, drop_nan_text. simpl isna. cbv iota.
    change (str (VStr s)) with s.
    destruct (String.eqb_spec (lower (strip s)) "nan"); [contradiction |].
    now split.
  - exact same_number_spec.
  - intros r db_row excel_col db_col e d -> ->. split.
    + rewrite compare_field_nil. unfold field_changed.
      destruct (same_number _ _); [split; auto |].
      destruct (String.eqb_spec (excel_val (row_get r excel_col (VStr "")))
                  (db_val (get_or db_row db_col (VStr "")))); simpl; split;
        try congruence; auto.
      intros [H | H]; congruence.
    + unfold compare_field. now destruct (field_changed _ _).
  - intros r db_row excel_col db_col cell Hc Hd. split.
    + intros H. apply compare_field_nil. rewrite Hc, Hd.
      destruct H as [-> | [-> | [-> | ->]]]; vm_compute; reflexivity.
    + intros ->. unfold compare_field. rewrite Hc, Hd.
      replace (field_changed _ _) with true by (vm_compute; reflexivity).
      replace (excel_val (VStr "17700001")) with "17700001"
        by (vm_compute; reflexivity).
      replace (db_val (VInt 17700000)) with "17700000"
        by (vm_compute; reflexivity).
      reflexivity.
Qed.

(** On a database file that [create_tables] made, whatever its rows, the
    query of the scan names a column the inventory table does not have: the
    scan raises and the registry keeps what it held. *)
Lemma scan_declared_schema_raises :
  ∀ (now : string) (directories : option (list string))
    (assets records : list row) (fs : filesystem) (results : scan_results),
    let w := {| w_db := {| dim_assets := with_rows new_dim_assets assets;
                           fact_inventory := with_rows new_fact_inventory records |};
                w_fs := fs; w_results := results |} in
    scan_directory now directories w
    = (inl (OperationalError "no such column: is_deleted"), w).
Proof.
  intros now directories assets records fs results w.
  rewrite scan_directory_spec, load_inventory_spec. reflexivity.
Qed.

End AutomationSpec.

(** * helpers/utils.py: further properties *)

Module UtilsMore.
  Import Text Utils App TextFacts UtilsFacts SequencerFacts.

(** On texts of code points below 256: a step of zero gives the text
    back, whatever it is.  The number is read and written again at its own
    length, zeros in front included; when the run is too long to be read
    the text comes back as well. *)
Theorem increment_string_zero_steps (s : string) : increment_string s 0 = s.
Proof.
  destruct (has_digit_cases s) as [H | (p & r & x & H)].
  - now apply increment_no_digit.
  - apply increment_zero.
Qed.

(** On texts of code points below 256 and shorter than the digit limit:
    two steps forward are one step by the sum, as long as the sum is at
    most [step_bound]. *)
Theorem increment_string_steps_add (s : string) (a b : Z) :
  0 <= a -> 0 <= b ->
  (String.length s < int_max_str_digits)%nat -> a + b <= step_bound ->
  increment_string (increment_string s a) b = increment_string s (a + b).
Proof.
  intros Ha Hb Hs Hab. now apply increment_compose.
Qed.

(** An instance: 0998, two forward and then five. *)
Lemma increment_string_steps_add_witness :
  increment_string (increment_string "PO-0998/x" 2) 5
  = increment_string "PO-0998/x" (2 + 5).
Proof.
  apply (increment_string_steps_add "PO-0998/x" 2 5); try lia.
  - apply short_text. reflexivity.
  - pose proof step_bound_large. lia.
Defined.

(** On a text of code points below 256 and shorter than the digit limit,
    [i] default steps, for [i] up to [step_bound], are one step by [i]:
    so are the code and the serial of turn [i] of the bulk loop, which the
    loop reaches by [i] default steps from the base values. *)
Theorem increment_string_iterated (s : string) (i : nat) :
  (String.length s < int_max_str_digits)%nat -> Z.of_nat i <= step_bound ->
  Nat.iter i increment_string1 s = increment_string s (Z.of_nat i)
  /\ (forall f : form, kode f = s ->
        nth_kode f i = increment_string (kode f) (Z.of_nat i))
  /\ (forall f : form, serial_number f = s ->
        nth_serial f i = increment_string (serial_number f) (Z.of_nat i)).
Proof.
  intros Hs Hi. pose proof (increment_iter s i Hs Hi) as H.
  split; [exact H |].
  split; intros f <-; exact H.
Qed.

(** An instance: the third turn from A008. *)
Lemma increment_string_iterated_witness :
  Nat.iter 3 increment_string1 "A008" = increment_string "A008" 3
  /\ increment_string "A008" 3 = "A011".
Proof.
  split; [| reflexivity].
  apply (increment_string_iterated "A008" 3).
  - apply short_text. reflexivity.
  - pose proof step_bound_large. lia.
Defined.

(** On texts of code points below 256 and shorter than the digit limit: a
    step forward of at most [step_bound] that leaves the length of the text
    as it was is undone by the same step backward.  When the number
    outgrows its width the way back keeps the new width: v99 goes to v100
    and back to v099.  No step, whatever the text and the step, gives a
    shorter text. *)
Theorem increment_string_step_back :
  (forall (s : string) (a : Z),
     0 <= a <= step_bound ->
     (String.length s < int_max_str_digits)%nat ->
     String.length (increment_string s a) = String.length s ->
     increment_string (increment_string s a) (- a) = s)
  /\ increment_string (increment_string "v99" 1) (- 1) = "v099"
  /\ (forall (s : string) (a : Z),
        (String.length s <= String.length (increment_string s a))%nat).
Proof.
  split; [intros s a Ha Hs Hl; now apply increment_undo |].
  split; [reflexivity | exact increment_length].
Qed.

End UtilsMore.

(** * helpers/db.py: further properties *)

Module DbMore.
  Import Text Utils Py Monad Sql Pandas Db App Examples.
  Import TextFacts UtilsFacts SqlFacts DbFacts AppFacts StoreFacts LoopFacts
    QueryFacts OpenedFacts TransactionFacts ExamplesFacts RegistryFacts.
  Import Dialogs MoreExamples DialogFacts.

(** A record whose values have the types of their columns, with an asset
    name and a text code that is free, goes in and out again: before the
    insert [kode_exists] says no; the insert succeeds; afterwards
    [kode_exists] says yes, and [serial_exists] too for the record's serial
    number; [delete_inventory] of the code then reports a deletion and
    leaves the database exactly as it was before the insert. *)
Theorem inventory_insert_then_delete (now : string) (data : dict)
    (db : database) (k n : string) :
  declared db -> typed_record data = true ->
  data !! "Kode" = Some (VStr k) -> data !! "Nama Aset" = Some (VStr n) ->
  ¬ has_kode k db ->
  let db1 := add_rows db [row_of_data now data] in
  kode_exists (VStr k) db = (inr false, db)
  ∧ insert_inventory now data db = (inr tt, db1)
  ∧ kode_exists (VStr k) db1 = (inr true, db1)
  ∧ (∀ s, data !! "Serial Number" = Some (VStr s) ->
          serial_exists (VStr s) db1 = (inr true, db1))
  ∧ delete_inventory (VStr k) db1 = (inr true, db).
Proof.
  intros Hd Ht Hk Hn Hfree db1.
  assert (Hd1 : declared db1).
  { split; [unfold db1; rewrite add_rows_dim; apply Hd | apply add_rows_declared]. }
  apply kode_taken_not in Hfree.
  destruct (row_of_data_cols now data) as (C1 & C2 & _).
  unfold get in C1, C2. rewrite Hk in C1.
  change (col (row_of_data now data) "kode" = VStr k) in C1.
  assert (Ht1 : kode_taken k db1 = true).
  { unfold db1. rewrite kode_taken_add, C1.
    rewrite (proj2 (sql_eq_text (VStr k) k) eq_refl). apply orb_true_r. }
  split. { now rewrite (kode_exists_spec db Hd), Hfree. }
  split.
  { rewrite (insert_inventory_typed now data db k n (proj2 Hd) Ht Hk Hn).
    now rewrite Hfree. }
  split. { now rewrite (kode_exists_spec db1 Hd1), Ht1. }
  split.
  { intros s Hs. rewrite Hs in C2.
    change (col (row_of_data now data) "serial_number" = VStr s) in C2.
    rewrite (serial_exists_spec s db1 Hd1).
    do 2 f_equal. unfold db1. rewrite add_rows_rows, existsb_app.
    cbn [existsb].
    rewrite C2, (proj2 (sql_eq_text (VStr s) s) eq_refl).
    now rewrite orb_true_r. }
  rewrite (delete_inventory_unfold k db1 Hd1), Ht1. f_equal.
  unfold db1. rewrite add_rows_rows.
  rewrite (filter_last_hit (λ r, sql_eq (col r "kode") (VStr k))).
  - unfold add_rows. cbn [set_table dim_assets fact_inventory].
    now apply declared_eta.
  - exact Hfree.
  - rewrite C1. now apply sql_eq_text.
Qed.

(** An instance: code A002 on a registry that holds A001. *)
Lemma inventory_insert_then_delete_witness :
  delete_inventory (VStr "A002")
    (add_rows (db_with "A001" "SN-1" "Laptop")
       [row_of_data "2024-01-02T10:00:00" (record "A002" "SN-2" "Laptop")])
  = (inr true, db_with "A001" "SN-1" "Laptop").
Proof.
  apply (inventory_insert_then_delete "2024-01-02T10:00:00"
           (record "A002" "SN-2" "Laptop") (db_with "A001" "SN-1" "Laptop")
           "A002" "Laptop").
  - apply opened_db_with.
  - reflexivity.
  - reflexivity.
  - reflexivity.
  - apply kode_taken_not. vm_compute. reflexivity.
Defined.

(** [delete_inventory] of a text code on the declared tables returns
    whether a record had the code.  It removes the records with that code
    and no other, keeps the order of the rest and leaves the catalog alone;
    when no record has the code nothing changes at all. *)
Theorem delete_inventory_removes_code (k : string) (db : database) :
  declared db ->
  ∃ (deleted : bool) (db' : database),
    delete_inventory (VStr k) db = (inr deleted, db')
    ∧ (deleted = true <-> has_kode k db)
    ∧ declared db'
    ∧ dim_assets db' = dim_assets db
    ∧ sublist (t_rows (fact_inventory db')) (t_rows (fact_inventory db))
    ∧ (∀ r, r ∈ t_rows (fact_inventory db')
            <-> r ∈ t_rows (fact_inventory db) ∧ col r "kode" ≠ VStr k)
    ∧ ¬ has_kode k db'
    ∧ (¬ has_kode k db -> db' = db).
Proof.
  intros Hd. rewrite (delete_inventory_unfold k db Hd).
  eexists _, _. split; [reflexivity |].
  cbn [set_table dim_assets fact_inventory t_rows with_rows].
  assert (Hmem : ∀ r,
            r ∈ filter (λ r, sql_eq (col r "kode") (VStr k) ≠ true)
                  (t_rows (fact_inventory db))
            <-> r ∈ t_rows (fact_inventory db) ∧ col r "kode" ≠ VStr k).
  { intros r. rewrite list_elem_of_filter, sql_eq_text. tauto. }
  split; [apply kode_taken_has |].
  split; [split; [apply Hd | reflexivity] |].
  split; [reflexivity |].
  split; [apply sublist_filter |].
  split; [exact Hmem |].
  split.
  - intros (r & Hr & Hk). apply Hmem in Hr as [_ Hne]. contradiction.
  - intros Hfree. apply kode_taken_not in Hfree.
    rewrite filter_none by exact Hfree. now apply declared_eta.
Qed.

(** An instance: the registry that holds A001 alone. *)
Lemma delete_inventory_removes_code_witness :
  ∃ (deleted : bool) (db' : database),
    delete_inventory (VStr "A001") (db_with "A001" "SN-1" "Laptop")
    = (inr deleted, db')
    ∧ (deleted = true <-> has_kode "A001" (db_with "A001" "SN-1" "Laptop"))
    ∧ ¬ has_kode "A001" db'.
Proof.
  destruct (delete_inventory_removes_code "A001" (db_with "A001" "SN-1" "Laptop"))
    as (deleted & db' & H1 & H2 & _ & _ & _ & _ & H3 & _).
  - apply opened_db_with.
  - exists deleted, db'. auto.
Defined.

(** [insert_asset] of an asset with a text name whose values have the
    types of their columns, on the declared catalog: when the catalog has
    an asset of that name it raises the uniqueness error of the primary key
    and changes nothing; otherwise the catalog gains one row, which holds
    under each column the value of [data] under that key ([NULL] for a
    missing key and for a NaN), the registry is untouched, and
    [get_asset_by_name], which found nothing before, now returns that row. *)
Theorem insert_asset_then_lookup (data : dict) (db : database) (n : string) :
  declared db -> typed_asset data = true ->
  data !! "nama_aset" = Some (VStr n) ->
  (asset_known (VStr n) db = true ->
   insert_asset data db
   = (inl (IntegrityError "UNIQUE constraint failed: dim_assets.nama_aset"), db))
  ∧ (asset_known (VStr n) db = false ->
     get_asset_by_name (VStr n) db = (inr None, db)
     ∧ ∃ (asset_row : row) (db' : database),
         insert_asset data db = (inr tt, db')
         ∧ dim_assets db'
           = with_rows new_dim_assets (t_rows (dim_assets db) ++ [asset_row])
         ∧ fact_inventory db' = fact_inventory db
         ∧ (∀ c, c ∈ dim_assets_columns -> col asset_row c = bound (get data c))
         ∧ get_asset_by_name (VStr n) db' = (inr (Some asset_row), db')).
Proof.
  intros Hd Ht Hn.
  assert (Hbind : bind_all (map (get data) dim_assets_columns)
                  = inr (map bound (map (get data) dim_assets_columns))).
  { apply bind_all_ok, Forall_forall. intros v Hv.
    apply list_elem_of_fmap in Hv as (c & -> & Hc).
    apply (storable_bind (column_type c)). now apply typed_asset_field. }
  set (asset_row := make_row new_dim_assets
                      (zip dim_assets_columns
                         (map bound (map (get data) dim_assets_columns)))).
  assert (Hcols : ∀ c, c ∈ dim_assets_columns ->
                       col asset_row c = bound (get data c)).
  { intros c Hc. unfold asset_row. rewrite col_make_row by exact Hc.
    rewrite map_map, (assoc_zip_map (λ c, bound (get data c))) by exact Hc.
    reflexivity. }
  assert (Hname : col asset_row "nama_aset" = VStr n).
  { rewrite Hcols by (apply dim_cols_in; reflexivity).
    unfold get. now rewrite Hn. }
  assert (Hins : insert_into Abort (dim_assets db) dim_assets_columns
                   (map (get data) dim_assets_columns)
                 = if asset_known (VStr n) db
                   then inl (IntegrityError
                               "UNIQUE constraint failed: dim_assets.nama_aset")
                   else inr (with_rows new_dim_assets
                               (t_rows (dim_assets db) ++ [asset_row]), 1%nat)).
  { destruct Hd as [Hdim _]. rewrite Hdim.
    unfold insert_into.
    change (find _ dim_assets_columns) with (@None string).
    cbv iota. rewrite Hbind. rewrite make_row_with_rows.
    fold asset_row.
    change (find _ (t_notnull _)) with (@None string). cbv iota.
    unfold key_taken, asset_known.
    change (t_pk (with_rows new_dim_assets _)) with "nama_aset".
    rewrite Hname. change (bound (VStr n)) with (VStr n).
    cbn [t_rows with_rows].
    destruct (existsb _ _); reflexivity. }
  rewrite insert_asset_unfold, Hins.
  split; [intros ->; reflexivity |].
  intros Hfree. rewrite Hfree.
  assert (Hnone : filter (λ r, sql_eq (col r "nama_aset") (VStr n) = true)
                    (t_rows (dim_assets db)) = []).
  { apply filter_no_hit. exact Hfree. }
  split.
  { rewrite (get_asset_by_name_spec db Hd n). now rewrite Hnone. }
  exists asset_row. eexists. split; [reflexivity |].
  cbn [set_table dim_assets fact_inventory].
  split; [reflexivity |]. split; [reflexivity |]. split; [exact Hcols |].
  rewrite get_asset_by_name_spec.
  - cbn [dim_assets t_rows with_rows].
    rewrite filter_app, Hnone, filter_cons, decide_True, filter_nil;
      [reflexivity |].
    rewrite Hname. now apply sql_eq_text.
  - split; [reflexivity | apply Hd].
Qed.

(** An instance: a printer added to an empty catalog. *)
Lemma insert_asset_then_lookup_witness :
  get_asset_by_name (VStr "Printer") fresh_db = (inr None, fresh_db)
  ∧ ∃ (asset_row : row) (db' : database),
      insert_asset (asset_data printer_form) fresh_db = (inr tt, db')
      ∧ col asset_row "brand" = VStr "HP"
      ∧ get_asset_by_name (VStr "Printer") db' = (inr (Some asset_row), db').
Proof.
  destruct (insert_asset_then_lookup (asset_data printer_form) fresh_db "Printer")
    as [_ H].
  - apply opened_fresh.
  - reflexivity.
  - apply asset_data_name.
  - destruct (H eq_refl) as (H0 & asset_row & db' & H1 & _ & _ & H2 & H3).
    split; [exact H0 |]. exists asset_row, db'.
    split; [exact H1 |]. split; [| exact H3].
    rewrite H2 by (apply dim_cols_in; reflexivity). reflexivity.
Defined.

End DbMore.
